(** * move-clippy ecosystem scripts: benchmark, baseline comparison, triage metrics

    A shallow embedding of the four Python scripts

      - scripts/ecosystem_benchmark.py
      - scripts/compare_baselines.py
      - tests/ecosystem_validation/calculate_metrics.py
      - tests/ecosystem_validation/scripts/analyze_fp.py

    Conventions of the embedding.

    - A Python [int] is a [Z]; a Python [str] is a [string] whose characters
      are code points below 256.
    - A Python [dict] is an association list with pairwise distinct keys in
      insertion order ([dict V]), as CPython iterates it: [d[k] = v]
      overwrites in place or appends.  Tables that are only looked up are
      [gmap]s.
    - A Python [set] of strings is a [gset string]; the order in which the
      interpreter iterates over it is not fixed by the language (string
      hashes are salted per process), so it is a parameter [set_iter] of the
      code that iterates.
    - Exceptions are values of [exn]; code that may raise lives in the
      [result] monad, and [try ... except] is [try_except].
    - A Python [float] is a rational that is representable in binary64;
      [/] and [*] round the exact result to nearest, ties to even
      ([round64]).
    - Wall-clock readings ([time.time()], [duration_seconds]) are left out
      of the records. *)

From Stdlib Require Import Ascii String.
From stdpp Require Import base option list gmap strings sets sorting.
From Stdlib Require Import ZArith QArith Qround Qpower Lia Lqa.

Open Scope string_scope.
Open Scope Z_scope.
Open Scope list_scope.

(** ** Exceptions *)

Inductive exn :=
| TimeoutExpired
| IndexError
| ValueError
| KeyError (key : string)
| TypeError (text : string)
| ZeroDivisionError
| RecursionError (text : string)
| OtherException (text : string).

(** [str(e)] *)
Definition str_exn (e : exn) : string :=
  match e with
  | TimeoutExpired => "Command timed out after 180 seconds"
  | IndexError => "list index out of range"
  | ValueError => "invalid value"
  | KeyError key => "'" +:+ key +:+ "'"
  | TypeError text => text
  | ZeroDivisionError => "division by zero"
  | RecursionError text => text
  | OtherException text => text
  end.

Inductive result (A : Type) :=
| Return (a : A)
| Raise (e : exn).
Arguments Return {A} a.
Arguments Raise {A} e.

#[global] Instance result_ret : MRet result := fun A a => Return a.
#[global] Instance result_bind : MBind result := fun A B f r =>
  match r with
  | Return a => f a
  | Raise e => Raise e
  end.

(** [try: body except ...: handler]; the handler answers [None] for an
    exception class it does not catch. *)
Definition try_except {A} (body : result A) (handler : exn -> option (result A))
  : result A :=
  match body with
  | Return a => Return a
  | Raise e => default (Raise e) (handler e)
  end.

(** [l[i]] on a list *)
Definition py_index {A} (l : list A) (i : nat) : result A :=
  match l !! i with
  | Some x => Return x
  | None => Raise IndexError
  end.

(** ** Strings *)

Module Str.

(** [s.startswith(p)] *)
Fixpoint startswith (p s : string) : bool :=
  match p, s with
  | EmptyString, _ => true
  | String a p', String b s' => if Ascii.eqb a b then startswith p' s' else false
  | String _ _, EmptyString => false
  end.

(** [sub in s] *)
Fixpoint contains (sub s : string) : bool :=
  startswith sub s ||
  match s with
  | EmptyString => false
  | String _ s' => contains sub s'
  end.

(** [s.endswith(p)] *)
Definition endswith (p s : string) : bool :=
  let n := String.length s in
  let m := String.length p in
  (m <=? n)%nat && String.eqb (String.substring (n - m) m s) p.

Definition snoc (s : string) (c : ascii) : string := s +:+ String c EmptyString.

(** [s.split(sep)] for a non-empty separator: the text is scanned from
    the left, [skip] counts the characters of a separator occurrence still
    to be passed over and [cur] is the piece being collected. *)
Fixpoint split_go (sep : string) (skip : nat) (cur : string) (s : string)
  : list string :=
  match s with
  | EmptyString => [cur]
  | String c s' =>
      match skip with
      | S k => split_go sep k cur s'
      | O =>
          if startswith sep s
          then cur :: split_go sep (String.length sep - 1) EmptyString s'
          else split_go sep 0 (snoc cur c) s'
      end
  end.

Definition split (sep s : string) : list string := split_go sep 0 EmptyString s.

(** [c.isspace()] on the code points below 256 *)
Definition isspace (c : ascii) : bool :=
  let n := nat_of_ascii c in
  ((9 <=? n) && (n <=? 13) || (28 <=? n) && (n <=? 32)
   || (n =? 133) || (n =? 160))%nat.

Fixpoint lstrip (s : string) : string :=
  match s with
  | EmptyString => EmptyString
  | String c s' => if isspace c then lstrip s' else s
  end.

Fixpoint rstrip (s : string) : string :=
  match s with
  | EmptyString => EmptyString
  | String c s' =>
      match rstrip s' with
      | EmptyString => if isspace c then EmptyString else String c EmptyString
      | r => String c r
      end
  end.

(** [s.strip()] *)
Definition strip (s : string) : string := rstrip (lstrip s).

(** [sep.join(l)] *)
Fixpoint join (sep : string) (l : list string) : string :=
  match l with
  | [] => EmptyString
  | x :: l' =>
      match l' with
      | [] => x
      | _ => x +:+ sep +:+ join sep l'
      end
  end.

End Str.

(** ** Dictionaries in insertion order *)

Abbreviation dict V := (list (string * V)%type).

Section Dict.
Context {V : Type}.

(** [d.get(k)] *)
Fixpoint dict_get (d : dict V) (k : string) : option V :=
  match d with
  | [] => None
  | (k', v) :: d' => if String.eqb k' k then Some v else dict_get d' k
  end.

(** [d[k] = v] *)
Fixpoint dict_set (d : dict V) (k : string) (v : V) : dict V :=
  match d with
  | [] => [(k, v)]
  | (k', v') :: d' =>
      if String.eqb k' k then (k', v) :: d' else (k', v') :: dict_set d' k v
  end.

(** [d.keys()], [d.values()] *)
Definition dict_keys (d : dict V) : list string := d.*1.
Definition dict_values (d : dict V) : list V := d.*2.

(** [d[k]] *)
Definition dict_item (d : dict V) (k : string) : result V :=
  match dict_get d k with
  | Some v => Return v
  | None => Raise (KeyError k)
  end.

(** The read-modify-write [d[k] = f(d[k])] on a [defaultdict] whose
    factory returns [dflt]: a missing key is created. *)
Definition dict_upd (dflt : V) (d : dict V) (k : string) (f : V -> V) : dict V :=
  dict_set d k (f (default dflt (dict_get d k))).

End Dict.

(** [sum(xs)] *)
Definition zsum (xs : list Z) : Z := foldr Z.add 0 xs.
Arguments zsum : simpl never.

(** ** ecosystem_benchmark.py *)

Module RepoResult.
Record t := mk {
  name : string;
  total_findings : Z;
  move_files : Z;
  lint_breakdown : dict Z;
  error : option string
}.
End RepoResult.

(** What the benchmark reads from the machine it runs on: the file tree
    under a path, how deep the interpreter can walk it, and the outcome of
    running the analyzer. *)
#[warnings="-register-all"] Inductive fs_node :=
| File (name : string)
| Dir (name : string) (entries : list fs_node).

Record Env := {
  fs : string -> option fs_node;
  (** Up to Python 3.11 [os.walk] recurses once per directory level: with
      [Some (limit, text)] a walk that has to enter more than [limit]
      nested directories ends in a [RecursionError] with the message
      [text].  [None] where [os.walk] does not recurse (Python 3.12 and
      later). *)
  walk_limit : option (nat * string);
  (** [subprocess.run(cmd, capture_output=True, text=True, timeout=180)]:
      the captured [(stdout, stderr)], or the exception it raised *)
  subprocess_run : list string -> result (string * string)
}.

(** [os.path.isdir] *)
Definition isdir (env : Env) (path : string) : bool :=
  match fs env path with
  | Some (Dir _ _) => true
  | _ => false
  end.

Definition skipped_dirs : list string := ["dependencies"; "build"; ".git"; "node_modules"].

(** The [os.walk] of [count_move_files] below one entry of a directory:
    a pruned directory is not entered. *)
Fixpoint walk_count (n : fs_node) : Z :=
  match n with
  | File nm => if Str.endswith ".move" nm then 1 else 0
  | Dir nm entries =>
      if bool_decide (nm ∈ skipped_dirs) then 0
      else (fix go (l : list fs_node) : Z :=
              match l with
              | [] => 0
              | e :: l' => walk_count e + go l'
              end) entries
  end.

(** The number of nested directories that the walk enters at and below an
    entry of a directory *)
Fixpoint walk_depth (n : fs_node) : nat :=
  match n with
  | File _ => 0%nat
  | Dir nm entries =>
      if bool_decide (nm ∈ skipped_dirs) then 0%nat
      else S ((fix go (l : list fs_node) : nat :=
                 match l with
                 | [] => 0%nat
                 | e :: l' => Nat.max (walk_depth e) (go l')
                 end) entries)
  end.

(** [count_move_files]: the count, or the [RecursionError] of a walk that
    is too deep for the interpreter. *)
Definition count_move_files (env : Env) (repo_path : string) : result Z :=
  match fs env repo_path with
  | Some (Dir _ entries) =>
      let count := zsum (walk_count <$> entries) in
      match walk_limit env with
      | Some (limit, text) =>
          if (limit <? max_list (walk_depth <$> entries))%nat
          then Raise (RecursionError text)
          else Return count
      | None => Return count
      end
  | _ => Return 0
  end.

(** The lint name of a line [warning: lint_name: message]: the two
    assignments inside the [try] *)
Definition parse_lint_name (line : string) : result string :=
  after ← py_index (Str.split "warning:" line) 1;
  let after_warning := Str.strip after in
  lint_name ← py_index (Str.split ":" after_warning) 0;
  mret (Str.strip lint_name).

(** The body of the [for line in output.split('\n')] loop, on the pair
    [(total, lint_counts)]. *)
Definition count_line (st : Z * dict Z) (line : string) : result (Z * dict Z) :=
  let '(total, lint_counts) := st in
  if Str.contains "warning:" line then
    let total := total + 1 in
    lint_counts ←
      try_except
        (lint_name ← parse_lint_name line;
         mret (dict_upd 0 lint_counts lint_name (Z.add 1)))
        (fun e =>
           match e with
           | IndexError | ValueError =>
               Some (mret (dict_upd 0 lint_counts "unknown" (Z.add 1)))
           | _ => None
           end);
    mret (total, lint_counts)
  else mret (total, lint_counts).

Fixpoint count_lines (st : Z * dict Z) (lines : list string) : result (Z * dict Z) :=
  match lines with
  | [] => mret st
  | line :: lines' => st' ← count_line st line; count_lines st' lines'
  end.

Definition newline : string := String (ascii_of_nat 10) EmptyString.

(** [cmd], as [run_lint_on_repo] builds it *)
Definition analyzer_cmd (experimental : bool) (repo_path : string) : list string :=
  ["./target/release/move-clippy"]
  ++ (if experimental then ["--experimental"] else [])
  ++ [repo_path].

Definition run_lint_on_repo (env : Env) (args : string * string * bool)
  : result RepoResult.t :=
  let '(repo_name, repo_path, experimental) := args in
  if negb (isdir env repo_path) then
    mret (RepoResult.mk repo_name 0 0 [] (Some ("Directory not found: " +:+ repo_path)))
  else
    move_files ← count_move_files env repo_path;
    if move_files =? 0 then
      mret (RepoResult.mk repo_name 0 0 [] (Some "No .move files found"))
    else
      try_except
        (res ← subprocess_run env (analyzer_cmd experimental repo_path);
         let output := res.1 +:+ res.2 in
         '(total, lint_counts) ← count_lines (0, []) (Str.split newline output);
         mret (RepoResult.mk repo_name total move_files lint_counts None))
        (fun e =>
           match e with
           | TimeoutExpired =>
               Some (mret (RepoResult.mk repo_name 0 move_files [] (Some "Timeout after 180s")))
           | e =>
               Some (mret (RepoResult.mk repo_name 0 move_files [] (Some (str_exn e))))
           end).

(** [lint_metadata[name] = {"category": category, "tier": tier}] *)
Module LintMeta.
Record t := mk {
  category : string;
  tier : string
}.
End LintMeta.

(** [by_lint[name]]: the keys ["count"] and ["repos"] are always there,
    ["tier"] and ["category"] only once they have been assigned. *)
Module LintEntry.
Record t := mk {
  count : Z;
  repos : list string;
  tier : option string;
  category : option string
}.
End LintEntry.

(** [repos[name] = {"findings": ..., "move_files": ..., "error": ...}] *)
Module RepoSummary.
Record t := mk {
  findings : Z;
  move_files : Z;
  error : option string
}.
End RepoSummary.

Module BenchmarkResult.
Record t := mk {
  version : string;
  timestamp : string;
  total_repos : Z;
  repos_with_findings : Z;
  total_findings : Z;
  by_lint : dict LintEntry.t;
  by_tier : dict Z;
  by_category : dict Z;
  repos : dict RepoSummary.t
}.
End BenchmarkResult.

Definition tab : string := String (ascii_of_nat 9) EmptyString.

(** [get_lint_metadata]: the table read off the lines of [list-rules];
    an exception leaves the table as far as it was filled. *)
Definition metadata_of_lines (lines : list string) : gmap string LintMeta.t :=
  foldl (fun metadata line =>
           match Str.split tab line with
           | name :: category :: tier :: _ =>
               <[name := LintMeta.mk category tier]> metadata
           | _ => metadata
           end) ∅ lines.

Definition get_lint_metadata (env : Env) : gmap string LintMeta.t :=
  match subprocess_run env ["./target/release/move-clippy"; "list-rules"] with
  | Return res => metadata_of_lines (Str.split newline (Str.strip res.1))
  | Raise _ => ∅
  end.

(** [str(Path(a) / b)] on a POSIX system.  A path is parsed into its root
    and its components: a leading slash is the root, exactly two leading
    slashes are a root of their own, and empty components and [.] are
    dropped.  An absolute [b] replaces [a]; the path without root and
    components is written [.]. *)
Definition path_root (s : string) : string :=
  if Str.startswith "///" s then "/"
  else if Str.startswith "//" s then "//"
  else if Str.startswith "/" s then "/"
  else EmptyString.

Definition path_parts (s : string) : list string :=
  List.filter (fun x => negb (String.eqb x EmptyString) && negb (String.eqb x "."))
    (Str.split "/" s).

Definition path_join (a b : string) : string :=
  let '(root, parts) :=
    if Str.startswith "/" b then (path_root b, path_parts b)
    else (path_root a, path_parts a ++ path_parts b) in
  let text := root +:+ Str.join "/" parts in
  if String.eqb text EmptyString then "." else text.

(** The work of the process pool as [run_benchmark] sees it: the work items
    in the order [as_completed] hands their futures back, each with the
    exception that collecting its result raised, if any, and with the
    exception that printing its progress line raised, if any.  A run in
    which the [print] of the handler raises in its turn ends
    [run_benchmark] with that exception, without a snapshot; such a run has
    no [completion]. *)
Definition work_item : Type := string * string * bool.
Definition completion : Type := list (work_item * option exn * option exn).

(** [repos_dir] is the text of the path [repos_dir] *)
Definition work_items (repos_dir : string) (experimental : bool) (repos : list string)
  : list work_item :=
  (fun repo => (repo, path_join repos_dir repo, experimental)) <$> repos.

(** [future.result()] *)
Definition future_result (env : Env) (c : work_item * option exn * option exn)
  : result RepoResult.t :=
  match c.1.2 with
  | Some e => Raise e
  | None => run_lint_on_repo env c.1.1
  end.

(** The result that the handler of the loop appends *)
Definition failed_result (repo_name : string) (e : exn) : RepoResult.t :=
  RepoResult.mk repo_name 0 0 [] (Some (str_exn e)).

(** One round of the [for ... in as_completed(futures)] loop.  The result
    of the future is appended before its progress line is printed inside
    the [try], so that an exception of that [print] makes the handler
    append a second result for the same repository. *)
Definition collect_one (env : Env) (c : work_item * option exn * option exn)
  : list RepoResult.t :=
  let repo_name := c.1.1.1.1 in
  match future_result env c with
  | Return r =>
      match c.2 with
      | None => [r]
      | Some e => [r; failed_result repo_name e]
      end
  | Raise e => [failed_result repo_name e]
  end.

(** [results] after the loop *)
Definition collect (env : Env) (done : completion) : list RepoResult.t :=
  done ≫= collect_one env.

(** ["Aggregate by lint"] *)
Definition add_lint (repo : string) (by_lint : dict LintEntry.t) (item : string * Z)
  : dict LintEntry.t :=
  dict_upd (LintEntry.mk 0 [] None None) by_lint item.1
    (fun e => LintEntry.mk (LintEntry.count e + item.2)
                           (LintEntry.repos e ++ [repo])
                           (LintEntry.tier e) (LintEntry.category e)).

Definition aggregate_by_lint (results : list RepoResult.t) : dict LintEntry.t :=
  foldl (fun by_lint r =>
           foldl (add_lint (RepoResult.name r)) by_lint (RepoResult.lint_breakdown r))
        [] results.

(** ["Add tier info"] *)
Definition add_tier_info (lint_metadata : gmap string LintMeta.t)
  (by_lint : dict LintEntry.t) : dict LintEntry.t :=
  (fun kv : string * LintEntry.t =>
     match lint_metadata !! kv.1 with
     | Some m =>
         (kv.1, LintEntry.mk (LintEntry.count kv.2) (LintEntry.repos kv.2)
                  (Some (LintMeta.tier m)) (Some (LintMeta.category m)))
     | None => kv
     end) <$> by_lint.

(** ["Aggregate by tier"]: one pass fills [by_tier] and [by_category]. *)
Definition rollup (key : LintEntry.t -> option string) (by_lint : dict LintEntry.t)
  : dict Z :=
  foldl (fun acc kv =>
           dict_upd 0 acc (default "unknown" (key kv.2)) (Z.add (LintEntry.count kv.2)))
        [] by_lint.

(** ["Build repos dict"] *)
Definition repos_dict (results : list RepoResult.t) : dict RepoSummary.t :=
  foldl (fun d r =>
           dict_set d (RepoResult.name r)
             (RepoSummary.mk (RepoResult.total_findings r) (RepoResult.move_files r)
                (RepoResult.error r)))
        [] results.

Definition aggregate (version timestamp : string) (n_repos : Z)
  (lint_metadata : gmap string LintMeta.t) (results : list RepoResult.t)
  : BenchmarkResult.t :=
  let total_findings := zsum (RepoResult.total_findings <$> results) in
  let repos_with_findings :=
    Z.of_nat (length (List.filter (fun r => 0 <? RepoResult.total_findings r) results)) in
  let by_lint := add_tier_info lint_metadata (aggregate_by_lint results) in
  BenchmarkResult.mk version timestamp n_repos repos_with_findings total_findings
    by_lint (rollup LintEntry.tier by_lint) (rollup LintEntry.category by_lint)
    (repos_dict results).

(** [run_benchmark]; [repos] is the manifest as [load_repo_list] returns it,
    [version] and [timestamp] are what [get_version()] and the clock give. *)
Definition run_benchmark (env : Env) (version timestamp : string)
  (repos : list string) (done : completion) : BenchmarkResult.t :=
  aggregate version timestamp (Z.of_nat (length repos))
    (get_lint_metadata env) (collect env done).

(** ** Sorting

    [list.sort(key=...)] and [sorted] are stable: elements whose keys
    compare equal stay in their original order.  [sort_by le] is the
    insertion sort with that property. *)

Section Sort.
Context {A : Type} (le : A -> A -> bool).

Fixpoint insert_by (x : A) (l : list A) : list A :=
  match l with
  | [] => [x]
  | y :: l' => if le x y then x :: y :: l' else y :: insert_by x l'
  end.

Fixpoint sort_by (l : list A) : list A :=
  match l with
  | [] => []
  | x :: l' => insert_by x (sort_by l')
  end.

End Sort.

(** [l.sort(key=key)] with integer keys *)
Definition sort_by_key {A} (key : A -> Z) : list A -> list A :=
  sort_by (fun x y => key x <=? key y).

(** [sorted(xs)] on strings *)
Definition sorted_strings : list string -> list string := sort_by String.leb.

(** ** compare_baselines.py *)

(** A baseline as [json.load] returns it.  The five scalar fields are read
    with [old['...']]; the tables are read with [.get] and may be missing,
    as may the keys inside their entries. *)
Module LintJ.
Record t := mk {
  count : option Z;
  tier : option string
}.
End LintJ.

Module RepoJ.
Record t := mk {
  findings : option Z
}.
End RepoJ.

Module Baseline.
Record t := mk {
  version : string;
  timestamp : string;
  total_repos : Z;
  repos_with_findings : Z;
  total_findings : Z;
  by_tier : option (dict Z);
  by_lint : option (dict LintJ.t);
  repos : option (dict RepoJ.t)
}.
End Baseline.

(** The baseline that [json.dump(asdict(result))] followed by [json.load]
    gives back. *)
Definition baseline_of (r : BenchmarkResult.t) : Baseline.t :=
  Baseline.mk (BenchmarkResult.version r) (BenchmarkResult.timestamp r)
    (BenchmarkResult.total_repos r) (BenchmarkResult.repos_with_findings r)
    (BenchmarkResult.total_findings r)
    (Some (BenchmarkResult.by_tier r))
    (Some ((fun kv : string * LintEntry.t =>
              (kv.1, LintJ.mk (Some (LintEntry.count kv.2)) (LintEntry.tier kv.2)))
             <$> BenchmarkResult.by_lint r))
    (Some ((fun kv : string * RepoSummary.t =>
              (kv.1, RepoJ.mk (Some (RepoSummary.findings kv.2))))
             <$> BenchmarkResult.repos r)).

Inductive indicator := Red | Green.

Inductive verdict :=
| Regression (more : Z) (version : string)
| Improvement (fewer : Z) (version : string)
| NoChange.

(** A row [(name, old, new, delta)] *)
Definition row : Type := string * Z * Z * Z.
Definition row_name (x : row) : string := x.1.1.1.
Definition row_old (x : row) : Z := x.1.1.2.
Definition row_new (x : row) : Z := x.1.2.
Definition row_delta (x : row) : Z := x.2.

(** What [compare_baselines] prints, section by section.  [new_lints]
    and [removed_lints] are [None] when their section is not printed. *)
Module Comparison.
Record t := mk {
  old_header : string * string;
  new_header : string * string;
  metrics : list row;
  tiers : list row;
  lint_changes : list (indicator * row);
  more_lints : option Z;
  new_lints : option (list (string * string * Z));
  removed_lints : option (list (string * Z));
  repo_changes : list (indicator * row);
  summary : verdict
}.
End Comparison.

Definition keys_set {V} (d : dict V) : gset string := list_to_set (dict_keys d).

Definition mk_row (name : string) (old_val new_val : Z) : row :=
  (name, old_val, new_val, new_val - old_val).

(** The loop that collects [changes] (and [repo_changes]): one row per key
    with a non-zero delta, in the order the keys are visited. *)
Definition changed_rows (old_count new_count : string -> Z) (keys : list string)
  : list row :=
  List.filter (fun x => negb (row_delta x =? 0))
    ((fun k => mk_row k (old_count k) (new_count k)) <$> keys).

Definition with_indicator (x : row) : indicator * row :=
  (if 0 <? row_delta x then Red else Green, x).

Section Comparer.
(** The order in which a [for] loop (or [sorted]) visits a set *)
Variable set_iter : gset string -> list string.

Definition lint_count (lints : dict LintJ.t) (lint : string) : Z :=
  default 0 (dict_get lints lint ≫= LintJ.count).

Definition repo_count (repos : dict RepoJ.t) (repo : string) : Z :=
  default 0 (dict_get repos repo ≫= RepoJ.findings).

(** [changes], after [changes.sort(key=lambda x: -abs(x[3]))] *)
Definition lint_changes_sorted (old new : Baseline.t) : list row :=
  let old_lints := default [] (Baseline.by_lint old) in
  let new_lints := default [] (Baseline.by_lint new) in
  let all_lints := keys_set old_lints ∪ keys_set new_lints in
  sort_by_key (fun x => - Z.abs (row_delta x))
    (changed_rows (lint_count old_lints) (lint_count new_lints) (set_iter all_lints)).

Definition repo_changes_sorted (old new : Baseline.t) : list row :=
  let old_repos := default [] (Baseline.repos old) in
  let new_repos := default [] (Baseline.repos new) in
  sort_by_key (fun x => - Z.abs (row_delta x))
    (changed_rows (repo_count old_repos) (repo_count new_repos)
       (set_iter (keys_set old_repos ∪ keys_set new_repos))).

Definition compare_baselines (old new : Baseline.t) : Comparison.t :=
  let metrics :=
    [ mk_row "Total repos" (Baseline.total_repos old) (Baseline.total_repos new);
      mk_row "Repos with findings" (Baseline.repos_with_findings old)
        (Baseline.repos_with_findings new);
      mk_row "Total findings" (Baseline.total_findings old) (Baseline.total_findings new) ] in
  let old_tiers := default [] (Baseline.by_tier old) in
  let new_tiers := default [] (Baseline.by_tier new) in
  let all_tiers := keys_set old_tiers ∪ keys_set new_tiers in
  let tiers :=
    (fun tier => mk_row tier (default 0 (dict_get old_tiers tier))
                   (default 0 (dict_get new_tiers tier)))
      <$> sorted_strings (set_iter all_tiers) in
  let old_lints := default [] (Baseline.by_lint old) in
  let new_lints := default [] (Baseline.by_lint new) in
  let changes := lint_changes_sorted old new in
  let new_only := keys_set new_lints ∖ keys_set old_lints in
  let removed := keys_set old_lints ∖ keys_set new_lints in
  let repo_changes := repo_changes_sorted old new in
  let total_delta := Baseline.total_findings new - Baseline.total_findings old in
  Comparison.mk
    (Baseline.version old, String.substring 0 10 (Baseline.timestamp old))
    (Baseline.version new, String.substring 0 10 (Baseline.timestamp new))
    metrics
    tiers
    (with_indicator <$> take 20 changes)
    (if 20 <? Z.of_nat (length changes)
     then Some (Z.of_nat (length changes) - 20) else None)
    (if decide (new_only = ∅) then None
     else Some ((fun lint =>
                   (lint,
                    default "unknown" (dict_get new_lints lint ≫= LintJ.tier),
                    lint_count new_lints lint))
                  <$> sorted_strings (set_iter new_only)))
    (if decide (removed = ∅) then None
     else Some ((fun lint => (lint, lint_count old_lints lint))
                  <$> sorted_strings (set_iter removed)))
    (with_indicator <$> take 10 repo_changes)
    (if 0 <? total_delta then Regression total_delta (Baseline.version new)
     else if total_delta <? 0 then Improvement (- total_delta) (Baseline.version new)
     else NoChange).

End Comparer.

(** ** Floating point

    A [float] is the rational value of a binary64 number.  An arithmetic
    operation returns the exact result rounded to 53 significant bits, to
    nearest and ties to even.  The exponent range is not modelled: the
    quotients and products below lie in [2^-1022, 100] or are 0 as long as
    a rule has fewer than [2^1022] findings. *)

Definition float := Q.

Definition pow2 (e : Z) : Q := Qpower 2 e.

(** For [0 < q], the exponent [e] with [2^e <= q < 2^(e+1)] *)
Definition floor_log2 (q : Q) : Z :=
  let c := Z.log2 (Qnum q) - Z.log2 (Zpos (Qden q)) in
  if Qle_bool (pow2 c) q then c else c - 1.

Definition round_half_even (x : Q) : Z :=
  let f := Qfloor x in
  match (x - inject_Z f ?= 1 # 2)%Q with
  | Lt => f
  | Gt => f + 1
  | Eq => if Z.even f then f else f + 1
  end.

Definition round64_pos (q : Q) : Q :=
  let ulp := pow2 (floor_log2 q - 52) in
  (inject_Z (round_half_even (q / ulp)) * ulp)%Q.

Definition round64 (q : Q) : float :=
  match (q ?= 0)%Q with
  | Eq => 0%Q
  | Gt => Qred (round64_pos q)
  | Lt => Qred (- round64_pos (- q))
  end.

(** [a / b] on two [int]s with [b != 0] *)
Definition truediv (a b : Z) : float := round64 (inject_Z a / inject_Z b).

(** [a / b] on two [int]s *)
Definition py_truediv (a b : Z) : result float :=
  if b =? 0 then Raise ZeroDivisionError else Return (truediv a b).

(** [x * n] for a [float] and an [int] literal *)
Definition float_mul_int (x : float) (n : Z) : float := round64 (x * inject_Z n).

(** [x < n] and [x >= n] for a [float] and an [int] literal *)
Definition float_lt_int (x : float) (n : Z) : bool := negb (Qle_bool (inject_Z n) x).
Definition float_ge_int (x : float) (n : Z) : bool := Qle_bool (inject_Z n) x.

(** ** calculate_metrics.py *)

(** One entry of [triage_data['findings']].  [lint] and [classification]
    are read with [f['...']] by every function; the other keys are
    optional in the triage file. *)
Module Finding.
Record t := mk {
  lint : string;
  classification : string;
  severity : option string;
  repo : option string;
  file : option string;
  line : option Z;
  message : option string;
  rationale : option string
}.
End Finding.

Module TriageData.
Record t := mk {
  metadata : dict string;
  findings : list Finding.t
}.
End TriageData.

Module LintMetrics.
Record t := mk {
  total : Z;
  tp : Z;
  fp : Z;
  info : Z;
  skip : Z;
  fp_rate : float;
  precision : float
}.
End LintMetrics.

(** [sum(1 for f in findings if f['classification'] == c)] *)
Definition count_class (c : string) (findings : list Finding.t) : Z :=
  zsum ((fun _ => 1) <$> List.filter (fun f => String.eqb (Finding.classification f) c) findings).

(** ["Group findings by lint rule"] *)
Definition group_by_lint (findings : list Finding.t) : dict (list Finding.t) :=
  foldl (fun by_lint finding =>
           dict_upd [] by_lint (Finding.lint finding) (fun l => l ++ [finding]))
        [] findings.

(** The body of the loop ["Calculate metrics for each lint"] *)
Definition lint_metrics (findings : list Finding.t) : LintMetrics.t :=
  let tp_count := count_class "TP" findings in
  let fp_count := count_class "FP" findings in
  let info_count := count_class "INFO" findings in
  let skip_count := count_class "SKIP" findings in
  let total_classified := tp_count + fp_count in
  let fp_rate :=
    if 0 <? total_classified
    then float_mul_int (truediv fp_count total_classified) 100
    else 0%Q in
  let precision :=
    if 0 <? total_classified
    then float_mul_int (truediv tp_count total_classified) 100
    else 0%Q in
  LintMetrics.mk (Z.of_nat (length findings)) tp_count fp_count info_count skip_count
    fp_rate precision.

Definition calculate_metrics (triage_data : TriageData.t) : dict LintMetrics.t :=
  (fun kv : string * list Finding.t => (kv.1, lint_metrics kv.2))
    <$> group_by_lint (TriageData.findings triage_data).

(** The three recommendation lists, computed alike by [print_summary] and
    [generate_report]. *)
Definition promotable (metrics : dict LintMetrics.t) : list string :=
  dict_keys (List.filter (fun kv : string * LintMetrics.t =>
                            float_lt_int (LintMetrics.fp_rate kv.2) 10
                            && (5 <=? LintMetrics.total kv.2)) metrics).

Definition needs_refinement (metrics : dict LintMetrics.t) : list string :=
  dict_keys (List.filter (fun kv : string * LintMetrics.t =>
                            float_ge_int (LintMetrics.fp_rate kv.2) 10
                            && float_lt_int (LintMetrics.fp_rate kv.2) 30) metrics).

Definition needs_demotion (metrics : dict LintMetrics.t) : list string :=
  dict_keys (List.filter (fun kv : string * LintMetrics.t =>
                            float_ge_int (LintMetrics.fp_rate kv.2) 30) metrics).

Inductive status := STABLE | PREVIEW | RESEARCH.

Definition status_of (m : LintMetrics.t) : status :=
  if float_lt_int (LintMetrics.fp_rate m) 10 then STABLE
  else if float_lt_int (LintMetrics.fp_rate m) 25 then PREVIEW
  else RESEARCH.

(** [sorted(metrics.items(), key=lambda x: x[1]['fp_rate'])] *)
Definition sorted_lints (metrics : dict LintMetrics.t) : list (string * LintMetrics.t) :=
  sort_by (fun a b => Qle_bool (LintMetrics.fp_rate a.2) (LintMetrics.fp_rate b.2)) metrics.

(** What [print_summary] prints after the metadata lines: the overall
    counts, the per-lint table and the three recommendation lists. *)
Module Summary.
Record t := mk {
  total_findings : Z;
  total_tp : Z;
  total_fp : Z;
  total_info : Z;
  table : list (string * LintMetrics.t * status);
  promote : list string;
  refine : list string;
  demote : list string
}.
End Summary.

Definition print_summary (metrics : dict LintMetrics.t) (triage_data : TriageData.t)
  : Summary.t :=
  Summary.mk
    (Z.of_nat (length (TriageData.findings triage_data)))
    (zsum (LintMetrics.tp <$> dict_values metrics))
    (zsum (LintMetrics.fp <$> dict_values metrics))
    (zsum (LintMetrics.info <$> dict_values metrics))
    ((fun kv => (kv.1, kv.2, status_of kv.2)) <$> sorted_lints metrics)
    (promotable metrics) (needs_refinement metrics) (needs_demotion metrics).

(** The Markdown report is a sequence of pieces of text; a number keeps the
    format it is written with.  The emoji in front of a status are left
    out. *)
Inductive piece :=
| Text (s : string)
| Int (n : Z)
| Fixed1 (x : float).

Definition nl : piece := Text newline.

(** [finding[key]] for an optional key *)
Definition item_of {A} (key : string) (v : option A) : result A :=
  match v with
  | Some a => Return a
  | None => Raise (KeyError key)
  end.

(** [s[:n]] on a [set]: sets are not subscriptable. *)
Definition set_slice (s : gset string) (n : nat) : result (list string) :=
  Raise (TypeError "'set' object is not subscriptable").

(** [rationales.count(rationale)] *)
Definition list_count (x : string) (l : list string) : Z :=
  Z.of_nat (length (List.filter (String.eqb x) l)).

(** One bullet of the ["True Positive Highlights"] *)
Definition highlight (finding : Finding.t) : result (list piece) :=
  repo ← item_of "repo" (Finding.repo finding);
  file ← item_of "file" (Finding.file finding);
  line ← item_of "line" (Finding.line finding);
  message ← item_of "message" (Finding.message finding);
  rationale ← item_of "rationale" (Finding.rationale finding);
  mret [Text "- **"; Text (Finding.lint finding); Text "** in `"; Text repo; Text "/";
        Text file; Text ":"; Int line; Text "`"; nl;
        Text "  - "; Text message; nl;
        Text "  - "; Text rationale; nl; nl].

Definition severity_section (title : string) (tps : list Finding.t)
  : result (list piece) :=
  match tps with
  | [] => mret []
  | _ =>
      bullets ← mapM highlight (take 5 tps);
      mret ([Text title; nl; nl] ++ concat bullets)
  end.

(** ["Group FPs by lint"] *)
Definition fp_by_lint (findings : list Finding.t) : dict (list Finding.t) :=
  foldl (fun d finding =>
           if String.eqb (Finding.classification finding) "FP"
           then dict_upd [] d (Finding.lint finding) (fun l => l ++ [finding])
           else d)
        [] findings.

(** The body of [for lint_name, fps in fp_by_lint.items()] *)
Definition fp_section (kv : string * list Finding.t) : result (list piece) :=
  let '(lint_name, fps) := kv in
  rationales ← mapM (fun fp => item_of "rationale" (Finding.rationale fp)) fps;
  top ← set_slice (list_to_set rationales) 3;
  mret ([Text "### `"; Text lint_name; Text "` ("; Int (Z.of_nat (length fps));
         Text " FPs)"; nl; nl; Text "Common causes:"; nl]
        ++ concat ((fun rationale =>
                      [Text "- ("; Int (list_count rationale rationales); Text "x) ";
                       Text rationale; nl]) <$> top)
        ++ [nl]).

Definition recommendation_section (title : string) (metrics : dict LintMetrics.t)
  (lints : list string) : result (list piece) :=
  match lints with
  | [] => mret []
  | _ =>
      rows ← mapM (fun lint =>
                     m ← dict_item metrics lint;
                     mret [Text "- `"; Text lint; Text "` - FP rate: ";
                           Fixed1 (LintMetrics.fp_rate m); Text "%"; nl]) lints;
      mret ([Text title; nl; nl] ++ concat rows ++ [nl])
  end.

Definition table_row (kv : string * LintMetrics.t) : list piece :=
  let m := kv.2 in
  [Text "| `"; Text kv.1; Text "` | "; Int (LintMetrics.total m); Text " | ";
   Int (LintMetrics.tp m); Text " | "; Int (LintMetrics.fp m); Text " | ";
   Fixed1 (LintMetrics.fp_rate m); Text "% | "; Fixed1 (LintMetrics.precision m);
   Text "% | ";
   Text (match status_of m with
         | STABLE => "Stable" | PREVIEW => "Preview" | RESEARCH => "Research"
         end);
   Text " |"; nl].

(** [generate_report]: the text written to the report file, or the
    exception that ends the function. *)
Definition generate_report (metrics : dict LintMetrics.t) (triage_data : TriageData.t)
  : result (list piece) :=
  let meta := TriageData.metadata triage_data in
  let findings := TriageData.findings triage_data in
  let head :=
    [Text "# Move Clippy Ecosystem Validation Report"; nl; nl;
     Text "**Generated:** "; Text (default "N/A" (dict_get meta "generated")); Text "  "; nl;
     Text "**Triager:** "; Text (default "N/A" (dict_get meta "triager")); Text "  "; nl;
     Text "**Version:** "; Text (default "N/A" (dict_get meta "move_clippy_version"));
     Text "  "; nl; nl]
    ++ match dict_get meta "notes" with
       | Some notes => [Text "**Notes:** "; Text notes; nl; nl]
       | None => []
       end
    ++ [Text "---"; nl; nl] in
  let total_findings := Z.of_nat (length findings) in
  let total_tp := zsum (LintMetrics.tp <$> dict_values metrics) in
  let total_fp := zsum (LintMetrics.fp <$> dict_values metrics) in
  ratio ← py_truediv total_tp (total_tp + total_fp);
  let summary :=
    [Text "## Executive Summary"; nl; nl;
     Text "- **Total Findings:** "; Int total_findings; nl;
     Text "- **True Positives:** "; Int total_tp; nl;
     Text "- **False Positives:** "; Int total_fp; nl;
     Text "- **Overall Precision:** "; Fixed1 (float_mul_int ratio 100); Text "%"; nl; nl] in
  let table :=
    [Text "## Per-Lint Metrics"; nl; nl;
     Text "| Lint | Total | TP | FP | FP Rate | Precision | Recommended Status |"; nl;
     Text "|------|-------|----|----|---------|-----------|--------------------|"; nl]
    ++ concat (table_row <$> sorted_lints metrics) ++ [nl] in
  let is_tp (sev : string) (f : Finding.t) :=
    String.eqb (Finding.classification f) "TP"
    && bool_decide (Finding.severity f = Some sev) in
  let critical_tps := List.filter (is_tp "critical") findings in
  let high_tps := List.filter (is_tp "high") findings in
  critical ← severity_section "### Critical Severity" critical_tps;
  high ← severity_section "### High Severity" high_tps;
  let fps := fp_by_lint findings in
  fp_analysis ←
    match fps with
    | [] => mret []
    | _ =>
        sections ← mapM fp_section fps;
        mret ([Text "Common false positive patterns by lint:"; nl; nl] ++ concat sections)
    end;
  promote ← recommendation_section "### Promote to Stable (FP < 10%)" metrics
              (promotable metrics);
  refine ← recommendation_section "### Refine (FP 10-30%, keep in Preview)" metrics
             (needs_refinement metrics);
  demote ← recommendation_section "### Demote to Research (FP > 30%)" metrics
             (needs_demotion metrics);
  mret (head ++ summary ++ table
        ++ [Text "## True Positive Highlights"; nl; nl;
            Text "Notable bugs found by the linter:"; nl; nl]
        ++ critical ++ high
        ++ [Text "## False Positive Analysis"; nl; nl] ++ fp_analysis
        ++ [Text "## Recommendations"; nl; nl] ++ promote ++ refine ++ demote).

(** ** analyze_fp.py *)

(** One value of [db["findings"]]; every key is read with [.get]. *)
Module DbFinding.
Record t := mk {
  status : option string;
  lint : option string;
  repo : option string;
  category : option string;
  notes : option string
}.
End DbFinding.

Module LintStats.
Record t := mk {
  total : Z;
  confirmed : Z;
  fp : Z;
  wont_fix : Z;
  needs_review : Z
}.
End LintStats.

(** The entries of [by_repo] and [by_category] *)
Module GroupStats.
Record t := mk {
  total : Z;
  confirmed : Z;
  fp : Z
}.
End GroupStats.

Module Stats.
Record t := mk {
  total : Z;
  by_status : dict Z;
  by_lint : dict LintStats.t;
  by_repo : dict GroupStats.t;
  by_category : dict GroupStats.t;
  fps_by_lint : dict (list DbFinding.t);
  confirmed_by_lint : dict (list DbFinding.t)
}.
End Stats.

Definition count_lint_status (status : string) (s : LintStats.t) : LintStats.t :=
  let s := LintStats.mk (LintStats.total s + 1) (LintStats.confirmed s) (LintStats.fp s)
             (LintStats.wont_fix s) (LintStats.needs_review s) in
  if String.eqb status "confirmed" then
    LintStats.mk (LintStats.total s) (LintStats.confirmed s + 1) (LintStats.fp s)
      (LintStats.wont_fix s) (LintStats.needs_review s)
  else if String.eqb status "false_positive" then
    LintStats.mk (LintStats.total s) (LintStats.confirmed s) (LintStats.fp s + 1)
      (LintStats.wont_fix s) (LintStats.needs_review s)
  else if String.eqb status "wont_fix" then
    LintStats.mk (LintStats.total s) (LintStats.confirmed s) (LintStats.fp s)
      (LintStats.wont_fix s + 1) (LintStats.needs_review s)
  else
    LintStats.mk (LintStats.total s) (LintStats.confirmed s) (LintStats.fp s)
      (LintStats.wont_fix s) (LintStats.needs_review s + 1).

Definition count_group_status (status : string) (s : GroupStats.t) : GroupStats.t :=
  let s := GroupStats.mk (GroupStats.total s + 1) (GroupStats.confirmed s) (GroupStats.fp s) in
  if String.eqb status "confirmed" then
    GroupStats.mk (GroupStats.total s) (GroupStats.confirmed s + 1) (GroupStats.fp s)
  else if String.eqb status "false_positive" then
    GroupStats.mk (GroupStats.total s) (GroupStats.confirmed s) (GroupStats.fp s + 1)
  else s.

(** The body of [for finding in db.get("findings", {}).values()] *)
Definition analyze_finding (stats : Stats.t) (finding : DbFinding.t) : Stats.t :=
  let status := default "needs_review" (DbFinding.status finding) in
  let lint := default "unknown" (DbFinding.lint finding) in
  let repo := default "unknown" (DbFinding.repo finding) in
  let category := default "unknown" (DbFinding.category finding) in
  Stats.mk
    (Stats.total stats + 1)
    (dict_upd 0 (Stats.by_status stats) status (Z.add 1))
    (dict_upd (LintStats.mk 0 0 0 0 0) (Stats.by_lint stats) lint (count_lint_status status))
    (dict_upd (GroupStats.mk 0 0 0) (Stats.by_repo stats) repo (count_group_status status))
    (dict_upd (GroupStats.mk 0 0 0) (Stats.by_category stats) category
       (count_group_status status))
    (if String.eqb status "false_positive"
     then dict_upd [] (Stats.fps_by_lint stats) lint (fun l => l ++ [finding])
     else Stats.fps_by_lint stats)
    (if String.eqb status "confirmed"
     then dict_upd [] (Stats.confirmed_by_lint stats) lint (fun l => l ++ [finding])
     else Stats.confirmed_by_lint stats).

(** [analyze_findings(db)], [db] being the table [db.get("findings", {})] *)
Definition analyze_findings (db : dict DbFinding.t) : Stats.t :=
  foldl analyze_finding (Stats.mk 0 [] [] [] [] [] []) (dict_values db).

Definition calculate_fp_rate (lint_stats : LintStats.t) : float :=
  let reviewed :=
    LintStats.confirmed lint_stats + LintStats.fp lint_stats
    + LintStats.wont_fix lint_stats in
  if reviewed =? 0 then 0%Q
  else float_mul_int (truediv (LintStats.fp lint_stats) reviewed) 100.

(** The rate that [generate_fp_report] shows for a rule of the database *)
Definition lint_fp_rate (db : dict DbFinding.t) (lint : string) : option float :=
  calculate_fp_rate <$> dict_get (Stats.by_lint (analyze_findings db)) lint.

(** ** Sums over the tables of a snapshot *)

(** A [RepoResult] whose total is the sum of its per-rule counts *)
Definition repo_invariant (r : RepoResult.t) : Prop :=
  RepoResult.total_findings r = zsum (dict_values (RepoResult.lint_breakdown r)).

(** The sum of the per-rule counts of [by_lint] *)
Definition count_sum (by_lint : dict LintEntry.t) : Z :=
  zsum (LintEntry.count <$> dict_values by_lint).

(** The sum of the per-repo finding counts of [repos] *)
Definition findings_sum (repos : dict RepoSummary.t) : Z :=
  zsum (RepoSummary.findings <$> dict_values repos).

(** The rollup of one column: every key holds the sum of the counts of the
    entries that carry it. *)
Definition column_sum (key : LintEntry.t -> option string) (t : string)
  (by_lint : dict LintEntry.t) : Z :=
  zsum (LintEntry.count <$>
          List.filter (fun e => String.eqb (default "unknown" (key e)) t) (dict_values by_lint)).

(** ** Counting the findings of a triage dataset *)

(** The findings of [rule], in the order of the dataset *)
Definition by_rule (rule : string) (findings : list Finding.t) : list Finding.t :=
  List.filter (fun f => String.eqb (Finding.lint f) rule) findings.

(** The number of findings of [rule], and of those classified [c] *)
Definition findings_of (rule : string) (findings : list Finding.t) : Z :=
  Z.of_nat (length (List.filter (fun f => String.eqb (Finding.lint f) rule) findings)).

Definition classified_as (c rule : string) (findings : list Finding.t) : Z :=
  Z.of_nat (length (List.filter
                      (fun f => String.eqb (Finding.lint f) rule
                                && String.eqb (Finding.classification f) c) findings)).

(** The number of entries of the triage database that belong to [lint]
    and have the status [status]; a missing key counts with its default. *)
Definition db_count (status lint : string) (findings : list DbFinding.t) : Z :=
  Z.of_nat (length (List.filter
                      (fun f => String.eqb (default "unknown" (DbFinding.lint f)) lint
                                && String.eqb (default "needs_review" (DbFinding.status f))
                                     status) findings)).

(** The counts of [lint] in [by_lint], all zero when it has no entry *)
Definition lint_stats_of (d : dict LintStats.t) (lint : string) : LintStats.t :=
  default (LintStats.mk 0 0 0 0 0) (dict_get d lint).

(** The rate as the specification words it: false positives over confirmed
    plus false positives, [wont_fix] left out. *)
Definition spec_fp_rate (confirmed fp : Z) : float :=
  if confirmed + fp =? 0 then 0%Q
  else float_mul_int (truediv fp (confirmed + fp)) 100.

(** ** Concrete runs

    The inputs at which the statements below are evaluated. *)

Module Example.

(** A checkout with three Move sources under [repos/A] and nothing under
    [repos/B]; the analyzer reports [unused_import] twice. *)
Definition tree (path : string) : option fs_node :=
  if String.eqb path "repos/A"
  then Some (Dir "A" [File "Move.toml";
                      Dir "sources" [File "a.move"; File "b.move"; File "c.move"];
                      Dir "build" [File "a.move"]])
  else None.

Definition analyzer_stdout : string :=
  "warning: unused_import: unused alias" +:+ newline
  +:+ "  --> sources/a.move:3" +:+ newline
  +:+ "warning: unused_import: unused alias" +:+ newline.

Definition analyzer (rules : string) (out : result (string * string))
  (cmd : list string) : result (string * string) :=
  if bool_decide (cmd = ["./target/release/move-clippy"; "list-rules"])
  then Return (rules, EmptyString)
  else out.

(** [list-rules] knows [unused_import] *)
Definition env : Env :=
  {| fs := tree; walk_limit := None;
     subprocess_run :=
       analyzer ("unused_import" +:+ tab +:+ "style" +:+ tab +:+ "stable")
                (Return (analyzer_stdout, EmptyString)) |}.

(** [list-rules] does not know [unused_import] *)
Definition stale_env : Env :=
  {| fs := tree; walk_limit := None;
     subprocess_run :=
       analyzer ("other_rule" +:+ tab +:+ "style" +:+ tab +:+ "stable")
                (Return (analyzer_stdout, EmptyString)) |}.



(** The analyzer prints a warning that names no lint *)
Definition nameless_env : Env :=
  {| fs := tree; walk_limit := None;
     subprocess_run := analyzer EmptyString (Return ("warning:", EmptyString)) |}.

Definition item (repo : string) : work_item := (repo, "repos" +:+ "/" +:+ repo, true).

(** Both futures complete, [B] first *)
Definition done : completion := [(item "B", None, None); (item "A", None, None)].

(** A manifest that lists [A] twice *)
Definition done_twice : completion := [(item "A", None, None); (item "A", None, None)].

(** The progress line of [A] cannot be printed *)
Definition done_unprinted : completion :=
  [(item "A", None, Some (OtherException "[Errno 28] No space left on device"))].




End Example.

Module ExampleBaselines.

Definition lint (n : Z) : LintJ.t := LintJ.mk (Some n) None.

(** Two rules appear in the new baseline, one finding each. *)
Definition old : Baseline.t :=
  Baseline.mk "0.2.0" "2025-01-01T00:00:00Z" 2 0 0 (Some []) (Some []) (Some []).

Definition new : Baseline.t :=
  Baseline.mk "0.3.0" "2025-02-01T00:00:00Z" 2 1 2
    (Some [("unknown", 2)])
    (Some [("alpha", lint 1); ("beta", lint 1)])
    (Some [("A", RepoJ.mk (Some 2)); ("B", RepoJ.mk (Some 0))]).

(** Two ways of walking through a set *)
Definition forwards (X : gset string) : list string := elements X.
Definition backwards (X : gset string) : list string := reverse (elements X).

End ExampleBaselines.

Module ExampleTriage.

Definition finding (lint classification : string) : Finding.t :=
  Finding.mk lint classification (Some "high") (Some "repo") (Some "sources/a.move")
    (Some 3) (Some "message") (Some "rationale").

(** Rule [R] with two true positives and one false positive *)
Definition two_to_one : TriageData.t :=
  TriageData.mk [] [finding "R" "TP"; finding "R" "TP"; finding "R" "FP"].

(** Rule [R] with eight true positives, two false positives and one
    informational finding *)
Definition eight_two_one : TriageData.t :=
  TriageData.mk []
    (replicate 8 (finding "R" "TP") ++ replicate 2 (finding "R" "FP")
     ++ [finding "R" "INFO"]).

(** Rule [R] with one true positive and four informational findings *)
Definition mostly_info : TriageData.t :=
  TriageData.mk [] (finding "R" "TP" :: replicate 4 (finding "R" "INFO")).

(** One true positive and nothing else; nothing at all; findings that are
    all informational *)
Definition one_tp : TriageData.t := TriageData.mk [] [finding "R" "TP"].
Definition empty : TriageData.t := TriageData.mk [] [].
Definition only_info : TriageData.t := TriageData.mk [] [finding "R" "INFO"].

Definition entry (lint status : string) : DbFinding.t :=
  DbFinding.mk (Some status) (Some lint) (Some "repo") (Some "style") None.

(** Lint [L] with one confirmed finding, one false positive and two
    findings that will not be fixed *)
Definition db : dict DbFinding.t :=
  [("1", entry "L" "confirmed"); ("2", entry "L" "false_positive");
   ("3", entry "L" "wont_fix"); ("4", entry "L" "wont_fix");
   ("5", entry "L" "needs_review")].

End ExampleTriage.

(** ** The rest of ecosystem_benchmark.py *)

(** How a script ends that may call [sys.exit] *)
Inductive outcome (A : Type) :=
| Finished (a : A)
| SystemExit (code : Z).
Arguments Finished {A} a.
Arguments SystemExit {A} code.

(** [load_repo_list]: [repos_file] is the text of [REPOS.txt] as it is
    read in text mode, where every line ends in a newline character, or
    [None] when the file does not exist.  Reading the file line by line
    and stripping each line gives the stripped pieces between the
    newlines. *)
Definition load_repo_list (repos_file : option string) : outcome (list string) :=
  match repos_file with
  | None => SystemExit 1
  | Some text =>
      Finished
        (foldl (fun repos line =>
                  let line := Str.strip line in
                  if negb (String.eqb line EmptyString) && negb (Str.startswith "#" line)
                  then repos ++ [line] else repos)
               [] (Str.split newline text))
  end.

(** The lines of the analyzer output that are findings *)
Definition finding_lines (output : string) : list string :=
  List.filter (Str.contains "warning:") (Str.split newline output).

(** The results that report [rule], and what each of them reports *)
Definition reports (rule : string) (r : RepoResult.t) : bool :=
  bool_decide (is_Some (dict_get (RepoResult.lint_breakdown r) rule)).

Definition rule_count (rule : string) (r : RepoResult.t) : Z :=
  default 0 (dict_get (RepoResult.lint_breakdown r) rule).

(** One more repository added to an entry of [by_lint] *)
Definition bump (e : LintEntry.t) (count : Z) (repo : string) : LintEntry.t :=
  LintEntry.mk (LintEntry.count e + count) (LintEntry.repos e ++ [repo])
    (LintEntry.tier e) (LintEntry.category e).

(** What one more result does to the entry of [rule] in [by_lint] *)
Definition absorb (rule : string) (o : option LintEntry.t) (r : RepoResult.t)
  : option LintEntry.t :=
  match dict_get (RepoResult.lint_breakdown r) rule with
  | Some c => Some (bump (default (LintEntry.mk 0 [] None None) o) c (RepoResult.name r))
  | None => o
  end.

(** The tier and the category under which a rule is rolled up *)
Definition effective (key : LintEntry.t -> option string) (e : LintEntry.t) : string :=
  default "unknown" (key e).

(** [repos[name]] as [run_benchmark] builds it from one result *)
Definition summary_of (r : RepoResult.t) : RepoSummary.t :=
  RepoSummary.mk (RepoResult.total_findings r) (RepoResult.move_files r) (RepoResult.error r).

(** Two entries of [by_lint] that differ at most in the order of their
    repositories *)
Definition same_entry (e e' : LintEntry.t) : Prop :=
  LintEntry.count e = LintEntry.count e'
  /\ LintEntry.repos e ≡ₚ LintEntry.repos e'
  /\ LintEntry.tier e = LintEntry.tier e'
  /\ LintEntry.category e = LintEntry.category e'.

(** What a line of [list-rules] says about [name]: nothing unless it has at
    least three tab-separated fields of which the first is [name] *)
Definition rule_line (name line : string) : option LintMeta.t :=
  match Str.split tab line with
  | n :: category :: tier :: _ =>
      if String.eqb n name then Some (LintMeta.mk category tier) else None
  | _ => None
  end.

(** ** Reading a comparison backwards *)

(** A row with old and new exchanged, and the indicator of such a row *)
Definition flip_row (x : row) : row := (row_name x, row_new x, row_old x, - row_delta x).

Definition flip_shown (p : indicator * row) : indicator * row :=
  (match p.1 with Red => Green | Green => Red end, flip_row p.2).

(** ** More counts over a triage dataset *)

(** The findings of the whole dataset that are classified [c] *)
Definition classified (c : string) (findings : list Finding.t) : Z :=
  Z.of_nat (length (List.filter (fun f => String.eqb (Finding.classification f) c) findings)).

(** A classification of the vocabulary of the triage file *)
Definition known_class (c : string) : bool :=
  String.eqb c "TP" || String.eqb c "FP" || String.eqb c "INFO" || String.eqb c "SKIP".

(** The findings of [rule] whose classification is none of the four *)
Definition unclassified (rule : string) (findings : list Finding.t) : Z :=
  Z.of_nat (length (List.filter
                      (fun f => String.eqb (Finding.lint f) rule
                                && negb (known_class (Finding.classification f))) findings)).

(** A finding that [generate_report] can print as a highlight *)
Definition described (f : Finding.t) : bool :=
  bool_decide (is_Some (Finding.repo f)) && bool_decide (is_Some (Finding.file f))
  && bool_decide (is_Some (Finding.line f)) && bool_decide (is_Some (Finding.message f))
  && bool_decide (is_Some (Finding.rationale f)).

(** The true positives of a severity, as [generate_report] selects them *)
Definition tps_of (severity : string) (findings : list Finding.t) : list Finding.t :=
  List.filter (fun f => String.eqb (Finding.classification f) "TP"
                        && bool_decide (Finding.severity f = Some severity)) findings.

Module ExampleTriage2.

(** Rule [Q] with three true positives and one false positive; rule [S]
    with a finding whose classification is misspelt *)
Definition quarter : TriageData.t :=
  TriageData.mk []
    (replicate 3 (ExampleTriage.finding "Q" "TP") ++ [ExampleTriage.finding "Q" "FP"]).

Definition misspelt : TriageData.t :=
  TriageData.mk [] [ExampleTriage.finding "S" "TP"; ExampleTriage.finding "S" "tp"].

End ExampleTriage2.

(** The elements of a list in the order of their first occurrence *)
Fixpoint distinct (l : list string) : list string :=
  match l with
  | [] => []
  | x :: l => x :: List.filter (fun y => negb (String.eqb y x)) (distinct l)
  end.

(** A computation that ends without raising *)
Definition returns {A} (r : result A) : Prop := exists a, r = Return a.

(** ** Counting the entries of a triage database *)

(** The lint and the status under which [analyze_findings] counts an entry *)
Definition db_lint (f : DbFinding.t) : string := default "unknown" (DbFinding.lint f).
Definition db_status (f : DbFinding.t) : string :=
  default "needs_review" (DbFinding.status f).

(** The entries of [lint], and those of them with the status [status] *)
Definition entries_of (lint : string) (findings : list DbFinding.t) : list DbFinding.t :=
  List.filter (fun f => String.eqb (db_lint f) lint) findings.

Definition entries_with (status lint : string) (findings : list DbFinding.t)
  : list DbFinding.t :=
  List.filter (fun f => String.eqb (db_lint f) lint && String.eqb (db_status f) status)
    findings.

(** A status that has a counter of its own in [by_lint] *)
Definition counted_status (status : string) : bool :=
  String.eqb status "confirmed" || String.eqb status "false_positive"
  || String.eqb status "wont_fix".

(** The entries of [lint] with any other status *)
Definition db_other (lint : string) (findings : list DbFinding.t) : Z :=
  Z.of_nat (length (List.filter
                      (fun f => String.eqb (db_lint f) lint
                                && negb (counted_status (db_status f))) findings)).

(** The entries of the database with the status [status] *)
Definition with_status (status : string) (findings : list DbFinding.t) : Z :=
  Z.of_nat (length (List.filter (fun f => String.eqb (db_status f) status) findings)).

(** ** Names and manifest lines *)

(** [line and not line.startswith('#')]: a line of [REPOS.txt] that names a
    repository *)
Definition listed (line : string) : bool :=
  negb (String.eqb line EmptyString) && negb (Str.startswith "#" line).

(** A name without colon and without white space around it *)
Definition clean_name (name : string) : Prop :=
  Str.contains ":" name = false /\ Str.strip name = name.

(** ** analyze_fp.py: the patterns of the false positives *)

(** [c.lower()] on the code points below 256 *)
Definition lower_char (c : ascii) : ascii :=
  let n := nat_of_ascii c in
  if ((65 <=? n) && (n <=? 90) || (192 <=? n) && (n <=? 222) && negb (n =? 215))%nat
  then ascii_of_nat (n + 32) else c.

(** [s.lower()] *)
Fixpoint str_lower (s : string) : string :=
  match s with
  | EmptyString => EmptyString
  | String c s' => String (lower_char c) (str_lower s')
  end.

(** The first two statements of the loop of [extract_patterns]: the
    stripped note, or its replacement when nothing is left *)
Definition noted (notes : string) : string :=
  let note := Str.strip notes in
  if String.eqb note EmptyString then "No pattern noted" else note.

(** ["Normalize common variations"] *)
Definition normalize (note : string) : string :=
  let note_lower := str_lower note in
  if Str.contains "dto" note_lower || Str.contains "data transfer" note_lower
  then "Data Transfer Object (DTO)"
  else if Str.contains "return" note_lower
          && (Str.contains "type" note_lower || Str.contains "value" note_lower)
  then "Return value struct"
  else if Str.contains "test" note_lower then "Test-only code"
  else if Str.contains "intentional" note_lower then "Intentional design choice"
  else note.

(** The key of [patterns] under which a finding is filed *)
Definition pattern_of (f : DbFinding.t) : string :=
  normalize (noted (default EmptyString (DbFinding.notes f))).

Definition extract_patterns (findings : list DbFinding.t) : dict (list DbFinding.t) :=
  foldl (fun patterns f => dict_upd [] patterns (pattern_of f) (fun l => l ++ [f]))
        [] findings.

(** The four names that [extract_patterns] puts in the place of a note *)
Definition canonical_pattern (p : string) : Prop :=
  p = "Data Transfer Object (DTO)" \/ p = "Return value struct"
  \/ p = "Test-only code" \/ p = "Intentional design choice".

(** ** analyze_fp.py: the table of rates *)

Inductive fp_status := Unreviewed | Clean | LowFP | MediumFP | HighFP.

(** One row of the table ["FP Rate by Lint"] *)
Module FpRow.
Record t := mk {
  lint : string;
  total : Z;
  reviewed : Z;
  fp : Z;
  fp_rate : float;
  status : fp_status
}.
End FpRow.

(** The body of [for lint, data in sorted_lints] *)
Definition fp_row (kv : string * LintStats.t) : FpRow.t :=
  let data := kv.2 in
  let reviewed :=
    LintStats.confirmed data + LintStats.fp data + LintStats.wont_fix data in
  let fp_rate := calculate_fp_rate data in
  let status :=
    if reviewed =? 0 then Unreviewed
    else if Qeq_bool fp_rate 0 then Clean
    else if float_lt_int fp_rate 10 then LowFP
    else if float_lt_int fp_rate 25 then MediumFP
    else HighFP in
  FpRow.mk kv.1 (LintStats.total data) reviewed (LintStats.fp data) fp_rate status.

(** The rows of the table: the lints by descending number of false
    positives; [sorted] with [reverse=True] keeps lints of equal count in
    their order. *)
Definition fp_table (stats : Stats.t) : list FpRow.t :=
  fp_row <$> sort_by_key (fun kv : string * LintStats.t => - LintStats.fp kv.2)
               (Stats.by_lint stats).

(** Counts as [analyze_findings] can produce them *)
Definition sane_counts (s : LintStats.t) : Prop :=
  0 <= LintStats.confirmed s /\ 0 <= LintStats.fp s /\ 0 <= LintStats.wont_fix s
  /\ 0 <= LintStats.needs_review s
  /\ LintStats.total s
     = LintStats.confirmed s + LintStats.fp s + LintStats.wont_fix s
       + LintStats.needs_review s.

(** ** analyze_fp.py: the statistics report *)

(** The rows of the table ["By Status"]: status, count and percentage *)
Definition status_rows (stats : Stats.t) : list (string * Z * float) :=
  (fun status =>
     let count := default 0 (dict_get (Stats.by_status stats) status) in
     let pct :=
       if 0 <? Stats.total stats
       then float_mul_int (truediv count (Stats.total stats)) 100
       else 0%Q in
     (status, count, pct))
    <$> ["confirmed"; "false_positive"; "wont_fix"; "needs_review"].

(** The rows of ["By Category"], by name, and of ["By Repository"], by
    descending total *)
Definition category_rows (stats : Stats.t) : list (string * GroupStats.t) :=
  sort_by (fun a b : string * GroupStats.t => String.leb a.1 b.1) (Stats.by_category stats).

Definition repo_rows (stats : Stats.t) : list (string * GroupStats.t) :=
  sort_by_key (fun kv : string * GroupStats.t => - GroupStats.total kv.2)
    (Stats.by_repo stats).

(** The entries whose status is none of the four of the table *)
Definition other_status (findings : list DbFinding.t) : Z :=
  Z.of_nat (length (List.filter
                      (fun f => negb (counted_status (db_status f)
                                      || String.eqb (db_status f) "needs_review"))
                      findings)).

(** Counts of a repository or category as [analyze_findings] can produce
    them *)
Definition sane_group (s : GroupStats.t) : Prop :=
  0 <= GroupStats.confirmed s /\ 0 <= GroupStats.fp s
  /\ GroupStats.confirmed s + GroupStats.fp s <= GroupStats.total s.

(** ** The files that [count_move_files] counts *)



(** * Proofs

    ** The benchmark *)

Lemma zsum_nil : zsum [] = 0.
Proof. reflexivity. Qed.

Lemma zsum_cons x l : zsum (x :: l) = x + zsum l.
Proof. reflexivity. Qed.

Lemma zsum_app l1 l2 : zsum (l1 ++ l2) = zsum l1 + zsum l2.
Proof. induction l1; csimpl; rewrite ?zsum_nil, ?zsum_cons; lia. Qed.

Section DictFacts.
Context {V : Type}.
Implicit Types (d : dict V) (k : string) (v : V).

Lemma dict_get_set d k v k' :
  dict_get (dict_set d k v) k' = if decide (k = k') then Some v else dict_get d k'.
Proof.
  induction d as [|[k0 v0] d IH]; simpl.
  - destruct (String.eqb_spec k k'); case_decide; congruence.
  - destruct (String.eqb_spec k0 k) as [->|Hne]; simpl.
    + destruct (String.eqb_spec k k'); case_decide; congruence.
    + destruct (String.eqb_spec k0 k'); [|done].
      case_decide; congruence.
Qed.

Lemma dict_get_Some_keys d k v : dict_get d k = Some v -> k ∈ dict_keys d.
Proof.
  induction d as [|[k0 v0] d IH]; simpl; [done|].
  destruct (String.eqb_spec k0 k) as [->|]; intros.
  - left.
  - right. by apply IH.
Qed.

Lemma dict_get_None_keys d k : dict_get d k = None <-> k ∉ dict_keys d.
Proof.
  induction d as [|[k0 v0] d IH]; simpl.
  - split; [intros _; apply not_elem_of_nil | done].
  - rewrite not_elem_of_cons. destruct (String.eqb_spec k0 k) as [->|]; [split; [done|intros []; done]|]. rewrite IH. split; [intros ?; split; [congruence|done] | intros []; done].
Qed.

Lemma dict_keys_set d k v :
  dict_keys (dict_set d k v) = if dict_get d k is Some _ then dict_keys d else dict_keys d ++ [k].
Proof.
  induction d as [|[k0 v0] d IH]; simpl; [done|].
  destruct (String.eqb_spec k0 k) as [->|]; simpl; [done|].
  unfold dict_keys in *. rewrite IH. by destruct (dict_get d k).
Qed.

Lemma zsum_dict_set (g : V -> Z) d k v :
  zsum (g <$> dict_values (dict_set d k v))
  = zsum (g <$> dict_values d) - from_option g 0 (dict_get d k) + g v.
Proof.
  unfold dict_values.
  induction d as [|[k0 v0] d IH]; csimpl; rewrite ?zsum_cons, ?zsum_nil; [lia|].
  destruct (String.eqb_spec k0 k) as [->|]; csimpl; rewrite ?zsum_cons; [lia|].
  rewrite IH. lia.
Qed.

Lemma zsum_dict_upd (g : V -> Z) dflt d k f :
  g dflt = 0 ->
  zsum (g <$> dict_values (dict_upd dflt d k f))
  = zsum (g <$> dict_values d)
    + (g (f (default dflt (dict_get d k))) - g (default dflt (dict_get d k))).
Proof.
  intros H0. unfold dict_upd. rewrite zsum_dict_set.
  destruct (dict_get d k); simpl; lia.
Qed.

End DictFacts.
Lemma split_go_cons sep skip cur s : exists a r, Str.split_go sep skip cur s = a :: r.
Proof.
  revert skip cur. induction s as [|c s IH]; intros skip cur; simpl; [eauto|].
  destruct skip; [|apply IH].
  destruct (Str.startswith sep (String c s)); [eauto | apply IH].
Qed.

Lemma split_go_contains sep cur s :
  sep <> EmptyString -> Str.contains sep s = true ->
  exists a b r, Str.split_go sep 0 cur s = a :: b :: r.
Proof.
  intros Hsep. revert cur. induction s as [|c s IH]; intros cur Hc.
  - destruct sep; [done|]. simpl in Hc. done.
  - cbn [Str.contains] in Hc. cbn [Str.split_go].
    destruct (Str.startswith sep (String c s)).
    + destruct (split_go_cons sep (String.length sep - 1) EmptyString s) as (b & r & ->).
      eauto.
    + simpl in Hc. by apply IH.
Qed.

Lemma parse_lint_name_ok line :
  Str.contains "warning:" line = true -> exists name, parse_lint_name line = Return name.
Proof.
  intros Hc. unfold parse_lint_name, Str.split.
  destruct (split_go_contains "warning:" EmptyString line) as (a & b & r & ->); [done|done|].
  cbn [py_index lookup list_lookup mbind result_bind].
  destruct (split_go_cons ":" 0%nat EmptyString (Str.strip b)) as (x & r' & ->).
  cbn. eauto.
Qed.

Lemma count_line_plain total d line :
  Str.contains "warning:" line = false -> count_line (total, d) line = Return (total, d).
Proof. intros H. unfold count_line. by rewrite H. Qed.

Lemma count_line_warning total d line :
  Str.contains "warning:" line = true ->
  exists name, parse_lint_name line = Return name
    /\ count_line (total, d) line = Return (total + 1, dict_upd 0 d name (Z.add 1)).
Proof.
  intros H. destruct (parse_lint_name_ok line H) as [name Hn].
  exists name. split; [done|]. unfold count_line. rewrite H, Hn. reflexivity.
Qed.

Lemma zsum_dict_upd_add d k c :
  zsum (dict_values (dict_upd 0 d k (Z.add c))) = zsum (dict_values d) + c.
Proof.
  pose proof (zsum_dict_upd id 0 d k (Z.add c) eq_refl) as H.
  rewrite !list_fmap_id in H. rewrite H. unfold id. lia.
Qed.

Lemma count_line_ok total d line :
  exists total' d', count_line (total, d) line = Return (total', d')
    /\ total' - zsum (dict_values d') = total - zsum (dict_values d).
Proof.
  destruct (Str.contains "warning:" line) eqn:Hc.
  - destruct (count_line_warning total d line Hc) as (name & _ & ->).
    eexists _, _. split; [done|]. rewrite zsum_dict_upd_add. lia.
  - rewrite count_line_plain by done. eauto.
Qed.

Lemma count_lines_ok lines total d :
  exists total' d', count_lines (total, d) lines = Return (total', d')
    /\ total' - zsum (dict_values d') = total - zsum (dict_values d).
Proof.
  revert total d. induction lines as [|line lines IH]; intros total d; cbn [count_lines].
  - eauto.
  - destruct (count_line_ok total d line) as (t1 & d1 & -> & H1).
    cbn [mbind result_bind].
    destruct (IH t1 d1) as (t2 & d2 & -> & H2).
    eexists _, _. split; [done|]. lia.
Qed.





Lemma run_lint_on_repo_invariant env args r :
  run_lint_on_repo env args = Return r ->
  repo_invariant r /\ RepoResult.name r = args.1.1.
Proof.
  destruct args as [[repo_name repo_path] experimental]. unfold run_lint_on_repo, repo_invariant.
  destruct (isdir env repo_path); cbn [negb]; [|intros [= <-]; done].
  destruct (count_move_files env repo_path) as [n|e]; cbn [mbind result_bind]; [|done].
  destruct (n =? 0); [intros [= <-]; done|].
  destruct (subprocess_run env _) as [res|e]; cbn [mbind result_bind try_except].
  - match goal with
    | |- context [count_lines (?t0, ?d0) ?ls] =>
        destruct (count_lines_ok ls t0 d0) as (t & d & -> & Ht)
    end.
    cbn. intros [= <-]. unfold dict_values in *. cbn in *. rewrite zsum_nil in Ht. split; [lia|done].
  - destruct e; cbn; intros [= <-]; done.
Qed.

(** What one round of the loop appends *)
Lemma collect_one_cases env (c : work_item * option exn * option exn) :
  let name := c.1.1.1.1 in
  (exists e, collect_one env c = [failed_result name e])
  \/ (exists r, run_lint_on_repo env c.1.1 = Return r /\ c.1.2 = None
        /\ (collect_one env c = [r]
            \/ exists e, c.2 = Some e /\ collect_one env c = [r; failed_result name e])).
Proof.
  destruct c as [[item failure] print_failure]. cbn [fst snd].
  unfold collect_one, future_result. cbn [fst snd].
  destruct failure as [e|]; [left; eauto|].
  destruct (run_lint_on_repo env item) as [r|e]; [|left; eauto].
  right. exists r. split; [done|]. split; [done|].
  destruct print_failure as [e|]; [right; eauto|by left].
Qed.

Lemma failed_result_invariant name e : repo_invariant (failed_result name e).
Proof. done. Qed.

Lemma collect_one_invariant env c :
  Forall (fun r => repo_invariant r /\ RepoResult.name r = c.1.1.1.1) (collect_one env c).
Proof.
  destruct (collect_one_cases env c) as [[e ->]|(r & Hr & _ & [->|(e & _ & ->)])];
    repeat constructor; try done;
    by apply run_lint_on_repo_invariant in Hr as [? ?].
Qed.

Lemma collect_invariant env done : Forall repo_invariant (collect env done).
Proof.
  unfold collect. apply Forall_bind, Forall_forall. intros c _.
  eapply Forall_impl; [apply collect_one_invariant|]. by intros r [? _].
Qed.

(** The names of the results: every future leaves its repository once, or
    twice when its progress line could not be printed. *)
Lemma collect_names env done :
  Forall (fun c : work_item * option exn * option exn => c.2 = None) done ->
  RepoResult.name <$> collect env done
  = (fun c : work_item * option exn * option exn => c.1.1.1.1) <$> done.
Proof.
  unfold collect. induction 1 as [|c done Hc _ IH]; [done|].
  rewrite bind_cons, fmap_app, IH. csimpl. f_equal.
  destruct (collect_one_cases env c) as [[e ->]|(r & Hr & _ & [->|(e & He & _)])];
    [done| |congruence].
  csimpl. by apply run_lint_on_repo_invariant in Hr as [_ ->].
Qed.

(** *** Aggregation *)

Lemma add_lint_sum repo by_lint item :
  count_sum (add_lint repo by_lint item) = count_sum by_lint + item.2.
Proof.
  unfold count_sum, add_lint. rewrite zsum_dict_upd by done.
  cbn [LintEntry.count]. lia.
Qed.

Lemma foldl_add_lint_sum repo items by_lint :
  count_sum (foldl (add_lint repo) by_lint items) = count_sum by_lint + zsum (dict_values items).
Proof.
  revert by_lint. induction items as [|item items IH]; intros by_lint; csimpl.
  - rewrite zsum_nil; lia.
  - rewrite IH, add_lint_sum. unfold dict_values. csimpl. rewrite zsum_cons. lia.
Qed.

Lemma aggregate_by_lint_sum_acc results acc :
  count_sum (foldl (fun by_lint r =>
               foldl (add_lint (RepoResult.name r)) by_lint (RepoResult.lint_breakdown r))
             acc results)
  = count_sum acc
    + zsum ((fun r => zsum (dict_values (RepoResult.lint_breakdown r))) <$> results).
Proof.
  revert acc. induction results as [|r results IH]; intros acc; csimpl.
  - rewrite zsum_nil; lia.
  - rewrite IH, foldl_add_lint_sum, zsum_cons. lia.
Qed.

Lemma aggregate_by_lint_sum results :
  Forall repo_invariant results ->
  count_sum (aggregate_by_lint results) = zsum (RepoResult.total_findings <$> results).
Proof.
  intros Hinv. unfold aggregate_by_lint. rewrite aggregate_by_lint_sum_acc.
  unfold count_sum at 1. csimpl. rewrite zsum_nil, Z.add_0_l. f_equal.
  apply Forall_fmap_ext_1. eapply Forall_impl; [exact Hinv|].
  intros r Hr. by rewrite Hr.
Qed.

Lemma add_tier_info_count md by_lint :
  count_sum (add_tier_info md by_lint) = count_sum by_lint.
Proof.
  unfold count_sum, add_tier_info, dict_values. rewrite <- !list_fmap_compose.
  f_equal. apply list_fmap_ext. intros _ [k e] _. cbn. by destruct (md !! k).
Qed.

Lemma repos_dict_sum_acc results acc :
  NoDup (RepoResult.name <$> results) ->
  (forall r, r ∈ results -> dict_get acc (RepoResult.name r) = None) ->
  findings_sum (foldl (fun d r =>
                  dict_set d (RepoResult.name r)
                    (RepoSummary.mk (RepoResult.total_findings r) (RepoResult.move_files r)
                       (RepoResult.error r))) acc results)
  = findings_sum acc + zsum (RepoResult.total_findings <$> results).
Proof.
  revert acc. induction results as [|r results IH]; intros acc Hnd Hfresh; csimpl.
  - rewrite zsum_nil; lia.
  - apply NoDup_cons in Hnd as [Hr Hnd]. rewrite IH; [|done|].
    + unfold findings_sum. rewrite zsum_dict_set, Hfresh by left.
      rewrite zsum_cons. csimpl. lia.
    + intros r' Hr'. rewrite dict_get_set. case_decide as Heq.
      * exfalso. apply Hr. rewrite Heq. by apply list_elem_of_fmap_2.
      * apply Hfresh. by right.
Qed.

Lemma repos_dict_sum results :
  NoDup (RepoResult.name <$> results) ->
  findings_sum (repos_dict results) = zsum (RepoResult.total_findings <$> results).
Proof.
  intros Hnd. unfold repos_dict. rewrite repos_dict_sum_acc; [|done|done].
  unfold findings_sum. csimpl. rewrite zsum_nil. lia.
Qed.

Lemma done_names_NoDup repos_dir experimental repos (done : completion) :
  done.*1.*1 ≡ₚ work_items repos_dir experimental repos ->
  NoDup repos ->
  NoDup ((fun c : work_item * option exn * option exn => c.1.1.1.1) <$> done).
Proof.
  intros Hp Hnd.
  assert (((fun c : work_item * option exn * option exn => c.1.1.1.1) <$> done) ≡ₚ repos)
    as ->; [|done].
  transitivity ((fun w : work_item => w.1.1) <$> done.*1.*1).
  { rewrite <- !list_fmap_compose. done. }
  rewrite Hp. unfold work_items. rewrite <- list_fmap_compose.
  by rewrite list_fmap_id.
Qed.

(** *** Lookups in the aggregated tables *)

Lemma dict_get_upd {V} (dflt : V) d k f k' :
  dict_get (dict_upd dflt d k f) k'
  = if decide (k = k') then Some (f (default dflt (dict_get d k))) else dict_get d k'.
Proof. unfold dict_upd. apply dict_get_set. Qed.

Lemma add_lint_is_Some repo by_lint item k :
  is_Some (dict_get by_lint k) \/ k = item.1 ->
  is_Some (dict_get (add_lint repo by_lint item) k).
Proof.
  unfold add_lint. rewrite dict_get_upd. case_decide; [eauto|]. intros [?|?]; [done|congruence].
Qed.

Lemma foldl_add_lint_is_Some repo items by_lint k :
  is_Some (dict_get by_lint k) \/ k ∈ dict_keys items ->
  is_Some (dict_get (foldl (add_lint repo) by_lint items) k).
Proof.
  revert by_lint. induction items as [|item items IH]; intros by_lint; csimpl.
  - intros [?|H]; [done|]. by apply elem_of_nil in H.
  - intros H. apply IH. rewrite elem_of_cons in H.
    destruct (decide (k ∈ dict_keys items)) as [?|Hn]; [by right|].
    left. apply add_lint_is_Some. tauto.
Qed.

Lemma aggregate_by_lint_is_Some results r k :
  r ∈ results -> k ∈ dict_keys (RepoResult.lint_breakdown r) ->
  is_Some (dict_get (aggregate_by_lint results) k).
Proof.
  unfold aggregate_by_lint. generalize (@nil (string * LintEntry.t)).
  induction results as [|r0 results IH]; intros acc Hr Hk; csimpl.
  - by apply elem_of_nil in Hr.
  - apply elem_of_cons in Hr as [<-|Hr]; [|by apply IH].
    assert (is_Some (dict_get (foldl (add_lint (RepoResult.name r)) acc
                                 (RepoResult.lint_breakdown r)) k)) as Hs.
    { apply foldl_add_lint_is_Some. by right. }
    clear Hk. revert Hs. generalize (foldl (add_lint (RepoResult.name r)) acc
                                       (RepoResult.lint_breakdown r)).
    clear. induction results as [|r1 results IH]; intros acc Hs; csimpl; [done|].
    apply IH. apply foldl_add_lint_is_Some. by left.
Qed.

Lemma dict_get_fmap {V W} (h : string -> V -> W) (d : dict V) k :
  dict_get ((fun kv : string * V => (kv.1, h kv.1 kv.2)) <$> d) k = h k <$> dict_get d k.
Proof.
  induction d as [|[k0 v0] d IH]; csimpl; [done|].
  destruct (String.eqb_spec k0 k) as [->|]; done.
Qed.

Lemma add_tier_info_get md by_lint k :
  dict_get (add_tier_info md by_lint) k
  = (fun e => match md !! k with
              | Some m => LintEntry.mk (LintEntry.count e) (LintEntry.repos e)
                            (Some (LintMeta.tier m)) (Some (LintMeta.category m))
              | None => e
              end) <$> dict_get by_lint k.
Proof.
  unfold add_tier_info. rewrite <- (dict_get_fmap (fun k e => match md !! k with
              | Some m => LintEntry.mk (LintEntry.count e) (LintEntry.repos e)
                            (Some (LintMeta.tier m)) (Some (LintMeta.category m))
              | None => e
              end)).
  f_equal. apply list_fmap_ext. intros _ [k0 e] _. cbn. by destruct (md !! k0).
Qed.

(** Entries of [aggregate_by_lint] carry no tier and no category yet. *)
Lemma aggregate_by_lint_untiered results :
  Forall (fun e => LintEntry.tier e = None /\ LintEntry.category e = None)
    (dict_values (aggregate_by_lint results)).
Proof.
  unfold aggregate_by_lint.
  assert (Forall (fun e => LintEntry.tier e = None /\ LintEntry.category e = None)
            (dict_values (@nil (string * LintEntry.t)))) as H0 by constructor.
  revert H0. generalize (@nil (string * LintEntry.t)).
  assert (forall repo items acc,
    Forall (fun e => LintEntry.tier e = None /\ LintEntry.category e = None) (dict_values acc) ->
    Forall (fun e => LintEntry.tier e = None /\ LintEntry.category e = None)
      (dict_values (foldl (add_lint repo) acc items))) as Hin.
  { intros repo items. induction items as [|item items IH]; intros acc Hacc; csimpl; [done|].
    apply IH. unfold add_lint, dict_upd.
    assert (forall (d : dict LintEntry.t) k v,
      Forall (fun e => LintEntry.tier e = None /\ LintEntry.category e = None) (dict_values d) ->
      LintEntry.tier v = None /\ LintEntry.category v = None ->
      Forall (fun e => LintEntry.tier e = None /\ LintEntry.category e = None)
        (dict_values (dict_set d k v))) as Hset.
    { clear. intros d k v. induction d as [|[k0 v0] d IH]; csimpl; intros Hd Hv.
      - by constructor.
      - apply Forall_cons in Hd as [? ?].
        destruct (String.eqb k0 k); csimpl; constructor; auto. }
    apply Hset; [done|]. cbn.
    destruct (dict_get acc item.1) as [e|] eqn:He; cbn; [|done].
    unfold dict_values in Hacc. rewrite Forall_fmap, Forall_forall in Hacc.
    assert ((item.1, e) ∈ acc) as Hin.
    { clear -He. induction acc as [|[k0 v0] acc IH]; csimpl in *; [done|].
      destruct (String.eqb_spec k0 item.1) as [Heq|]; [|right; auto].
      injection He as ->. rewrite <- Heq. left. }
    apply (Hacc _ Hin). }
  induction results as [|r results IH]; intros acc Hacc; csimpl; [done|].
  apply IH, Hin, Hacc.
Qed.

Lemma rollup_get key by_lint t :
  default 0 (dict_get (rollup key by_lint) t) = column_sum key t by_lint.
Proof.
  unfold rollup.
  assert (forall acc, default 0 (dict_get (foldl (fun acc kv =>
             dict_upd 0 acc (default "unknown" (key kv.2)) (Z.add (LintEntry.count kv.2)))
             acc by_lint) t)
          = default 0 (dict_get acc t) + column_sum key t by_lint) as H.
  { induction by_lint as [|[k e] d IH]; intros acc; csimpl.
    - unfold column_sum. csimpl. rewrite zsum_nil. lia.
    - rewrite IH, dict_get_upd. unfold column_sum, dict_values. csimpl.
      destruct (String.eqb_spec (default "unknown" (key e)) t) as [->|Hne].
      + rewrite decide_True by done. csimpl. rewrite zsum_cons. lia.
      + rewrite decide_False by done. lia. }
  rewrite H. cbn. lia.
Qed.

(** *** The benchmark claims *)

(** C1 (as amended).  In the snapshot of [run_benchmark], the grand total
    equals the sum of the per-rule counts of [by_lint]; it equals the sum
    of the per-repo finding counts of [repos] when no two collected
    results bear the same repository name, which is the case when the
    manifest names every repository once and every progress line is
    printed; and every [RepoResult] of [run_lint_on_repo] has
    [total_findings] equal to the sum of the values of [lint_breakdown]. *)
Theorem C1_totals_agree env version timestamp repos_dir experimental repos done :
  let snap := run_benchmark env version timestamp repos done in
  BenchmarkResult.total_findings snap = count_sum (BenchmarkResult.by_lint snap)
  /\ (NoDup (RepoResult.name <$> collect env done) ->
      BenchmarkResult.total_findings snap = findings_sum (BenchmarkResult.repos snap))
  /\ (done.*1.*1 ≡ₚ work_items repos_dir experimental repos -> NoDup repos ->
      Forall (fun c : work_item * option exn * option exn => c.2 = None) done ->
      NoDup (RepoResult.name <$> collect env done))
  /\ (forall args r, run_lint_on_repo env args = Return r -> repo_invariant r).
Proof.
  cbn. split; [|split; [|split]].
  - rewrite add_tier_info_count, aggregate_by_lint_sum; [done|apply collect_invariant].
  - intros Hnd. by rewrite repos_dict_sum.
  - intros Hp Hnd Hprinted. rewrite collect_names by done. by eapply done_names_NoDup.
  - intros args r Hr. by apply run_lint_on_repo_invariant in Hr as [? _].
Qed.

Lemma C1_totals_agree_witness :
  let snap := run_benchmark Example.env "0.3.0" "2025-01-01T00:00:00Z" ["A"; "B"] Example.done in
  BenchmarkResult.total_findings snap = 2
  /\ count_sum (BenchmarkResult.by_lint snap) = 2
  /\ findings_sum (BenchmarkResult.repos snap) = 2.
Proof.
  pose proof (C1_totals_agree Example.env "0.3.0" "2025-01-01T00:00:00Z" "repos" true
                ["A"; "B"] Example.done) as (H1 & H2 & H3 & _).
  cbv zeta. rewrite <- H1, <- H2.
  - split; [|split]; vm_compute; reflexivity.
  - apply H3.
    + change (Example.done.*1.*1) with [Example.item "B"; Example.item "A"].
      change (work_items "repos" true ["A"; "B"]) with [Example.item "A"; Example.item "B"].
      apply perm_swap.
    + apply NoDup_cons. split; [|apply NoDup_singleton].
      intros H. apply list_elem_of_singleton in H. discriminate H.
    + repeat constructor.
Defined.

(** C1 as stated fails when two results bear the same name, since the
    table [repos] keeps one entry per name: when the manifest lists a
    repository twice, and when a progress line cannot be printed, after
    which the handler appends an empty result for the repository whose
    result is already there. *)
Lemma C1_duplicate_repo_counterexample :
  let snap := run_benchmark Example.env "0.3.0" "2025-01-01T00:00:00Z" ["A"; "A"]
                Example.done_twice in
  let snap' := run_benchmark Example.env "0.3.0" "2025-01-01T00:00:00Z" ["A"]
                 Example.done_unprinted in
  (Example.done_twice.*1.*1 = work_items "repos" true ["A"; "A"]
   /\ BenchmarkResult.total_findings snap = 4
   /\ count_sum (BenchmarkResult.by_lint snap) = 4
   /\ findings_sum (BenchmarkResult.repos snap) = 2
   /\ BenchmarkResult.total_findings snap <> findings_sum (BenchmarkResult.repos snap))
  /\ (Example.done_unprinted.*1.*1 = work_items "repos" true ["A"]
      /\ RepoResult.name <$> collect Example.env Example.done_unprinted = ["A"; "A"]
      /\ BenchmarkResult.total_findings snap' = 2
      /\ count_sum (BenchmarkResult.by_lint snap') = 2
      /\ findings_sum (BenchmarkResult.repos snap') = 0
      /\ BenchmarkResult.total_findings snap' <> findings_sum (BenchmarkResult.repos snap')).
Proof. vm_compute. repeat split; discriminate. Qed.




(** C3.  A line that contains ["warning:"] adds one to the total and one
    to the bucket of the name that [parse_lint_name] returns, and
    [parse_lint_name] returns on every such line: the [except] branch that
    files a line under ["unknown"] is never taken.  On the line
    ["warning:"], which names no lint, the finding is filed under the empty
    name. *)
Theorem C3_nameless_warning_not_unknown :
  (forall total lint_counts line,
     Str.contains "warning:" line = true ->
     exists lint_name,
       parse_lint_name line = Return lint_name
       /\ count_line (total, lint_counts) line
          = Return (total + 1, dict_upd 0 lint_counts lint_name (Z.add 1)))
  /\ parse_lint_name "warning:" = Return EmptyString
  /\ run_lint_on_repo Example.nameless_env (Example.item "A")
     = Return (RepoResult.mk "A" 1 3 [(EmptyString, 1)] None).
Proof.
  split; [|split; reflexivity].
  intros total lint_counts line H. by apply count_line_warning.
Qed.

Lemma C3_nameless_warning_not_unknown_witness :
  exists lint_name,
    parse_lint_name "warning: unused_import: unused alias" = Return lint_name
    /\ count_line (0, []) "warning: unused_import: unused alias"
       = Return (0 + 1, dict_upd 0 [] lint_name (Z.add 1)).
Proof.
  apply (proj1 C3_nameless_warning_not_unknown 0 [] "warning: unused_import: unused alias").
  reflexivity.
Defined.

(** C9 (as amended).  Every rule of the aggregated counts has an entry in
    [by_lint]; the entry has the keys [tier] and [category] exactly when
    the rule is in the rule metadata, with the values found there, and has
    neither key otherwise.  Each key of [by_tier] and of [by_category]
    holds the sum of the counts of the rules with that tier or category,
    a missing key counting as ["unknown"]. *)
Theorem C9_tier_enrichment env version timestamp repos done :
  let snap := run_benchmark env version timestamp repos done in
  let lint_metadata := get_lint_metadata env in
  (forall r lint,
     r ∈ collect env done -> lint ∈ dict_keys (RepoResult.lint_breakdown r) ->
     exists e, dict_get (BenchmarkResult.by_lint snap) lint = Some e
       /\ LintEntry.tier e = LintMeta.tier <$> lint_metadata !! lint
       /\ LintEntry.category e = LintMeta.category <$> lint_metadata !! lint)
  /\ (forall t, default 0 (dict_get (BenchmarkResult.by_tier snap) t)
                = column_sum LintEntry.tier t (BenchmarkResult.by_lint snap))
  /\ (forall c, default 0 (dict_get (BenchmarkResult.by_category snap) c)
                = column_sum LintEntry.category c (BenchmarkResult.by_lint snap)).
Proof.
  cbn. split; [|split; intros; apply rollup_get].
  intros r lint Hr Hk. rewrite add_tier_info_get.
  destruct (aggregate_by_lint_is_Some _ _ _ Hr Hk) as [e He]. rewrite He. cbn.
  pose proof (aggregate_by_lint_untiered (collect env done)) as Hu.
  unfold dict_values in Hu. rewrite Forall_fmap, Forall_forall in Hu.
  assert ((lint, e) ∈ aggregate_by_lint (collect env done)) as Hin.
  { clear -He. induction (aggregate_by_lint _) as [|[k0 v0] acc IH]; csimpl in *; [done|].
    destruct (String.eqb_spec k0 lint) as [Heq|]; [|right; auto].
    injection He as ->. rewrite <- Heq. left. }
  destruct (Hu _ Hin) as [Ht Hc]. cbn in Ht, Hc.
  eexists. split; [done|]. destruct (get_lint_metadata env !! lint); cbn; auto.
Qed.

Lemma C9_tier_enrichment_witness :
  let snap := run_benchmark Example.env "0.3.0" "2025-01-01T00:00:00Z" ["A"; "B"] Example.done in
  exists e, dict_get (BenchmarkResult.by_lint snap) "unused_import" = Some e
    /\ LintEntry.tier e = Some "stable"
    /\ LintEntry.category e = Some "style".
Proof.
  apply (proj1 (C9_tier_enrichment Example.env "0.3.0" "2025-01-01T00:00:00Z" ["A"; "B"]
                  Example.done)
           (RepoResult.mk "A" 2 3 [("unused_import", 2)] None) "unused_import").
  - right. left.
  - left.
Defined.

(** C9 as stated fails for a rule that the rule metadata does not list:
    its entry in [by_lint] has no [tier] and no [category] key at all. *)
Lemma C9_missing_tier_counterexample :
  let snap := run_benchmark Example.stale_env "0.3.0" "2025-01-01T00:00:00Z" ["A"; "B"]
                Example.done in
  get_lint_metadata Example.stale_env !! "unused_import" = None
  /\ dict_get (BenchmarkResult.by_lint snap) "unused_import"
     = Some (LintEntry.mk 2 ["A"] None None)
  /\ LintEntry.tier (LintEntry.mk 2 ["A"] None None) <> Some "unknown"
  /\ dict_get (BenchmarkResult.by_tier snap) "unknown" = Some 2.
Proof. vm_compute. repeat split; discriminate. Qed.

(** ** The comparison of two baselines *)

(** *** Stable sorting *)

Section SortFacts.
Context {A : Type} (key : A -> Z).

Lemma insert_by_key_perm x l :
  insert_by (fun a b => key a <=? key b) x l ≡ₚ x :: l.
Proof.
  induction l as [|y l IH]; cbn; [done|].
  destruct (key x <=? key y); [done|].
  rewrite IH. apply perm_swap.
Qed.

Lemma sort_by_key_perm l : sort_by_key key l ≡ₚ l.
Proof.
  unfold sort_by_key. induction l as [|x l IH]; cbn; [done|].
  by rewrite insert_by_key_perm, IH.
Qed.

Lemma insert_by_key_sorted x l :
  StronglySorted (fun a b => key a <= key b) l ->
  StronglySorted (fun a b => key a <= key b) (insert_by (fun a b => key a <=? key b) x l).
Proof.
  induction l as [|y l IH]; cbn; intros Hs.
  - repeat constructor.
  - apply StronglySorted_cons in Hs as [Hy Hs].
    destruct (Z.leb_spec (key x) (key y)) as [Hle|Hlt].
    + apply StronglySorted_cons. split; [|by apply StronglySorted_cons].
      constructor; [done|]. eapply Forall_impl; [exact Hy|]. cbn. intros; lia.
    + apply StronglySorted_cons. split; [|by apply IH].
      rewrite insert_by_key_perm. constructor; [lia|done].
Qed.

Lemma sort_by_key_sorted l :
  StronglySorted (fun a b => key a <= key b) (sort_by_key key l).
Proof.
  unfold sort_by_key. induction l as [|x l IH]; cbn; [constructor|].
  by apply insert_by_key_sorted.
Qed.

(** Stability: the elements of one key come out in the order they went in. *)
Lemma insert_by_key_stable k x l :
  List.filter (fun a => key a =? k) (insert_by (fun a b => key a <=? key b) x l)
  = List.filter (fun a => key a =? k) (x :: l).
Proof.
  induction l as [|y l IH]; [done|].
  cbn [insert_by]. destruct (Z.leb_spec (key x) (key y)) as [Hle|Hlt]; [done|].
  cbn [List.filter] in *. rewrite IH.
  destruct (Z.eqb_spec (key x) k), (Z.eqb_spec (key y) k); try done. lia.
Qed.

Lemma sort_by_key_stable k l :
  List.filter (fun a => key a =? k) (sort_by_key key l)
  = List.filter (fun a => key a =? k) l.
Proof.
  unfold sort_by_key. induction l as [|x l IH]; [done|].
  cbn [sort_by]. rewrite insert_by_key_stable. cbn [List.filter]. by rewrite IH.
Qed.

End SortFacts.



(** *** The ranking of the lint changes *)

Lemma elem_of_changed_rows old_count new_count keys x :
  x ∈ changed_rows old_count new_count keys
  <-> exists k, k ∈ keys /\ x = mk_row k (old_count k) (new_count k)
                /\ new_count k - old_count k <> 0.
Proof.
  unfold changed_rows. rewrite list_elem_of_In, filter_In, <- list_elem_of_In, list_elem_of_fmap.
  split.
  - intros [(k & -> & Hk) Hd]. exists k. split; [done|]. split; [done|].
    unfold row_delta, mk_row in Hd; cbn in Hd.
    apply negb_true_iff, Z.eqb_neq in Hd. done.
  - intros (k & Hk & -> & Hd). split; [eauto|].
    unfold row_delta, mk_row; cbn. by apply negb_true_iff, Z.eqb_neq.
Qed.

Lemma changed_rows_names_sublist old_count new_count keys :
  row_name <$> changed_rows old_count new_count keys `sublist_of` keys.
Proof.
  unfold changed_rows. induction keys as [|k keys IH]; csimpl; [done|].
  destruct (negb _); csimpl.
  - by apply sublist_skip.
  - by apply sublist_cons.
Qed.

Lemma sorted_by_magnitude (l : list row) :
  StronglySorted (fun a b => Z.abs (row_delta b) <= Z.abs (row_delta a))
    (sort_by_key (fun x => - Z.abs (row_delta x)) l).
Proof.
  pose proof (sort_by_key_sorted (fun x : row => - Z.abs (row_delta x)) l) as H.
  induction H as [|x l' Hs IH Hx]; constructor; [done|].
  eapply Forall_impl; [exact Hx|]. cbn. intros; lia.
Qed.

Lemma stable_by_magnitude n (l : list row) :
  List.filter (fun x => Z.abs (row_delta x) =? n)
    (sort_by_key (fun x => - Z.abs (row_delta x)) l)
  = List.filter (fun x => Z.abs (row_delta x) =? n) l.
Proof.
  rewrite (List.filter_ext _ (fun x : row => - Z.abs (row_delta x) =? - n)).
  2: { intros x. destruct (Z.eqb_spec (Z.abs (row_delta x)) n),
         (Z.eqb_spec (- Z.abs (row_delta x)) (- n)); [done|lia|lia|done]. }
  rewrite sort_by_key_stable. apply List.filter_ext.
  intros x. destruct (Z.eqb_spec (Z.abs (row_delta x)) n),
         (Z.eqb_spec (- Z.abs (row_delta x)) (- n)); [done|lia|lia|done].
Qed.

(** C5 (as amended).  Whatever the order [set_iter] in which the
    interpreter walks through a set, the lint changes are the rows
    [(lint, old, new, new - old)] of the lints of either table with a
    non-zero delta, each once, by descending absolute delta, rows of equal
    absolute delta staying in the order in which the union of the lint
    names was walked through; the report lists the first twenty and, when
    there are more than twenty, the number of the others. *)
Theorem C5_lint_changes_ranked set_iter old new :
  (forall X, set_iter X ≡ₚ elements X) ->
  let old_lints := default [] (Baseline.by_lint old) in
  let new_lints := default [] (Baseline.by_lint new) in
  let all_lints := keys_set old_lints ∪ keys_set new_lints in
  let changes := lint_changes_sorted set_iter old new in
  let report := compare_baselines set_iter old new in
  (forall x, x ∈ changes <->
     exists lint, lint ∈ all_lints
       /\ x = mk_row lint (lint_count old_lints lint) (lint_count new_lints lint)
       /\ lint_count new_lints lint - lint_count old_lints lint <> 0)
  /\ NoDup (row_name <$> changes)
  /\ StronglySorted (fun a b => Z.abs (row_delta b) <= Z.abs (row_delta a)) changes
  /\ (forall n,
        List.filter (fun x => Z.abs (row_delta x) =? n) changes
        = List.filter (fun x => Z.abs (row_delta x) =? n)
            (changed_rows (lint_count old_lints) (lint_count new_lints)
               (set_iter all_lints)))
  /\ Comparison.lint_changes report = with_indicator <$> take 20 changes
  /\ Comparison.more_lints report
     = if 20 <? Z.of_nat (length changes)
       then Some (Z.of_nat (length changes) - 20) else None.
Proof.
  intros Hiter old_lints new_lints all_lints changes report.
  subst changes. unfold lint_changes_sorted.
  fold old_lints new_lints all_lints.
  split; [|split; [|split; [|split; [|split]]]].
  - intros x. rewrite sort_by_key_perm, elem_of_changed_rows.
    setoid_rewrite Hiter. setoid_rewrite elem_of_elements. done.
  - rewrite sort_by_key_perm.
    eapply sublist_NoDup; [|apply changed_rows_names_sublist].
    rewrite Hiter. apply NoDup_elements.
  - apply sorted_by_magnitude.
  - intros n. apply stable_by_magnitude.
  - done.
  - done.
Qed.

Lemma C5_lint_changes_ranked_witness :
  Comparison.lint_changes
    (compare_baselines ExampleBaselines.forwards ExampleBaselines.old ExampleBaselines.new)
  = with_indicator <$>
      take 20 (lint_changes_sorted ExampleBaselines.forwards ExampleBaselines.old
                 ExampleBaselines.new).
Proof.
  apply (C5_lint_changes_ranked ExampleBaselines.forwards ExampleBaselines.old
           ExampleBaselines.new).
  intros X. reflexivity.
Defined.

(** C5 as stated fails: the report is not a function of the two baselines
    alone.  Walking through the same set of lint names forwards or
    backwards gives two different rankings of the same two baselines. *)
Lemma C5_tie_order_counterexample :
  let all_lints : gset string := {["alpha"; "beta"]} in
  ExampleBaselines.forwards all_lints ≡ₚ elements all_lints
  /\ ExampleBaselines.backwards all_lints ≡ₚ elements all_lints
  /\ Comparison.lint_changes
       (compare_baselines ExampleBaselines.forwards ExampleBaselines.old ExampleBaselines.new)
     <> Comparison.lint_changes
          (compare_baselines ExampleBaselines.backwards ExampleBaselines.old
             ExampleBaselines.new).
Proof.
  cbv zeta. split; [done|]. split; [apply reverse_Permutation|].
  vm_compute. discriminate.
Qed.

(** ** Floating point *)

(** *** Rounding to binary64 *)

Section Rounding.
Local Open Scope Q_scope.

Lemma pow2_pos e : 0 < pow2 e.
Proof. apply Qpower_0_lt. reflexivity. Qed.

Lemma pow2_plus a b : pow2 (a + b) == pow2 a * pow2 b.
Proof. apply Qpower_plus. discriminate. Qed.

Lemma pow2_le a b : (a <= b)%Z -> pow2 a <= pow2 b.
Proof. intros H. apply Qpower_le_compat_l; [exact H|discriminate]. Qed.

Lemma pow2_lt_inv a b : pow2 a < pow2 b -> (a < b)%Z.
Proof. intros H. eapply Qpower_lt_compat_l_inv; [exact H|reflexivity]. Qed.

Lemma pow2_inject k : (0 <= k)%Z -> pow2 k == inject_Z (2 ^ k).
Proof. intros H. unfold pow2. rewrite Zpower_Qpower by exact H. reflexivity. Qed.

Lemma pow2_minus a b : pow2 (a - b) == pow2 a / pow2 b.
Proof.
  unfold Z.sub. rewrite pow2_plus. unfold pow2 at 2. rewrite Qpower_opp. reflexivity.
Qed.

Lemma Qdiv_lt_of_Z (n d a b : Z) :
  (0 < d)%Z -> (0 < b)%Z -> (n * b < a * d)%Z ->
  inject_Z n / inject_Z d < inject_Z a / inject_Z b.
Proof.
  intros Hd Hb H.
  assert (0 < inject_Z d) as Hd' by (rewrite (Zlt_Qlt 0 d) in Hd; exact Hd).
  assert (0 < inject_Z b) as Hb' by (rewrite (Zlt_Qlt 0 b) in Hb; exact Hb).
  apply Qlt_shift_div_l; [exact Hb'|].
  assert (inject_Z n / inject_Z d * inject_Z b == inject_Z (n * b) / inject_Z d) as ->
    by (rewrite inject_Z_mult; field; lra).
  apply Qlt_shift_div_r; [exact Hd'|].
  rewrite <- inject_Z_mult. rewrite <- Zlt_Qlt. exact H.
Qed.

Lemma Qdiv_le_of_Z (n d a b : Z) :
  (0 < d)%Z -> (0 < b)%Z -> (n * b <= a * d)%Z ->
  inject_Z n / inject_Z d <= inject_Z a / inject_Z b.
Proof.
  intros Hd Hb H.
  assert (0 < inject_Z d) as Hd' by (rewrite (Zlt_Qlt 0 d) in Hd; exact Hd).
  assert (0 < inject_Z b) as Hb' by (rewrite (Zlt_Qlt 0 b) in Hb; exact Hb).
  apply Qle_shift_div_l; [exact Hb'|].
  assert (inject_Z n / inject_Z d * inject_Z b == inject_Z (n * b) / inject_Z d) as ->
    by (rewrite inject_Z_mult; field; lra).
  apply Qle_shift_div_r; [exact Hd'|].
  rewrite <- inject_Z_mult. rewrite <- Zle_Qle. exact H.
Qed.

Lemma floor_log2_spec q :
  0 < q -> pow2 (floor_log2 q) <= q /\ q < pow2 (floor_log2 q + 1).
Proof.
  intros Hq. destruct q as [n d]. unfold floor_log2. cbn [Qnum Qden].
  assert (0 < n)%Z as Hn by (unfold Qlt in Hq; cbn in Hq; lia).
  set (a := Z.log2 n). set (b := Z.log2 (Z.pos d)).
  destruct (Z.log2_spec n Hn) as [Ha1 Ha2]. fold a in Ha1, Ha2.
  destruct (Z.log2_spec (Z.pos d) eq_refl) as [Hb1 Hb2]. fold b in Hb1, Hb2.
  assert (0 <= a)%Z as Ha0 by apply Z.log2_nonneg.
  assert (0 <= b)%Z as Hb0 by apply Z.log2_nonneg.
  assert (0 < 2 ^ a)%Z as Hpa by (apply Z.pow_pos_nonneg; lia).
  assert (0 < 2 ^ b)%Z as Hpb by (apply Z.pow_pos_nonneg; lia).
  assert (0 < 2 ^ Z.succ a)%Z as Hpa' by (apply Z.pow_pos_nonneg; lia).
  assert (0 < 2 ^ Z.succ b)%Z as Hpb' by (apply Z.pow_pos_nonneg; lia).
  assert (n # d == inject_Z n / inject_Z (Z.pos d)) as Hnd by apply Qmake_Qdiv.
  destruct (Qle_bool (pow2 (a - b)) (n # d)) eqn:Hc.
  - apply Qle_bool_iff in Hc. split; [exact Hc|].
    replace (a - b + 1)%Z with (Z.succ a - b)%Z by lia.
    rewrite pow2_minus, !pow2_inject, Hnd by lia.
    apply Qdiv_lt_of_Z; [lia|lia|nia].
  - assert (n # d < pow2 (a - b)) as Hlt.
    { apply Qnot_le_lt. intros H. apply Qle_bool_iff in H. congruence. }
    split.
    + replace (a - b - 1)%Z with (a - Z.succ b)%Z by lia.
      rewrite pow2_minus, !pow2_inject, Hnd by lia.
      apply Qdiv_le_of_Z; [lia|lia|nia].
    + replace (a - b - 1 + 1)%Z with (a - b)%Z by lia. exact Hlt.
Qed.

Lemma round_half_even_cases x :
  let f := Qfloor x in
  (x - inject_Z f < 1 # 2 /\ round_half_even x = f)
  \/ (x - inject_Z f == 1 # 2 /\ round_half_even x = (if Z.even f then f else f + 1)%Z)
  \/ (1 # 2 < x - inject_Z f /\ round_half_even x = (f + 1)%Z).
Proof.
  cbv zeta. unfold round_half_even.
  destruct (Qcompare_spec (x - inject_Z (Qfloor x)) (1 # 2)) as [H|H|H]; auto.
Qed.

Lemma round_half_even_floor x :
  (Qfloor x <= round_half_even x <= Qfloor x + 1)%Z.
Proof.
  destruct (round_half_even_cases x) as [[_ ->]|[[_ ->]|[_ ->]]];
    try destruct (Z.even _); lia.
Qed.

Lemma round_half_even_error x :
  - (1 # 2) <= inject_Z (round_half_even x) - x <= 1 # 2.
Proof.
  pose proof (Qfloor_le x) as H1. pose proof (Qlt_floor x) as H2.
  rewrite inject_Z_plus in H2. change (inject_Z 1) with 1 in H2.
  destruct (round_half_even_cases x) as [[H ->]|[[H ->]|[H ->]]].
  - lra.
  - destruct (Z.even _); rewrite ?inject_Z_plus; change (inject_Z 1) with 1; lra.
  - rewrite inject_Z_plus; change (inject_Z 1) with 1; lra.
Qed.

Lemma round_half_even_mono x y : x <= y -> (round_half_even x <= round_half_even y)%Z.
Proof.
  intros Hxy. pose proof (Qfloor_resp_le x y Hxy) as Hf.
  destruct (Z.eq_dec (Qfloor x) (Qfloor y)) as [Heq|Hne].
  - destruct (round_half_even_cases x) as [[Hx ->]|[[Hx ->]|[Hx ->]]];
    destruct (round_half_even_cases y) as [[Hy ->]|[[Hy ->]|[Hy ->]]];
      rewrite <- ?Heq in *; try destruct (Z.even _); try lia; exfalso; lra.
  - pose proof (round_half_even_floor x). pose proof (round_half_even_floor y). lia.
Qed.

Lemma round_half_even_Z (z : Z) : round_half_even (inject_Z z) = z.
Proof.
  destruct (round_half_even_cases (inject_Z z)) as [[H ->]|[[H E]|[H E]]];
    rewrite Qfloor_Z in *; [done| |]; exfalso; lra.
Qed.

(** The rounded value of a positive number stays in its binade, and is
    within half a unit in the last place. *)
Lemma round64_pos_bounds q :
  0 < q ->
  pow2 (floor_log2 q) <= round64_pos q <= pow2 (floor_log2 q + 1).
Proof.
  intros Hq. destruct (floor_log2_spec q Hq) as [Hlo Hhi].
  unfold round64_pos. set (e := floor_log2 q) in *. set (ulp := pow2 (e - 52)).
  assert (0 < ulp) as Hu by apply pow2_pos.
  assert (pow2 e == inject_Z (2 ^ 52) * ulp) as He.
  { unfold ulp. rewrite <- pow2_inject, <- pow2_plus by lia. f_equiv. lia. }
  assert (pow2 (e + 1) == inject_Z (2 ^ 53) * ulp) as He'.
  { unfold ulp. rewrite <- pow2_inject, <- pow2_plus by lia. f_equiv. lia. }
  assert (inject_Z (2 ^ 52) <= q / ulp) as H1.
  { apply Qle_shift_div_l; [exact Hu|]. rewrite <- He. exact Hlo. }
  assert (q / ulp <= inject_Z (2 ^ 53)) as H2.
  { apply Qle_shift_div_r; [exact Hu|]. rewrite <- He'. apply Qlt_le_weak, Hhi. }
  apply round_half_even_mono in H1, H2. rewrite round_half_even_Z in H1, H2.
  rewrite He, He'. split.
  - apply Qmult_le_compat_r; [|lra]. rewrite <- Zle_Qle. exact H1.
  - apply Qmult_le_compat_r; [|lra]. rewrite <- Zle_Qle. exact H2.
Qed.

Lemma round64_pos_error q :
  0 < q -> - (q * pow2 (-53)) <= round64_pos q - q <= q * pow2 (-53).
Proof.
  intros Hq. destruct (floor_log2_spec q Hq) as [Hlo _].
  unfold round64_pos. set (e := floor_log2 q) in *. set (ulp := pow2 (e - 52)).
  assert (0 < ulp) as Hu by apply pow2_pos.
  pose proof (round_half_even_error (q / ulp)) as [E1 E2].
  set (m := inject_Z (round_half_even (q / ulp))) in *.
  assert (q == q / ulp * ulp) as Hq' by (field; lra).
  assert (ulp * (1 # 2) <= q * pow2 (-53)) as Hb.
  { assert (ulp * (1 # 2) == pow2 e * pow2 (-53)) as ->.
    { unfold ulp. replace (e - 52)%Z with (e + -53 + 1)%Z by lia.
      rewrite !pow2_plus. change (pow2 1) with 2. ring. }
    apply Qmult_le_compat_r; [exact Hlo|]. apply Qlt_le_weak, pow2_pos. }
  assert (m * ulp - q == (m - q / ulp) * ulp) as -> by (rewrite Hq' at 1; ring).
  split.
  - apply Qle_trans with (- (ulp * (1 # 2))); [lra|].
    assert (- (ulp * (1 # 2)) == - (1 # 2) * ulp) as -> by ring.
    apply Qmult_le_compat_r; lra.
  - apply Qle_trans with (ulp * (1 # 2)); [|exact Hb].
    assert (ulp * (1 # 2) == (1 # 2) * ulp) as -> by ring.
    apply Qmult_le_compat_r; lra.
Qed.

Lemma round64_pos_mono x y : 0 < x -> x <= y -> round64_pos x <= round64_pos y.
Proof.
  intros Hx Hxy. assert (0 < y) as Hy by lra.
  destruct (floor_log2_spec x Hx) as [Hx1 Hx2].
  destruct (floor_log2_spec y Hy) as [Hy1 Hy2].
  assert (floor_log2 x < floor_log2 y + 1)%Z as Hle.
  { apply pow2_lt_inv. lra. }
  destruct (Z.eq_dec (floor_log2 x) (floor_log2 y)) as [Heq|Hne].
  - unfold round64_pos. rewrite Heq.
    set (ulp := pow2 (floor_log2 y - 52)).
    assert (0 < ulp) as Hu by apply pow2_pos.
    apply Qmult_le_compat_r; [|lra]. rewrite <- Zle_Qle.
    apply round_half_even_mono.
    apply Qmult_le_compat_r; [exact Hxy|]. apply Qlt_le_weak, Qinv_lt_0_compat, Hu.
  - pose proof (round64_pos_bounds x Hx) as [_ Bx].
    pose proof (round64_pos_bounds y Hy) as [By _].
    assert (pow2 (floor_log2 x + 1) <= pow2 (floor_log2 y)) by (apply pow2_le; lia).
    lra.
Qed.

Lemma round64_nonneg q : 0 <= q -> 0 <= round64 q.
Proof.
  intros Hq. unfold round64. destruct (Qcompare_spec q 0) as [H|H|H]; [lra|lra|].
  rewrite Qred_correct. pose proof (round64_pos_bounds q H) as [B _].
  pose proof (pow2_pos (floor_log2 q)). lra.
Qed.

(** Rounding is monotone on the non-negative numbers ... *)
Lemma round64_mono x y : 0 <= x -> x <= y -> round64 x <= round64 y.
Proof.
  intros Hx Hxy. unfold round64 at 1.
  destruct (Qcompare_spec x 0) as [H|H|H]; [apply round64_nonneg; lra|lra|].
  unfold round64. destruct (Qcompare_spec y 0) as [H'|H'|H']; [lra|lra|].
  rewrite !Qred_correct. by apply round64_pos_mono.
Qed.

(** ... and has a relative error of at most [2^-53]. *)
Lemma round64_error q :
  0 <= q -> - (q * pow2 (-53)) <= round64 q - q <= q * pow2 (-53).
Proof.
  intros Hq. unfold round64. destruct (Qcompare_spec q 0) as [H|H|H]; [|lra|].
  - rewrite H. split; vm_compute; discriminate.
  - rewrite Qred_correct. by apply round64_pos_error.
Qed.

Lemma round64_eq x y : 0 <= x -> x == y -> round64 x == round64 y.
Proof.
  intros Hx Hxy. apply Qle_antisym; apply round64_mono; lra.
Qed.

Lemma round64_0 : round64 0 = 0.
Proof. reflexivity. Qed.

Lemma round64_1 : round64 1 = 1.
Proof. vm_compute. reflexivity. Qed.

Lemma round64_100 : round64 100 = 100.
Proof. vm_compute. reflexivity. Qed.

End Rounding.

(** ** The triage metrics *)

(** *** Keys of a dictionary *)

Section DictKeys.
Context {V : Type}.
Implicit Types (d : dict V) (k : string) (v : V).

Lemma dict_set_NoDup d k v : NoDup (dict_keys d) -> NoDup (dict_keys (dict_set d k v)).
Proof.
  intros Hnd. rewrite dict_keys_set. destruct (dict_get d k) eqn:Hg; [done|].
  apply NoDup_app. split; [done|]. split; [|apply NoDup_singleton].
  intros x Hx Hk. apply list_elem_of_singleton in Hk as ->.
  by apply dict_get_None_keys in Hg.
Qed.

Lemma elem_of_dict d k v :
  NoDup (dict_keys d) -> (k, v) ∈ d <-> dict_get d k = Some v.
Proof.
  induction d as [|[k0 v0] d IH]; csimpl; intros Hnd.
  - split; [intros H; by apply elem_of_nil in H|done].
  - apply NoDup_cons in Hnd as [Hk0 Hnd]. rewrite elem_of_cons, IH by done.
    destruct (String.eqb_spec k0 k) as [->|Hne].
    + split; [|intros [= ->]; by left].
      intros [[= ->]|Hg]; [done|]. exfalso. apply Hk0. by eapply dict_get_Some_keys.
    + split; [|by right]. intros [[= ? ?]|Hg]; [congruence|done].
Qed.

End DictKeys.

Lemma zsum_ones {A} (l : list A) : zsum ((fun _ => 1) <$> l) = Z.of_nat (length l).
Proof. induction l; csimpl; rewrite ?zsum_nil, ?zsum_cons; lia. Qed.

(** *** Grouping the findings by lint *)

Lemma group_by_lint_acc findings acc rule :
  dict_get (foldl (fun by_lint finding =>
              dict_upd [] by_lint (Finding.lint finding) (fun l => l ++ [finding]))
            acc findings) rule
  = match by_rule rule findings with
    | [] => dict_get acc rule
    | l => Some (default [] (dict_get acc rule) ++ l)
    end.
Proof.
  revert acc. induction findings as [|f fs IH]; intros acc; [done|].
  cbn [foldl]. rewrite IH, dict_get_upd. unfold by_rule. cbn [List.filter].
  destruct (String.eqb_spec (Finding.lint f) rule) as [->|Hne].
  - rewrite decide_True by done. cbn [default].
    destruct (List.filter _ fs); [done|]. unfold id. by rewrite <- app_assoc.
  - by rewrite decide_False by done.
Qed.

Lemma group_by_lint_get findings rule :
  dict_get (group_by_lint findings) rule
  = match by_rule rule findings with [] => None | l => Some l end.
Proof. unfold group_by_lint. rewrite group_by_lint_acc. by destruct (by_rule _ _). Qed.

Lemma group_by_lint_NoDup findings : NoDup (dict_keys (group_by_lint findings)).
Proof.
  unfold group_by_lint.
  assert (NoDup (dict_keys (@nil (string * list Finding.t)))) as H by constructor.
  revert H. generalize (@nil (string * list Finding.t)).
  induction findings as [|f fs IH]; intros acc Hacc; [done|].
  cbn [foldl]. apply IH. by apply dict_set_NoDup.
Qed.

Lemma calculate_metrics_get triage_data rule :
  dict_get (calculate_metrics triage_data) rule
  = lint_metrics <$> dict_get (group_by_lint (TriageData.findings triage_data)) rule.
Proof. unfold calculate_metrics. apply (dict_get_fmap (fun _ => lint_metrics)). Qed.

Lemma calculate_metrics_NoDup triage_data : NoDup (dict_keys (calculate_metrics triage_data)).
Proof.
  unfold calculate_metrics, dict_keys. rewrite <- list_fmap_compose.
  apply group_by_lint_NoDup.
Qed.

Lemma count_class_by_rule c rule findings :
  count_class c (by_rule rule findings) = classified_as c rule findings.
Proof.
  unfold count_class, classified_as, by_rule. rewrite zsum_ones. do 2 f_equal.
  induction findings as [|f fs IH]; [done|]. cbn [List.filter].
  destruct (String.eqb (Finding.lint f) rule); cbn [List.filter andb]; [|done].
  destruct (String.eqb (Finding.classification f) c); by rewrite IH.
Qed.

Lemma length_by_rule rule findings :
  Z.of_nat (length (by_rule rule findings)) = findings_of rule findings.
Proof. done. Qed.

Lemma classified_as_nonneg c rule findings : 0 <= classified_as c rule findings.
Proof. unfold classified_as. lia. Qed.

(** *** The two rates *)

Section Rates.
Local Open Scope Q_scope.

Lemma float_lt_int_spec x n : float_lt_int x n = true <-> x < inject_Z n.
Proof.
  unfold float_lt_int. rewrite negb_true_iff. split.
  - intros H. apply Qnot_le_lt. intros Hle. apply Qle_bool_iff in Hle. congruence.
  - intros H. destruct (Qle_bool (inject_Z n) x) eqn:E; [|done].
    apply Qle_bool_iff in E. lra.
Qed.

Lemma ratio_bounds (a t : Z) :
  (0 <= a <= t)%Z -> (0 < t)%Z -> 0 <= inject_Z a / inject_Z t <= 1.
Proof.
  intros Ha Ht.
  assert (0 < inject_Z t) as Ht' by (rewrite (Zlt_Qlt 0 t) in Ht; exact Ht).
  assert (0 <= inject_Z a) as Ha'.
  { assert (0 <= a)%Z as H by lia. rewrite (Zle_Qle 0 a) in H. exact H. }
  assert (inject_Z a <= inject_Z t) as Hat by (rewrite <- Zle_Qle; lia).
  split.
  - apply Qle_shift_div_l; [exact Ht'|]. lra.
  - apply Qle_shift_div_r; [exact Ht'|]. lra.
Qed.

(** A rate is a percentage. *)
Lemma rate_bounds (a t : Z) :
  (0 <= a <= t)%Z -> (0 < t)%Z -> 0 <= float_mul_int (truediv a t) 100 <= 100.
Proof.
  intros Ha Ht. destruct (ratio_bounds a t Ha Ht) as [H0 H1].
  unfold float_mul_int, truediv.
  pose proof (round64_nonneg _ H0) as R0.
  pose proof (round64_mono _ _ H0 H1) as R1. rewrite round64_1 in R1.
  change (inject_Z 100) with 100.
  split.
  - apply round64_nonneg. lra.
  - apply Qle_trans with (round64 100); [apply round64_mono; lra|].
    rewrite round64_100. lra.
Qed.

Lemma rate_error (a t : Z) :
  (0 <= a <= t)%Z -> (0 < t)%Z ->
  let q := inject_Z a / inject_Z t in
  100 * q * (1 - pow2 (-53)) * (1 - pow2 (-53))
  <= float_mul_int (truediv a t) 100
  <= 100 * q * (1 + pow2 (-53)) * (1 + pow2 (-53)).
Proof.
  intros Ha Ht q. destruct (ratio_bounds a t Ha Ht) as [H0 H1]. fold q in H0, H1.
  unfold float_mul_int, truediv. fold q.
  pose proof (round64_nonneg _ H0) as R0.
  pose proof (round64_error _ H0) as [E1 E2].
  set (x := round64 q) in *.
  assert (0 <= x * inject_Z 100) as Hx by (change (inject_Z 100) with 100; lra).
  pose proof (round64_error _ Hx) as [F1 F2].
  set (y := round64 (x * inject_Z 100)) in *.
  change (inject_Z 100) with 100 in *.
  change (pow2 (-53)) with (1 # 9007199254740992) in *.
  split; lra.
Qed.

(** The two rates of a rule add up to 100 within [2^-45]. *)
Lemma rate_sum (a b : Z) :
  (0 <= a)%Z -> (0 <= b)%Z -> (0 < a + b)%Z ->
  - pow2 (-45)
  <= float_mul_int (truediv a (a + b)) 100 + float_mul_int (truediv b (a + b)) 100 - 100
  <= pow2 (-45).
Proof.
  intros Ha Hb Ht.
  pose proof (rate_error a (a + b) ltac:(lia) Ht) as [A1 A2].
  pose proof (rate_error b (a + b) ltac:(lia) Ht) as [B1 B2].
  cbv zeta in *.
  assert (inject_Z a / inject_Z (a + b) + inject_Z b / inject_Z (a + b) == 1) as Hs.
  { rewrite inject_Z_plus.
    assert (0 < inject_Z a + inject_Z b).
    { rewrite <- inject_Z_plus. rewrite (Zlt_Qlt 0 (a + b)) in Ht. exact Ht. }
    field. lra. }
  set (qa := inject_Z a / inject_Z (a + b)) in *.
  set (qb := inject_Z b / inject_Z (a + b)) in *.
  change (pow2 (-53)) with (1 # 9007199254740992) in *.
  change (pow2 (-45)) with (1 # 35184372088832).
  split; lra.
Qed.

End Rates.

Lemma calculate_metrics_entry triage_data rule :
  0 < findings_of rule (TriageData.findings triage_data) ->
  dict_get (calculate_metrics triage_data) rule
  = Some (lint_metrics (by_rule rule (TriageData.findings triage_data))).
Proof.
  intros H. rewrite calculate_metrics_get, group_by_lint_get.
  rewrite <- length_by_rule in H. destruct (by_rule _ _); [cbn in H; lia|done].
Qed.

Lemma calculate_metrics_entry_inv triage_data rule m :
  dict_get (calculate_metrics triage_data) rule = Some m ->
  m = lint_metrics (by_rule rule (TriageData.findings triage_data)).
Proof.
  rewrite calculate_metrics_get, group_by_lint_get.
  destruct (by_rule _ _); [done|]. by intros [= <-].
Qed.

(** C6 (as amended).  For a rule with findings in the dataset,
    [calculate_metrics] counts as [tp] and [fp] the findings classified
    ['TP'] and ['FP'] and nothing else; when [tp + fp > 0], [fp_rate] and
    [precision] are the binary64 results of [fp / (tp + fp) * 100] and of
    [tp / (tp + fp) * 100], and their sum is within [2^-45] of 100; when
    [tp + fp = 0] both are 0; both always lie between 0 and 100. *)
Theorem C6_fp_rate_and_precision triage_data rule :
  let findings := TriageData.findings triage_data in
  let TP := classified_as "TP" rule findings in
  let FP := classified_as "FP" rule findings in
  0 < findings_of rule findings ->
  exists m,
    dict_get (calculate_metrics triage_data) rule = Some m
    /\ LintMetrics.tp m = TP /\ LintMetrics.fp m = FP
    /\ (0 < TP + FP ->
        LintMetrics.fp_rate m
        = round64 (round64 (inject_Z FP / inject_Z (TP + FP)) * inject_Z 100)
        /\ LintMetrics.precision m
           = round64 (round64 (inject_Z TP / inject_Z (TP + FP)) * inject_Z 100)
        /\ (- pow2 (-45) <= LintMetrics.fp_rate m + LintMetrics.precision m - 100
            <= pow2 (-45))%Q)
    /\ (TP + FP = 0 -> LintMetrics.fp_rate m = 0%Q /\ LintMetrics.precision m = 0%Q)
    /\ (0 <= LintMetrics.fp_rate m <= 100)%Q
    /\ (0 <= LintMetrics.precision m <= 100)%Q.
Proof.
  intros findings TP FP Hn. eexists. split; [by apply calculate_metrics_entry|].
  unfold lint_metrics. cbn [LintMetrics.tp LintMetrics.fp LintMetrics.fp_rate
                            LintMetrics.precision].
  rewrite !count_class_by_rule. fold findings TP FP.
  pose proof (classified_as_nonneg "TP" rule findings) as HTP.
  pose proof (classified_as_nonneg "FP" rule findings) as HFP.
  fold TP in HTP. fold FP in HFP.
  split; [done|]. split; [done|].
  destruct (Z.ltb_spec 0 (TP + FP)) as [Hpos|Hzero].
  - split; [|split; [lia|]].
    + intros _. split; [done|]. split; [done|].
      pose proof (rate_sum FP TP HFP HTP ltac:(lia)) as H.
      rewrite (Z.add_comm FP TP) in H. exact H.
    + split; apply rate_bounds; lia.
  - split; [lia|]. split; [done|]. split; split; vm_compute; discriminate.
Qed.

Lemma C6_fp_rate_and_precision_witness :
  exists m,
    dict_get (calculate_metrics ExampleTriage.eight_two_one) "R" = Some m
    /\ LintMetrics.tp m = 8 /\ LintMetrics.fp m = 2
    /\ LintMetrics.fp_rate m = 20%Q /\ LintMetrics.precision m = 80%Q.
Proof.
  destruct (C6_fp_rate_and_precision ExampleTriage.eight_two_one "R")
    as (m & Hm & Htp & Hfp & Hrates & _).
  - vm_compute. reflexivity.
  - destruct Hrates as (Hr & Hp & _); [vm_compute; reflexivity|].
    exists m. split; [exact Hm|].
    split; [rewrite Htp; vm_compute; reflexivity|].
    split; [rewrite Hfp; vm_compute; reflexivity|].
    split; [rewrite Hr|rewrite Hp]; vm_compute; reflexivity.
Defined.

(** C6 as stated fails in the arithmetic of the code: with two true
    positives and one false positive the two rates do not add up to 100. *)
Lemma C6_sum_counterexample :
  exists m,
    dict_get (calculate_metrics ExampleTriage.two_to_one) "R" = Some m
    /\ LintMetrics.tp m = 2 /\ LintMetrics.fp m = 1
    /\ ~ (LintMetrics.fp_rate m + LintMetrics.precision m == 100)%Q
    /\ ~ (round64 (LintMetrics.fp_rate m + LintMetrics.precision m) == 100)%Q.
Proof.
  eexists. split; [vm_compute; reflexivity|].
  split; [reflexivity|]. split; [reflexivity|].
  split; vm_compute; discriminate.
Qed.

(** *** The promotion list *)

Lemma elem_of_promotable metrics rule :
  NoDup (dict_keys metrics) ->
  rule ∈ promotable metrics
  <-> exists m, dict_get metrics rule = Some m
        /\ (LintMetrics.fp_rate m < 10)%Q /\ 5 <= LintMetrics.total m.
Proof.
  intros Hnd. unfold promotable, dict_keys. rewrite list_elem_of_fmap. split.
  - intros ([k m] & -> & Hin). apply list_elem_of_In, filter_In in Hin as [Hin Hc].
    apply list_elem_of_In, elem_of_dict in Hin; [|done].
    apply andb_true_iff in Hc as [H1 H2]. cbn in *.
    exists m. split; [done|]. split; [by apply float_lt_int_spec in H1 | lia].
  - intros (m & Hg & H1 & H2). exists (rule, m). split; [done|].
    apply list_elem_of_In, filter_In. split.
    + apply list_elem_of_In, elem_of_dict; done.
    + cbn. apply andb_true_iff. split; [by apply float_lt_int_spec | lia].
Qed.

(** C7 (as amended).  A rule is in the promote-to-Stable list exactly when
    its false-positive rate is below 10 and the dataset holds at least 5
    findings of the rule, whatever their classification. *)
Theorem C7_promotable_iff triage_data rule :
  rule ∈ promotable (calculate_metrics triage_data)
  <-> exists m, dict_get (calculate_metrics triage_data) rule = Some m
        /\ (LintMetrics.fp_rate m < 10)%Q
        /\ 5 <= findings_of rule (TriageData.findings triage_data).
Proof.
  rewrite elem_of_promotable by apply calculate_metrics_NoDup.
  split; intros (m & Hg & H1 & H2); exists m; (split; [done|]); (split; [done|]);
    apply calculate_metrics_entry_inv in Hg; subst m; exact H2.
Qed.

Lemma C7_promotable_iff_witness :
  "R" ∈ promotable (calculate_metrics ExampleTriage.mostly_info).
Proof.
  apply (proj2 (C7_promotable_iff ExampleTriage.mostly_info "R")).
  eexists. split; [vm_compute; reflexivity|].
  split; [vm_compute; reflexivity | vm_compute; discriminate].
Defined.

(** C7 as stated fails: a rule with one true positive and four
    informational findings is promoted although only one of its findings is
    classified TP or FP. *)
Lemma C7_unclassified_promoted_counterexample :
  let findings := TriageData.findings ExampleTriage.mostly_info in
  promotable (calculate_metrics ExampleTriage.mostly_info) = ["R"]
  /\ classified_as "TP" "R" findings + classified_as "FP" "R" findings = 1
  /\ findings_of "R" findings = 5
  /\ ~ 5 <= classified_as "TP" "R" findings + classified_as "FP" "R" findings.
Proof. vm_compute. repeat split. intros H. apply H. reflexivity. Qed.

(** *** analyze_fp.py: the per-lint counts *)

Lemma by_lint_foldl stats findings :
  Stats.by_lint (foldl analyze_finding stats findings)
  = foldl (fun d f =>
             dict_upd (LintStats.mk 0 0 0 0 0) d (default "unknown" (DbFinding.lint f))
               (count_lint_status (default "needs_review" (DbFinding.status f))))
      (Stats.by_lint stats) findings.
Proof.
  revert stats. induction findings as [|f fs IH]; intros stats; [done|].
  cbn [foldl]. by rewrite IH.
Qed.

Lemma db_count_cons status lint f fs :
  db_count status lint (f :: fs)
  = (if String.eqb (default "unknown" (DbFinding.lint f)) lint
        && String.eqb (default "needs_review" (DbFinding.status f)) status
     then 1 else 0) + db_count status lint fs.
Proof.
  unfold db_count. cbn [List.filter]. destruct (_ && _); cbn [length]; lia.
Qed.

Lemma count_lint_status_fields status s :
  LintStats.confirmed (count_lint_status status s)
  = LintStats.confirmed s + (if String.eqb status "confirmed" then 1 else 0)
  /\ LintStats.fp (count_lint_status status s)
     = LintStats.fp s + (if String.eqb status "false_positive" then 1 else 0)
  /\ LintStats.wont_fix (count_lint_status status s)
     = LintStats.wont_fix s + (if String.eqb status "wont_fix" then 1 else 0).
Proof.
  unfold count_lint_status.
  destruct (String.eqb_spec status "confirmed") as [->|];
    [cbn; repeat split; lia|].
  destruct (String.eqb_spec status "false_positive") as [->|];
    [cbn; repeat split; lia|].
  destruct (String.eqb_spec status "wont_fix") as [->|]; cbn; repeat split; lia.
Qed.

Lemma by_lint_counts findings d lint :
  let d' := foldl (fun d f =>
              dict_upd (LintStats.mk 0 0 0 0 0) d (default "unknown" (DbFinding.lint f))
                (count_lint_status (default "needs_review" (DbFinding.status f))))
              d findings in
  LintStats.confirmed (lint_stats_of d' lint)
  = LintStats.confirmed (lint_stats_of d lint) + db_count "confirmed" lint findings
  /\ LintStats.fp (lint_stats_of d' lint)
     = LintStats.fp (lint_stats_of d lint) + db_count "false_positive" lint findings
  /\ LintStats.wont_fix (lint_stats_of d' lint)
     = LintStats.wont_fix (lint_stats_of d lint) + db_count "wont_fix" lint findings.
Proof.
  cbv zeta. revert d. induction findings as [|f fs IH]; intros d.
  - cbn [foldl]. unfold db_count. cbn. lia.
  - cbn [foldl]. destruct (IH (dict_upd (LintStats.mk 0 0 0 0 0) d
                                 (default "unknown" (DbFinding.lint f))
                                 (count_lint_status
                                    (default "needs_review" (DbFinding.status f)))))
      as (-> & -> & ->).
    rewrite !db_count_cons. unfold lint_stats_of at 1 3 5. rewrite dict_get_upd.
    destruct (String.eqb_spec (default "unknown" (DbFinding.lint f)) lint) as [Heq|Hne].
    + rewrite decide_True by done. cbn [default andb]. rewrite Heq.
      fold (lint_stats_of d lint).
      pose proof (count_lint_status_fields (default "needs_review" (DbFinding.status f))
                    (lint_stats_of d lint)) as (E1 & E2 & E3).
      unfold id in *. rewrite E1, E2, E3. lia.
    + rewrite decide_False by done. fold (lint_stats_of d lint). cbn [andb]. lia.
Qed.

Lemma db_count_nonneg status lint findings : 0 <= db_count status lint findings.
Proof. unfold db_count. lia. Qed.

(** C8 (as amended).  The rate that [analyze_fp] reports for a lint is
    [false_positive / (confirmed + false_positive + wont_fix) * 100] over
    the entries of the database with these statuses, and 0 when there is no
    such entry: entries that will not be fixed count in the denominator,
    and only [needs_review] and unlisted statuses are left out. *)
Theorem C8_fp_rate_counts_wont_fix db lint rate :
  let confirmed := db_count "confirmed" lint (dict_values db) in
  let false_positive := db_count "false_positive" lint (dict_values db) in
  let wont_fix := db_count "wont_fix" lint (dict_values db) in
  let reviewed := confirmed + false_positive + wont_fix in
  lint_fp_rate db lint = Some rate ->
  rate = (if reviewed =? 0 then 0%Q
          else round64 (round64 (inject_Z false_positive / inject_Z reviewed)
                        * inject_Z 100))
  /\ (0 <= rate <= 100)%Q.
Proof.
  cbv zeta. unfold lint_fp_rate, analyze_findings. rewrite by_lint_foldl.
  cbn [Stats.by_lint].
  pose proof (by_lint_counts (dict_values db) [] lint) as (Hc & Hf & Hw).
  cbv zeta in Hc, Hf, Hw. unfold lint_stats_of in Hc, Hf, Hw.
  destruct (dict_get _ lint) as [s|]; [|done]. cbn in Hc, Hf, Hw.
  rewrite Z.add_0_l in Hc, Hf, Hw.
  intros [= <-]. unfold calculate_fp_rate. rewrite Hc, Hf, Hw.
  pose proof (db_count_nonneg "confirmed" lint (dict_values db)).
  pose proof (db_count_nonneg "false_positive" lint (dict_values db)).
  pose proof (db_count_nonneg "wont_fix" lint (dict_values db)).
  split; [done|].
  destruct (Z.eqb_spec (db_count "confirmed" lint (dict_values db)
                        + db_count "false_positive" lint (dict_values db)
                        + db_count "wont_fix" lint (dict_values db)) 0).
  - split; vm_compute; discriminate.
  - apply rate_bounds; lia.
Qed.

Lemma C8_fp_rate_counts_wont_fix_witness : lint_fp_rate ExampleTriage.db "L" = Some 25%Q.
Proof.
  destruct (lint_fp_rate ExampleTriage.db "L") as [rate|] eqn:E;
    [|vm_compute in E; discriminate E].
  destruct (C8_fp_rate_counts_wont_fix ExampleTriage.db "L" rate E) as [-> _].
  vm_compute. reflexivity.
Defined.

(** C8 as stated fails: with one confirmed finding, one false positive and
    two findings that will not be fixed the reported rate is 25, not the
    50 that leaving [wont_fix] out would give. *)
Lemma C8_wont_fix_counterexample :
  let findings := dict_values ExampleTriage.db in
  db_count "confirmed" "L" findings = 1
  /\ db_count "false_positive" "L" findings = 1
  /\ db_count "wont_fix" "L" findings = 2
  /\ lint_fp_rate ExampleTriage.db "L" = Some 25%Q
  /\ spec_fp_rate 1 1 = 50%Q
  /\ lint_fp_rate ExampleTriage.db "L" <> Some (spec_fp_rate 1 1).
Proof. vm_compute. repeat split; discriminate. Qed.

(** *** generate_report *)

Lemma mapM_raise {A B} (f : A -> result B) x l e :
  f x = Raise e -> mapM f (x :: l) = Raise e.
Proof. intros H. cbn. by rewrite H. Qed.

(** The section of a lint in the false-positive analysis is never
    written. *)
Lemma fp_section_raises kv : exists e, fp_section kv = Raise e.
Proof.
  destruct kv as [lint_name fps]. unfold fp_section.
  destruct (mapM _ fps) as [rationales|e]; cbn; eauto.
Qed.

Lemma dict_upd_nonempty {V} (dflt : V) d k f : dict_upd dflt d k f <> [].
Proof.
  unfold dict_upd. destruct d as [|[k0 v0] d]; [done|].
  cbn. destruct (String.eqb k0 k); done.
Qed.

Lemma fp_by_lint_acc_nonempty findings (acc : dict (list Finding.t)) :
  acc <> [] \/ (exists f, f ∈ findings /\ Finding.classification f = "FP") ->
  foldl (fun d finding =>
           if String.eqb (Finding.classification finding) "FP"
           then dict_upd [] d (Finding.lint finding) (fun l => l ++ [finding])
           else d) acc findings <> [].
Proof.
  revert acc. induction findings as [|f fs IH]; intros acc H; cbn [foldl].
  - destruct H as [H|(f0 & Hin & _)]; [done|]. by apply elem_of_nil in Hin.
  - apply IH. destruct H as [H|(f0 & Hin & Hc)].
    + left. destruct (String.eqb _ _); [apply dict_upd_nonempty|done].
    + apply elem_of_cons in Hin as [<-|Hin]; [|right; eauto].
      left. apply String.eqb_eq in Hc. rewrite Hc. apply dict_upd_nonempty.
Qed.

Lemma fp_by_lint_nonempty findings :
  (exists f, f ∈ findings /\ Finding.classification f = "FP") ->
  fp_by_lint findings <> [].
Proof. intros H. apply fp_by_lint_acc_nonempty. by right. Qed.

Lemma count_class_cons c f fs :
  count_class c (f :: fs)
  = (if String.eqb (Finding.classification f) c then 1 else 0) + count_class c fs.
Proof.
  unfold count_class. cbn [List.filter]. destruct (String.eqb _ c); csimpl;
    rewrite ?zsum_cons; lia.
Qed.

Lemma count_class_snoc c l f :
  count_class c (l ++ [f])
  = count_class c l + (if String.eqb (Finding.classification f) c then 1 else 0).
Proof.
  induction l as [|x l IH]; [rewrite app_nil_l, !count_class_cons; cbn; lia|].
  rewrite <- app_comm_cons, !count_class_cons, IH. lia.
Qed.

(** The totals of the executive summary are the counts over the whole
    dataset. *)
Lemma group_class_sum c findings :
  zsum (count_class c <$> dict_values (group_by_lint findings)) = count_class c findings.
Proof.
  unfold group_by_lint.
  assert (forall acc,
    zsum (count_class c <$> dict_values (foldl (fun by_lint finding =>
            dict_upd [] by_lint (Finding.lint finding) (fun l => l ++ [finding]))
            acc findings))
    = zsum (count_class c <$> dict_values acc) + count_class c findings) as H.
  { induction findings as [|f fs IH]; intros acc; cbn [foldl].
    - change (count_class c []) with 0. lia.
    - rewrite IH, zsum_dict_upd by done.
      rewrite count_class_snoc, count_class_cons. lia. }
  rewrite H. csimpl. rewrite zsum_nil. lia.
Qed.

Lemma total_tp_eq triage_data :
  zsum (LintMetrics.tp <$> dict_values (calculate_metrics triage_data))
  = count_class "TP" (TriageData.findings triage_data).
Proof.
  rewrite <- group_class_sum. unfold calculate_metrics, dict_values.
  rewrite <- !list_fmap_compose. done.
Qed.

Lemma total_fp_eq triage_data :
  zsum (LintMetrics.fp <$> dict_values (calculate_metrics triage_data))
  = count_class "FP" (TriageData.findings triage_data).
Proof.
  rewrite <- group_class_sum. unfold calculate_metrics, dict_values.
  rewrite <- !list_fmap_compose. done.
Qed.

Lemma count_class_nonneg c findings : 0 <= count_class c findings.
Proof. unfold count_class. rewrite zsum_ones. lia. Qed.

Lemma count_class_pos c findings f :
  f ∈ findings -> Finding.classification f = c -> 0 < count_class c findings.
Proof.
  intros Hin Hc. unfold count_class. rewrite zsum_ones.
  assert (f ∈ List.filter (fun f => String.eqb (Finding.classification f) c) findings) as H.
  { apply list_elem_of_In, filter_In. split; [by apply list_elem_of_In|].
    by apply String.eqb_eq. }
  destruct (List.filter _ findings); [by apply elem_of_nil in H|]. cbn. lia.
Qed.

Lemma generate_report_fp_raises triage_data :
  (exists f, f ∈ TriageData.findings triage_data /\ Finding.classification f = "FP") ->
  exists e, generate_report (calculate_metrics triage_data) triage_data = Raise e.
Proof.
  intros Hfp. unfold generate_report.
  destruct (py_truediv _ _) as [ratio|e]; cbn [mbind result_bind]; [|eauto].
  destruct (severity_section "### Critical Severity" _) as [critical|e];
    cbn [mbind result_bind]; [|eauto].
  destruct (severity_section "### High Severity" _) as [high|e];
    cbn [mbind result_bind]; [|eauto].
  pose proof (fp_by_lint_nonempty _ Hfp) as Hne.
  destruct (fp_by_lint (TriageData.findings triage_data)) as [|kv fps]; [done|].
  destruct (fp_section_raises kv) as [e He].
  rewrite (mapM_raise fp_section kv fps e He). cbn. eauto.
Qed.

Lemma generate_report_zero_raises triage_data :
  count_class "TP" (TriageData.findings triage_data) = 0 ->
  count_class "FP" (TriageData.findings triage_data) = 0 ->
  generate_report (calculate_metrics triage_data) triage_data = Raise ZeroDivisionError.
Proof.
  intros Htp Hfp. unfold generate_report.
  rewrite total_tp_eq, total_fp_eq, Htp, Hfp. reflexivity.
Qed.

(** C10.  [generate_report] raises on every dataset with a finding
    classified ['FP'] and on every dataset without any finding classified
    ['TP'] or ['FP']; a dataset on which it completes has at least one
    ['TP'] and no ['FP']. *)
Theorem C10_generate_report_raises triage_data :
  let findings := TriageData.findings triage_data in
  let metrics := calculate_metrics triage_data in
  ((exists f, f ∈ findings /\ Finding.classification f = "FP") ->
   exists e, generate_report metrics triage_data = Raise e)
  /\ (count_class "TP" findings = 0 -> count_class "FP" findings = 0 ->
      generate_report metrics triage_data = Raise ZeroDivisionError)
  /\ (forall doc, generate_report metrics triage_data = Return doc ->
      0 < count_class "TP" findings /\ count_class "FP" findings = 0).
Proof.
  cbv zeta. split; [apply generate_report_fp_raises|].
  split; [apply generate_report_zero_raises|].
  intros doc Hdoc.
  pose proof (count_class_nonneg "TP" (TriageData.findings triage_data)) as Htp.
  pose proof (count_class_nonneg "FP" (TriageData.findings triage_data)) as Hfp.
  assert (count_class "FP" (TriageData.findings triage_data) = 0) as Hfp0.
  { destruct (Z.eq_dec (count_class "FP" (TriageData.findings triage_data)) 0) as [|Hne];
      [done|].
    exfalso.
    assert (exists f, f ∈ TriageData.findings triage_data /\ Finding.classification f = "FP")
      as Hex.
    { unfold count_class in Hne. rewrite zsum_ones in Hne.
      destruct (List.filter _ (TriageData.findings triage_data)) as [|f l] eqn:E;
        [done|].
      assert (In f (List.filter (fun f => String.eqb (Finding.classification f) "FP")
                      (TriageData.findings triage_data))) as Hin by (rewrite E; left; done).
      apply filter_In in Hin as [Hin Hc]. exists f. split; [by apply list_elem_of_In|].
      by apply String.eqb_eq. }
    destruct (generate_report_fp_raises triage_data Hex) as [e He]. congruence. }
  split; [|done].
  destruct (Z.eq_dec (count_class "TP" (TriageData.findings triage_data)) 0) as [H0|];
    [|lia].
  rewrite (generate_report_zero_raises triage_data H0 Hfp0) in Hdoc. done.
Qed.

Lemma C10_generate_report_raises_witness :
  (exists e, generate_report (calculate_metrics ExampleTriage.two_to_one)
               ExampleTriage.two_to_one = Raise e)
  /\ generate_report (calculate_metrics ExampleTriage.only_info) ExampleTriage.only_info
     = Raise ZeroDivisionError
  /\ (exists doc, generate_report (calculate_metrics ExampleTriage.one_tp)
                    ExampleTriage.one_tp = Return doc)
  /\ 0 < count_class "TP" (TriageData.findings ExampleTriage.one_tp)
  /\ count_class "FP" (TriageData.findings ExampleTriage.one_tp) = 0.
Proof.
  split; [|split; [|split]].
  - apply (proj1 (C10_generate_report_raises ExampleTriage.two_to_one)).
    exists (ExampleTriage.finding "R" "FP"). split; [|reflexivity].
    right. right. left.
  - apply (proj1 (proj2 (C10_generate_report_raises ExampleTriage.only_info)));
      reflexivity.
  - eexists. vm_compute. reflexivity.
  - destruct (generate_report (calculate_metrics ExampleTriage.one_tp)
                ExampleTriage.one_tp) as [doc|e] eqn:E; [|vm_compute in E; discriminate E].
    exact (proj2 (proj2 (C10_generate_report_raises ExampleTriage.one_tp)) doc E).
Defined.

(** ** More on the benchmark *)

(** *** More on [run_lint_on_repo] *)

Lemma walk_count_nonneg (n : fs_node) : 0 <= walk_count n.
Proof.
  revert n. fix IH 1. intros [nm|nm entries]; cbn.
  - destruct (Str.endswith _ _); lia.
  - destruct (bool_decide _); [lia|].
    induction entries as [|e entries IHe]; [lia|].
    pose proof (IH e). lia.
Qed.

Lemma count_move_files_nonneg env repo_path n :
  count_move_files env repo_path = Return n -> 0 <= n.
Proof.
  unfold count_move_files.
  destruct (fs env repo_path) as [[nm|nm entries]|]; try (intros [= <-]; lia).
  assert (0 <= zsum (walk_count <$> entries)) as H.
  { induction entries as [|e entries IH]; csimpl; rewrite ?zsum_nil, ?zsum_cons; [lia|].
    pose proof (walk_count_nonneg e). lia. }
  destruct (walk_limit env) as [[limit text]|]; [|by intros [= <-]].
  destruct (_ <? _)%nat; [done|by intros [= <-]].
Qed.

(** What holds of the results of [run_lint_on_repo] and of the results
    that the handler makes up holds of all collected results. *)
Lemma collect_Forall (P : RepoResult.t -> Prop) env done :
  (forall name e, P (failed_result name e)) ->
  (forall args r, run_lint_on_repo env args = Return r -> P r) ->
  Forall P (collect env done).
Proof.
  intros Hf Hr. unfold collect. apply Forall_bind, Forall_forall. intros c _.
  unfold compose. destruct (collect_one_cases env c) as [[e ->]|(r & Hrun & _ & [->|(e & _ & ->)])];
    repeat constructor; eauto.
Qed.

Section DictForall.
Context {V : Type} (P : V -> Prop).

Lemma dict_get_values (d : dict V) k v : dict_get d k = Some v -> v ∈ dict_values d.
Proof.
  induction d as [|[k0 v0] d IH]; csimpl; [done|].
  destruct (String.eqb k0 k); [intros [= ->]; left | right; auto].
Qed.

Lemma dict_set_Forall (d : dict V) k v :
  Forall P (dict_values d) -> P v -> Forall P (dict_values (dict_set d k v)).
Proof.
  induction d as [|[k0 v0] d IH]; csimpl; intros Hd Hv.
  - by constructor.
  - apply Forall_cons in Hd as [? ?].
    destruct (String.eqb k0 k); csimpl; constructor; auto.
Qed.

End DictForall.

(** The loop over the output lines: what it adds to the total and what it
    keeps true of the counters. *)
Lemma count_lines_spec lines total d total' d' :
  count_lines (total, d) lines = Return (total', d') ->
  total' = total + Z.of_nat (length (List.filter (Str.contains "warning:") lines))
  /\ (Forall (fun v => 1 <= v) (dict_values d) -> Forall (fun v => 1 <= v) (dict_values d'))
  /\ (NoDup (dict_keys d) -> NoDup (dict_keys d')).
Proof.
  revert total d. induction lines as [|line lines IH]; intros total d; cbn [count_lines].
  - intros [= <- <-]. cbn. split; [lia|done].
  - cbn [List.filter]. destruct (Str.contains "warning:" line) eqn:Hc.
    + destruct (count_line_warning total d line Hc) as (name & _ & ->).
      cbn [mbind result_bind]. intros H. apply IH in H as (-> & Hpos & Hnd).
      split; [cbn [length]; lia|]. split.
      * intros Hd. apply Hpos. unfold dict_upd. apply dict_set_Forall; [done|].
        destruct (dict_get d name) as [v|] eqn:Hg; cbn; [|lia].
        apply dict_get_values in Hg. rewrite Forall_forall in Hd.
        specialize (Hd v Hg). cbn in Hd. lia.
      * intros Hd. apply Hnd. unfold dict_upd. by apply dict_set_NoDup.
    + rewrite count_line_plain by done. cbn [mbind result_bind]. apply IH.
Qed.

(** X1.  A result of [run_lint_on_repo] that carries an error has no
    findings and an empty breakdown; a result without error comes from a
    directory with at least one Move source.  Counts are never negative. *)
Theorem X1_error_results_are_empty env repo_name repo_path experimental r :
  run_lint_on_repo env (repo_name, repo_path, experimental) = Return r ->
  (RepoResult.error r <> None ->
   RepoResult.total_findings r = 0 /\ RepoResult.lint_breakdown r = [])
  /\ (RepoResult.error r = None ->
      isdir env repo_path = true /\ 0 < RepoResult.move_files r)
  /\ 0 <= RepoResult.total_findings r
  /\ 0 <= RepoResult.move_files r.
Proof.
  unfold run_lint_on_repo.
  destruct (isdir env repo_path); cbn [negb]; [|intros [= <-]; cbn; repeat split; done].
  destruct (count_move_files env repo_path) as [n|e] eqn:Hc; cbn [mbind result_bind];
    [|done].
  pose proof (count_move_files_nonneg env repo_path n Hc) as Hn.
  destruct (Z.eqb_spec n 0) as [H0|H0];
    [intros [= <-]; cbn; repeat split; done|].
  destruct (subprocess_run env _) as [res|e]; cbn [mbind result_bind try_except].
  - destruct (count_lines _ _) as [[total d]|e] eqn:Hcl; cbn.
    + intros [= <-]. cbn. apply count_lines_spec in Hcl as (-> & _ & _).
      repeat split; try done; lia.
    + destruct e; intros [= <-]; cbn; repeat split; try done; lia.
  - destruct e; intros [= <-]; cbn; repeat split; try done; lia.
Qed.

Lemma X1_error_results_are_empty_witness :
  let r := RepoResult.mk "B" 0 0 [] (Some "Directory not found: repos/B") in
  run_lint_on_repo Example.env ("B", "repos/B", true) = Return r
  /\ RepoResult.total_findings r = 0 /\ RepoResult.lint_breakdown r = [].
Proof.
  split; [reflexivity|].
  apply (proj1 (X1_error_results_are_empty Example.env "B" "repos/B" true _ eq_refl)).
  discriminate.
Defined.

(** X2.  When the analyzer runs to completion on a directory with Move
    sources, [total_findings] is the number of lines of its standard output
    followed by its standard error that contain ["warning:"]; the result has
    no error, [move_files] is the count that [count_move_files] returned,
    every count of the breakdown is at least 1 and no lint is listed
    twice. *)
Theorem X2_total_is_number_of_warning_lines env repo_name repo_path experimental n out err :
  isdir env repo_path = true ->
  count_move_files env repo_path = Return n ->
  n <> 0 ->
  subprocess_run env (analyzer_cmd experimental repo_path) = Return (out, err) ->
  exists r,
    run_lint_on_repo env (repo_name, repo_path, experimental) = Return r
    /\ RepoResult.total_findings r = Z.of_nat (length (finding_lines (out +:+ err)))
    /\ RepoResult.error r = None
    /\ RepoResult.move_files r = n
    /\ Forall (fun v => 1 <= v) (dict_values (RepoResult.lint_breakdown r))
    /\ NoDup (dict_keys (RepoResult.lint_breakdown r)).
Proof.
  intros Hd Hc Hn Hrun. unfold run_lint_on_repo. rewrite Hd. cbn [negb].
  rewrite Hc. cbn [mbind result_bind].
  apply Z.eqb_neq in Hn. rewrite Hn, Hrun. cbn [mbind result_bind fst snd].
  match goal with
  | |- context [count_lines (?t0, ?d0) ?ls] =>
      destruct (count_lines_ok ls t0 d0) as (t & d & Hcl & _)
  end.
  rewrite Hcl. cbn. eexists. split; [done|]. cbn.
  apply count_lines_spec in Hcl as (-> & Hpos & Hnd).
  split; [done|]. split; [done|]. split; [done|].
  split; [apply Hpos; constructor | apply Hnd; constructor].
Qed.

Lemma X2_total_is_number_of_warning_lines_witness :
  exists r,
    run_lint_on_repo Example.env ("A", "repos/A", true) = Return r
    /\ RepoResult.total_findings r
       = Z.of_nat (length (finding_lines (Example.analyzer_stdout +:+ EmptyString)))
    /\ RepoResult.error r = None
    /\ RepoResult.move_files r = 3
    /\ Forall (fun v => 1 <= v) (dict_values (RepoResult.lint_breakdown r))
    /\ NoDup (dict_keys (RepoResult.lint_breakdown r)).
Proof.
  apply (X2_total_is_number_of_warning_lines Example.env "A" "repos/A" true 3
           Example.analyzer_stdout EmptyString);
    [reflexivity | reflexivity | discriminate | reflexivity].
Defined.

(** *** The table [by_lint] *)

Lemma run_lint_on_repo_NoDup env args r :
  run_lint_on_repo env args = Return r -> NoDup (dict_keys (RepoResult.lint_breakdown r)).
Proof.
  destruct args as [[repo_name repo_path] experimental]. unfold run_lint_on_repo.
  destruct (isdir env repo_path); cbn [negb]; [|intros [= <-]; constructor].
  destruct (count_move_files env repo_path) as [n|e]; cbn [mbind result_bind]; [|done].
  destruct (n =? 0); [intros [= <-]; constructor|].
  destruct (subprocess_run env _) as [res|e]; cbn [mbind result_bind try_except].
  - destruct (count_lines _ _) as [[total d]|e] eqn:Hcl; cbn.
    + intros [= <-]. cbn. apply count_lines_spec in Hcl as (_ & _ & Hnd).
      apply Hnd. constructor.
    + destruct e; intros [= <-]; constructor.
  - destruct e; intros [= <-]; constructor.
Qed.

Lemma collect_NoDup env done :
  Forall (fun r => NoDup (dict_keys (RepoResult.lint_breakdown r))) (collect env done).
Proof.
  apply collect_Forall; [intros; constructor|]. apply run_lint_on_repo_NoDup.
Qed.

Lemma add_lint_get repo acc item rule :
  dict_get (add_lint repo acc item) rule
  = if decide (item.1 = rule)
    then Some (bump (default (LintEntry.mk 0 [] None None) (dict_get acc item.1)) item.2 repo)
    else dict_get acc rule.
Proof. unfold add_lint. rewrite dict_get_upd. by case_decide. Qed.

Lemma foldl_add_lint_get repo items acc rule :
  NoDup (dict_keys items) ->
  dict_get (foldl (add_lint repo) acc items) rule
  = match dict_get items rule with
    | Some c => Some (bump (default (LintEntry.mk 0 [] None None) (dict_get acc rule)) c repo)
    | None => dict_get acc rule
    end.
Proof.
  revert acc. induction items as [|[k c] items IH]; intros acc Hnd; [done|].
  apply NoDup_cons in Hnd as [Hk Hnd]. cbn [fst] in Hk. cbn [foldl dict_get].
  rewrite IH by done. rewrite add_lint_get. cbn [fst snd].
  destruct (String.eqb_spec k rule) as [->|Hne].
  - apply dict_get_None_keys in Hk. rewrite Hk, decide_True by done. done.
  - rewrite decide_False by done. done.
Qed.

Lemma aggregate_get_acc results acc rule :
  Forall (fun r => NoDup (dict_keys (RepoResult.lint_breakdown r))) results ->
  dict_get (foldl (fun by_lint r =>
              foldl (add_lint (RepoResult.name r)) by_lint (RepoResult.lint_breakdown r))
            acc results) rule
  = foldl (absorb rule) (dict_get acc rule) results.
Proof.
  revert acc. induction results as [|r results IH]; intros acc Hnd; [done|].
  apply Forall_cons in Hnd as [Hr Hnd]. cbn [foldl]. rewrite IH by done.
  f_equal. rewrite foldl_add_lint_get by done. done.
Qed.

Lemma absorb_closed_form rule results o :
  foldl (absorb rule) o results
  = match List.filter (reports rule) results with
    | [] => o
    | rs =>
        let e := default (LintEntry.mk 0 [] None None) o in
        Some (LintEntry.mk (LintEntry.count e + zsum (rule_count rule <$> rs))
                (LintEntry.repos e ++ (RepoResult.name <$> rs))
                (LintEntry.tier e) (LintEntry.category e))
    end.
Proof.
  revert o. induction results as [|r results IH]; intros o; [done|].
  cbn [foldl List.filter]. rewrite IH. clear IH.
  destruct (dict_get (RepoResult.lint_breakdown r) rule) as [c|] eqn:Hc.
  - assert (absorb rule o r
            = Some (bump (default (LintEntry.mk 0 [] None None) o) c (RepoResult.name r)))
      as -> by (unfold absorb; by rewrite Hc).
    assert (reports rule r = true) as ->
      by (unfold reports; rewrite bool_decide_true; [done|]; rewrite Hc; eauto).
    assert (rule_count rule r = c) as Hrc by (unfold rule_count; by rewrite Hc).
    destruct (List.filter (reports rule) results) as [|r' rs]; cbv zeta; csimpl;
      rewrite ?zsum_cons, ?zsum_nil, Hrc; unfold bump; cbn [LintEntry.count LintEntry.repos
        LintEntry.tier LintEntry.category]; f_equal; f_equal; try lia.
    by rewrite <- app_assoc.
  - assert (absorb rule o r = o) as -> by (unfold absorb; by rewrite Hc).
    assert (reports rule r = false) as ->; [|done].
    unfold reports. rewrite bool_decide_false; [done|]. rewrite Hc. by intros [? ?].
Qed.

Lemma aggregate_by_lint_get results rule :
  Forall (fun r => NoDup (dict_keys (RepoResult.lint_breakdown r))) results ->
  dict_get (aggregate_by_lint results) rule
  = match List.filter (reports rule) results with
    | [] => None
    | rs => Some (LintEntry.mk (zsum (rule_count rule <$> rs)) (RepoResult.name <$> rs)
                    None None)
    end.
Proof.
  intros Hnd. unfold aggregate_by_lint. rewrite aggregate_get_acc by done.
  rewrite absorb_closed_form. cbn. by destruct (List.filter _ _).
Qed.

Lemma by_lint_get env version timestamp repos done rule :
  dict_get (BenchmarkResult.by_lint (run_benchmark env version timestamp repos done)) rule
  = match List.filter (reports rule) (collect env done) with
    | [] => None
    | rs =>
        Some (LintEntry.mk (zsum (rule_count rule <$> rs)) (RepoResult.name <$> rs)
                (LintMeta.tier <$> get_lint_metadata env !! rule)
                (LintMeta.category <$> get_lint_metadata env !! rule))
    end.
Proof.
  cbn. rewrite add_tier_info_get, aggregate_by_lint_get by apply collect_NoDup.
  destruct (List.filter _ _); [done|]. cbn. by destruct (get_lint_metadata env !! rule).
Qed.

(** X3.  The entry of a rule in [by_lint] is made of the results that
    report the rule, in the order in which they were collected: its count
    is the sum of their counts for the rule and its list of repositories is
    the list of their names; a rule that no result reports has no entry. *)
Theorem X3_by_lint_entry env version timestamp repos done rule :
  let snap := run_benchmark env version timestamp repos done in
  let reporting := List.filter (reports rule) (collect env done) in
  dict_get (BenchmarkResult.by_lint snap) rule
  = match reporting with
    | [] => None
    | _ =>
        Some (LintEntry.mk (zsum (rule_count rule <$> reporting))
                (RepoResult.name <$> reporting)
                (LintMeta.tier <$> get_lint_metadata env !! rule)
                (LintMeta.category <$> get_lint_metadata env !! rule))
    end.
Proof. cbv zeta. rewrite by_lint_get. by destruct (List.filter _ _). Qed.

(** *** Sums and permutations *)

Lemma zsum_Permutation l l' : l ≡ₚ l' -> zsum l = zsum l'.
Proof.
  induction 1; rewrite ?zsum_cons; lia.
Qed.

Lemma filter_Permutation {A} (f : A -> bool) l l' :
  l ≡ₚ l' -> List.filter f l ≡ₚ List.filter f l'.
Proof.
  induction 1 as [|x l l' _ IH|x y l|l1 l2 l3 _ IH1 _ IH2]; cbn.
  - done.
  - destruct (f x); by rewrite IH.
  - destruct (f x), (f y); try done. apply perm_swap.
  - by rewrite IH1.
Qed.

Lemma collect_Permutation env done done' :
  done ≡ₚ done' -> collect env done ≡ₚ collect env done'.
Proof. intros H. unfold collect. by rewrite H. Qed.

(** *** The table [repos] *)

Lemma repos_dict_get_acc results acc name :
  dict_get (foldl (fun d r =>
              dict_set d (RepoResult.name r)
                (RepoSummary.mk (RepoResult.total_findings r) (RepoResult.move_files r)
                   (RepoResult.error r))) acc results) name
  = match last (List.filter (fun r => String.eqb (RepoResult.name r) name) results) with
    | Some r => Some (summary_of r)
    | None => dict_get acc name
    end.
Proof.
  revert acc. induction results as [|r results IH]; intros acc; [done|].
  cbn [foldl List.filter]. rewrite IH, dict_get_set.
  destruct (String.eqb_spec (RepoResult.name r) name) as [Heq|Hne].
  - rewrite decide_True by done.
    destruct (List.filter _ results) as [|r' rs] eqn:E; [reflexivity|].
    change (last (r :: r' :: rs)) with (last (r' :: rs)).
    destruct (last (r' :: rs)) eqn:El; [done|]. by apply last_None in El.
  - by rewrite decide_False by done.
Qed.

(** X4.  The table [repos] of the snapshot holds, under a repository
    name, the summary of the last collected result with that name, and
    nothing under a name that no result has: of a repository that the
    manifest lists twice only the result collected last is kept. *)
Theorem X4_repos_last_result_wins env version timestamp repos done name :
  let snap := run_benchmark env version timestamp repos done in
  dict_get (BenchmarkResult.repos snap) name
  = summary_of <$>
      last (List.filter (fun r => String.eqb (RepoResult.name r) name) (collect env done)).
Proof.
  cbn. unfold repos_dict. rewrite repos_dict_get_acc. by destruct (last _).
Qed.

(** *** Repositories with findings *)

Lemma run_lint_on_repo_nonneg env args r :
  run_lint_on_repo env args = Return r -> 0 <= RepoResult.total_findings r.
Proof.
  destruct args as [[repo_name repo_path] experimental]. unfold run_lint_on_repo.
  destruct (isdir env repo_path); cbn [negb]; [|intros [= <-]; cbn; lia].
  destruct (count_move_files env repo_path) as [n|e]; cbn [mbind result_bind]; [|done].
  destruct (n =? 0); [intros [= <-]; cbn; lia|].
  destruct (subprocess_run env _) as [res|e]; cbn [mbind result_bind try_except].
  - destruct (count_lines _ _) as [[total d]|e] eqn:Hcl; cbn.
    + intros [= <-]. cbn. apply count_lines_spec in Hcl as (-> & _ & _). lia.
    + destruct e; intros [= <-]; cbn; lia.
  - destruct e; intros [= <-]; cbn; lia.
Qed.

Lemma collect_nonneg env done :
  Forall (fun r => 0 <= RepoResult.total_findings r) (collect env done).
Proof.
  apply collect_Forall; [intros; cbn; lia|]. apply run_lint_on_repo_nonneg.
Qed.

(** A future leaves at most one result with findings. *)
Lemma with_findings_futures env done :
  Z.of_nat (length (List.filter (fun r => 0 <? RepoResult.total_findings r)
                      (collect env done)))
  <= Z.of_nat (length done).
Proof.
  unfold collect. induction done as [|c done IH]; [done|].
  rewrite bind_cons, List.filter_app, length_app. cbn [length].
  assert (Z.of_nat (length (List.filter (fun r => 0 <? RepoResult.total_findings r)
                              (collect_one env c))) <= 1) as H; [|lia].
  destruct (collect_one_cases env c) as [[e ->]|(r & _ & _ & [->|(e & _ & ->)])];
    cbn; try destruct (0 <? RepoResult.total_findings r); cbn; lia.
Qed.

Lemma with_findings_bounds (results : list RepoResult.t) :
  Forall (fun r => 0 <= RepoResult.total_findings r) results ->
  let n := Z.of_nat (length (List.filter (fun r => 0 <? RepoResult.total_findings r) results)) in
  0 <= n <= Z.of_nat (length results)
  /\ n <= zsum (RepoResult.total_findings <$> results)
  /\ (n = 0 <-> zsum (RepoResult.total_findings <$> results) = 0).
Proof.
  cbv zeta. induction 1 as [|r results Hr _ IH]; csimpl; rewrite ?zsum_nil, ?zsum_cons.
  - cbn. lia.
  - destruct (Z.ltb_spec 0 (RepoResult.total_findings r)); cbn [length]; lia.
Qed.

(** X5.  The number of repositories with findings lies between 0 and the
    number of futures, never exceeds [total_findings], and is 0 exactly
    when [total_findings] is 0. *)
Theorem X5_repos_with_findings_bounds env version timestamp repos done :
  let snap := run_benchmark env version timestamp repos done in
  0 <= BenchmarkResult.repos_with_findings snap <= Z.of_nat (length done)
  /\ BenchmarkResult.repos_with_findings snap <= BenchmarkResult.total_findings snap
  /\ (BenchmarkResult.repos_with_findings snap = 0
      <-> BenchmarkResult.total_findings snap = 0).
Proof.
  cbn. pose proof (with_findings_bounds _ (collect_nonneg env done)) as H.
  cbv zeta in H. pose proof (with_findings_futures env done). lia.
Qed.

(** *** The rollups *)

Lemma rollup_sum key by_lint : zsum (dict_values (rollup key by_lint)) = count_sum by_lint.
Proof.
  unfold rollup, count_sum.
  assert (forall acc, zsum (dict_values (foldl (fun acc kv =>
             dict_upd 0 acc (default "unknown" (key kv.2)) (Z.add (LintEntry.count kv.2)))
             acc by_lint))
          = zsum (dict_values acc) + zsum (LintEntry.count <$> dict_values by_lint)) as H.
  { induction by_lint as [|[k e] d IH]; intros acc; csimpl; rewrite ?zsum_nil; [lia|].
    rewrite IH, zsum_dict_upd_add, zsum_cons. cbn. lia. }
  rewrite H. csimpl. rewrite zsum_nil. lia.
Qed.

(** X6.  The per-tier totals of a snapshot add up to [total_findings], and
    so do the per-category totals. *)
Theorem X6_rollups_add_up env version timestamp repos done :
  let snap := run_benchmark env version timestamp repos done in
  zsum (dict_values (BenchmarkResult.by_tier snap)) = BenchmarkResult.total_findings snap
  /\ zsum (dict_values (BenchmarkResult.by_category snap))
     = BenchmarkResult.total_findings snap.
Proof.
  cbv zeta. unfold run_benchmark, aggregate.
  cbn [BenchmarkResult.by_tier BenchmarkResult.by_category BenchmarkResult.total_findings].
  rewrite !rollup_sum, add_tier_info_count.
  rewrite aggregate_by_lint_sum by apply collect_invariant. done.
Qed.

(** *** The order of completion *)

Lemma dict_keys_is_Some {V} (d : dict V) k : k ∈ dict_keys d <-> is_Some (dict_get d k).
Proof.
  destruct (dict_get d k) as [v|] eqn:E.
  - split; [eauto|]. intros _. by eapply dict_get_Some_keys.
  - apply dict_get_None_keys in E. split; [done|]. by intros [? ?].
Qed.

Lemma aggregate_by_lint_NoDup results : NoDup (dict_keys (aggregate_by_lint results)).
Proof.
  unfold aggregate_by_lint.
  assert (NoDup (dict_keys (@nil (string * LintEntry.t)))) as H by constructor.
  revert H. generalize (@nil (string * LintEntry.t)).
  induction results as [|r results IH]; intros acc Hacc; [done|].
  cbn [foldl]. apply IH. clear IH. revert acc Hacc.
  induction (RepoResult.lint_breakdown r) as [|item items IH]; intros acc Hacc; [done|].
  cbn [foldl]. apply IH. unfold add_lint, dict_upd. by apply dict_set_NoDup.
Qed.

Lemma add_tier_info_keys md by_lint : dict_keys (add_tier_info md by_lint) = dict_keys by_lint.
Proof.
  unfold add_tier_info, dict_keys. rewrite <- list_fmap_compose.
  apply list_fmap_ext. intros _ [k e] _. cbn. by destruct (md !! k).
Qed.

Lemma column_sum_keys key t (d : dict LintEntry.t) :
  NoDup (dict_keys d) ->
  column_sum key t d
  = zsum ((fun k => from_option
                      (fun e => if String.eqb (effective key e) t
                                then LintEntry.count e else 0) 0 (dict_get d k))
            <$> dict_keys d).
Proof.
  unfold column_sum, effective, dict_values, dict_keys.
  induction d as [|[k0 e0] d IH]; intros Hnd; [done|].
  apply NoDup_cons in Hnd as [Hk0 Hnd]. cbn [fst] in Hk0.
  csimpl. rewrite String.eqb_refl, zsum_cons. cbn [from_option].
  assert ((fun k => from_option
                      (fun e => if String.eqb (default "unknown" (key e)) t
                                then LintEntry.count e else 0) 0
                      (if String.eqb k0 k then Some e0 else dict_get d k)) <$> d.*1
          = (fun k => from_option
                      (fun e => if String.eqb (default "unknown" (key e)) t
                                then LintEntry.count e else 0) 0 (dict_get d k)) <$> d.*1)
    as ->.
  { apply list_fmap_ext. intros i k Hk. apply list_elem_of_lookup_2 in Hk.
    destruct (String.eqb_spec k0 k) as [Heq|]; [|done]. subst k. contradiction. }
  rewrite <- IH by done.
  destruct (String.eqb (default "unknown" (key e0)) t); csimpl; rewrite ?zsum_cons; lia.
Qed.

Lemma column_sum_same key t (d d' : dict LintEntry.t) :
  (forall e e', same_entry e e' -> key e = key e') ->
  NoDup (dict_keys d) -> NoDup (dict_keys d') ->
  (forall k, option_Forall2 same_entry (dict_get d k) (dict_get d' k)) ->
  column_sum key t d = column_sum key t d'.
Proof.
  intros Hkey Hnd Hnd' Hsame. rewrite !column_sum_keys by done.
  assert (dict_keys d ≡ₚ dict_keys d') as Hp.
  { apply NoDup_Permutation; [done|done|]. intros k. rewrite !dict_keys_is_Some.
    destruct (Hsame k); split; intros [? ?]; eauto; done. }
  etrans; [|apply zsum_Permutation, fmap_Permutation, Hp].
  f_equal. apply list_fmap_ext. intros _ k _.
  destruct (Hsame k) as [e e' He|]; [|done]. cbn. unfold effective.
  rewrite (Hkey e e' He). destruct He as (-> & _). done.
Qed.

Lemma by_lint_same env version timestamp repos done done' rule :
  done ≡ₚ done' ->
  option_Forall2 same_entry
    (dict_get (BenchmarkResult.by_lint (run_benchmark env version timestamp repos done)) rule)
    (dict_get (BenchmarkResult.by_lint (run_benchmark env version timestamp repos done')) rule).
Proof.
  intros Hp. rewrite !by_lint_get.
  pose proof (filter_Permutation (reports rule) _ _ (collect_Permutation env _ _ Hp)) as Hf.
  destruct (List.filter (reports rule) (collect env done)) as [|r rs] eqn:E.
  - apply Permutation_nil_l in Hf. rewrite <- Hf. constructor.
  - destruct (List.filter (reports rule) (collect env done')) as [|r' rs'] eqn:E'.
    + symmetry in Hf. by apply Permutation_nil_cons in Hf.
    + constructor. unfold same_entry. cbn [LintEntry.count LintEntry.repos LintEntry.tier
        LintEntry.category]. split; [|split; [|done]].
      * by apply zsum_Permutation, fmap_Permutation.
      * by apply fmap_Permutation.
Qed.

(** X7.  The order in which the futures complete does not matter to the
    numbers of the snapshot: two runs that collect the same results in a
    different order agree on the totals, on every entry of [by_lint] up to
    the order of its repositories, and on every per-tier and per-category
    total. *)
Theorem X7_completion_order_is_irrelevant env version timestamp repos done done' :
  done ≡ₚ done' ->
  let snap := run_benchmark env version timestamp repos done in
  let snap' := run_benchmark env version timestamp repos done' in
  BenchmarkResult.total_findings snap = BenchmarkResult.total_findings snap'
  /\ BenchmarkResult.repos_with_findings snap = BenchmarkResult.repos_with_findings snap'
  /\ (forall rule,
        option_Forall2 same_entry
          (dict_get (BenchmarkResult.by_lint snap) rule)
          (dict_get (BenchmarkResult.by_lint snap') rule))
  /\ (forall t,
        default 0 (dict_get (BenchmarkResult.by_tier snap) t)
        = default 0 (dict_get (BenchmarkResult.by_tier snap') t))
  /\ (forall c,
        default 0 (dict_get (BenchmarkResult.by_category snap) c)
        = default 0 (dict_get (BenchmarkResult.by_category snap') c)).
Proof.
  intros Hp snap snap'.
  pose proof (collect_Permutation env _ _ Hp) as Hc.
  assert (forall rule, option_Forall2 same_entry
            (dict_get (BenchmarkResult.by_lint snap) rule)
            (dict_get (BenchmarkResult.by_lint snap') rule)) as Hsame
    by (intros rule; by apply by_lint_same).
  assert (NoDup (dict_keys (BenchmarkResult.by_lint snap))) as Hnd.
  { subst snap. unfold run_benchmark, aggregate. cbn [BenchmarkResult.by_lint].
    rewrite add_tier_info_keys. apply aggregate_by_lint_NoDup. }
  assert (NoDup (dict_keys (BenchmarkResult.by_lint snap'))) as Hnd'.
  { subst snap'. unfold run_benchmark, aggregate. cbn [BenchmarkResult.by_lint].
    rewrite add_tier_info_keys. apply aggregate_by_lint_NoDup. }
  split; [|split; [|split; [done|split]]].
  - cbn. by apply zsum_Permutation, fmap_Permutation.
  - cbn. f_equal. apply Permutation_length. by apply filter_Permutation.
  - intros t. subst snap snap'. unfold run_benchmark, aggregate.
    cbn [BenchmarkResult.by_tier]. rewrite !rollup_get.
    apply column_sum_same; [|done|done|done]. by intros e e' (_ & _ & ? & _).
  - intros c. subst snap snap'. unfold run_benchmark, aggregate.
    cbn [BenchmarkResult.by_category]. rewrite !rollup_get.
    apply column_sum_same; [|done|done|done]. by intros e e' (_ & _ & _ & ?).
Qed.

Lemma X7_completion_order_is_irrelevant_witness :
  BenchmarkResult.total_findings
    (run_benchmark Example.env "0.3.0" "2025-01-01T00:00:00Z" ["A"; "B"] Example.done)
  = BenchmarkResult.total_findings
      (run_benchmark Example.env "0.3.0" "2025-01-01T00:00:00Z" ["A"; "B"]
         (reverse Example.done)).
Proof.
  apply (X7_completion_order_is_irrelevant Example.env "0.3.0" "2025-01-01T00:00:00Z"
           ["A"; "B"] Example.done (reverse Example.done)).
  symmetry. apply reverse_Permutation.
Defined.

(** *** The rule metadata *)

Lemma metadata_of_lines_acc lines (acc : gmap string LintMeta.t) name :
  foldl (fun metadata line =>
           match Str.split tab line with
           | name :: category :: tier :: _ =>
               <[name := LintMeta.mk category tier]> metadata
           | _ => metadata
           end) acc lines !! name
  = match last (omap (rule_line name) lines) with
    | Some m => Some m
    | None => acc !! name
    end.
Proof.
  revert acc. induction lines as [|line lines IH]; intros acc; [done|].
  cbn [foldl]. rewrite IH.
  change (omap (rule_line name) (line :: lines))
    with (match rule_line name line with
          | Some m => m :: omap (rule_line name) lines
          | None => omap (rule_line name) lines
          end).
  unfold rule_line at 2.
  destruct (Str.split tab line) as [|n [|category [|tier rest]]];
    try (by destruct (last (omap (rule_line name) lines))).
  destruct (String.eqb_spec n name) as [->|Hne].
  - destruct (omap (rule_line name) lines) as [|m ms] eqn:E.
    + cbn. by rewrite lookup_insert_eq.
    + change (last (LintMeta.mk category tier :: m :: ms)) with (last (m :: ms)).
      destruct (last (m :: ms)) eqn:El; [done|]. by apply last_None in El.
  - destruct (last (omap (rule_line name) lines)); [done|].
    by rewrite lookup_insert_ne.
Qed.

(** X8.  The rule metadata knows a rule exactly when [list-rules] ran and
    printed a line with at least three tab-separated fields whose first
    field is the rule; category and tier are the second and third field of
    the last such line.  When [list-rules] cannot be run the metadata is
    empty. *)
Theorem X8_metadata_is_last_listed_line env name :
  get_lint_metadata env !! name
  = match subprocess_run env ["./target/release/move-clippy"; "list-rules"] with
    | Return res => last (omap (rule_line name) (Str.split newline (Str.strip res.1)))
    | Raise _ => None
    end.
Proof.
  unfold get_lint_metadata. destruct (subprocess_run env _) as [res|e]; [|done].
  unfold metadata_of_lines. rewrite metadata_of_lines_acc.
  by destruct (last _).
Qed.

(** ** More on the comparison *)

(** *** A comparison read backwards *)

Lemma flip_mk_row k a b : flip_row (mk_row k a b) = mk_row k b a.
Proof. unfold flip_row, mk_row, row_name, row_new, row_old, row_delta. cbn. f_equal. lia. Qed.

Lemma insert_by_fmap {A B} (f : A -> B) (le : B -> B -> bool) x l :
  insert_by le (f x) (f <$> l) = f <$> insert_by (fun a b => le (f a) (f b)) x l.
Proof.
  induction l as [|y l IH]; [done|]. csimpl.
  destruct (le (f x) (f y)); [done|]. csimpl. by rewrite IH.
Qed.

Lemma sort_by_fmap {A B} (f : A -> B) (le : B -> B -> bool) l :
  sort_by le (f <$> l) = f <$> sort_by (fun a b => le (f a) (f b)) l.
Proof.
  induction l as [|x l IH]; [done|]. csimpl. by rewrite IH, insert_by_fmap.
Qed.

Lemma sort_by_ext {A} (le le' : A -> A -> bool) l :
  (forall a b, le a b = le' a b) -> sort_by le l = sort_by le' l.
Proof.
  intros H. induction l as [|x l IH]; [done|]. cbn. rewrite IH.
  generalize (sort_by le' l). intros s. induction s as [|y s IHs]; [done|].
  cbn. rewrite H. destruct (le' x y); [done|]. by rewrite IHs.
Qed.

Lemma sort_by_magnitude_flip (l : list row) :
  sort_by_key (fun x => - Z.abs (row_delta x)) (flip_row <$> l)
  = flip_row <$> sort_by_key (fun x => - Z.abs (row_delta x)) l.
Proof.
  unfold sort_by_key. rewrite sort_by_fmap. f_equal.
  apply sort_by_ext. intros a b.
  unfold flip_row, row_delta. cbn. by rewrite !Z.abs_opp.
Qed.

Lemma changed_rows_flip old_count new_count keys :
  changed_rows new_count old_count keys = flip_row <$> changed_rows old_count new_count keys.
Proof.
  unfold changed_rows. induction keys as [|k keys IH]; [done|]. csimpl.
  rewrite IH. unfold row_delta at 1 3, mk_row at 1 3. cbn [snd].
  destruct (Z.eqb_spec (old_count k - new_count k) 0),
           (Z.eqb_spec (new_count k - old_count k) 0); try lia; cbn [negb]; [done|].
  csimpl. by rewrite flip_mk_row.
Qed.

Lemma changed_rows_nonzero old_count new_count keys :
  Forall (fun x => row_delta x <> 0) (changed_rows old_count new_count keys).
Proof.
  unfold changed_rows. apply Forall_forall. intros x Hx.
  apply list_elem_of_In, filter_In in Hx as [_ Hx].
  by apply negb_true_iff, Z.eqb_neq in Hx.
Qed.

Lemma with_indicator_flip (l : list row) :
  Forall (fun x => row_delta x <> 0) l ->
  with_indicator <$> (flip_row <$> l) = flip_shown <$> (with_indicator <$> l).
Proof.
  induction 1 as [|x l Hx _ IH]; [done|]. csimpl. rewrite IH. f_equal.
  unfold with_indicator, flip_shown, flip_row, row_delta in *. cbn in *.
  destruct (Z.ltb_spec 0 (- x.2)), (Z.ltb_spec 0 x.2); try lia; done.
Qed.

Lemma shown_flip n (l : list row) :
  Forall (fun x => row_delta x <> 0) l ->
  with_indicator <$> take n (sort_by_key (fun x => - Z.abs (row_delta x)) (flip_row <$> l))
  = flip_shown <$>
      (with_indicator <$> take n (sort_by_key (fun x => - Z.abs (row_delta x)) l)).
Proof.
  intros Hl. rewrite sort_by_magnitude_flip, <- fmap_take.
  apply with_indicator_flip. apply Forall_take.
  by rewrite sort_by_key_perm.
Qed.

(** *** What is listed and what is left out *)

Lemma sorted_take_drop {A} (R : A -> A -> Prop) n (l : list A) x y :
  StronglySorted R l -> x ∈ take n l -> y ∈ drop n l -> R x y.
Proof.
  intros Hs Hx Hy. rewrite <- (take_drop n l) in Hs.
  by eapply StronglySorted_app_1_elem_of.
Qed.

Lemma shown_rows n (l : list row) p :
  p ∈ with_indicator <$> take n l ->
  p.2 ∈ take n l /\ (p.1 = Red <-> 0 < row_delta p.2).
Proof.
  intros (x & -> & Hx)%list_elem_of_fmap. split; [done|].
  unfold with_indicator. cbn. destruct (Z.ltb_spec 0 (row_delta x)); split; try done; lia.
Qed.

(** X10.  The report lists at most 20 lint changes and at most 10
    repository changes; together with the count of further lints the
    listed lint changes account for every changed lint; a change that is
    left out is never larger in absolute value than a listed one; a listed
    change is marked red exactly when its delta is positive. *)
Theorem X10_listed_changes_are_the_largest set_iter old new :
  let report := compare_baselines set_iter old new in
  let changes := lint_changes_sorted set_iter old new in
  let repo_changes := repo_changes_sorted set_iter old new in
  length (Comparison.lint_changes report) = (length changes `min` 20)%nat
  /\ Z.of_nat (length (Comparison.lint_changes report))
     + default 0 (Comparison.more_lints report) = Z.of_nat (length changes)
  /\ length (Comparison.repo_changes report) = (length repo_changes `min` 10)%nat
  /\ (forall p x, p ∈ Comparison.lint_changes report -> x ∈ drop 20 changes ->
        Z.abs (row_delta x) <= Z.abs (row_delta p.2))
  /\ (forall p x, p ∈ Comparison.repo_changes report -> x ∈ drop 10 repo_changes ->
        Z.abs (row_delta x) <= Z.abs (row_delta p.2))
  /\ (forall p, p ∈ Comparison.lint_changes report \/ p ∈ Comparison.repo_changes report ->
        row_delta p.2 <> 0 /\ (p.1 = Red <-> 0 < row_delta p.2)).
Proof.
  cbv zeta. unfold compare_baselines.
  cbn [Comparison.lint_changes Comparison.more_lints Comparison.repo_changes].
  rewrite !length_fmap, !length_take.
  split; [apply Nat.min_comm|]. split; [|split; [apply Nat.min_comm|split; [|split]]].
  - destruct (Z.ltb_spec 20 (Z.of_nat (length (lint_changes_sorted set_iter old new)))).
    + rewrite Nat.min_l by lia. cbn. lia.
    + rewrite Nat.min_r by lia. cbn. lia.
  - intros p x Hp Hx. apply shown_rows in Hp as [Hp _].
    apply (sorted_take_drop _ 20 _ _ _ (sorted_by_magnitude _) Hp Hx).
  - intros p x Hp Hx. apply shown_rows in Hp as [Hp _].
    apply (sorted_take_drop _ 10 _ _ _ (sorted_by_magnitude _) Hp Hx).
  - intros p [Hp|Hp]; apply shown_rows in Hp as [Hp Hred]; (split; [|done]);
      apply subseteq_take in Hp;
      unfold lint_changes_sorted, repo_changes_sorted in Hp;
      rewrite sort_by_key_perm in Hp;
      match type of Hp with
      | _ ∈ changed_rows ?o ?n ?ks =>
          pose proof (changed_rows_nonzero o n ks) as Hnz
      end;
      rewrite Forall_forall in Hnz; by apply Hnz in Hp.
Qed.

(** *** Sorted names *)

Lemma ascii_compare_refl c : Ascii.compare c c = Eq.
Proof. unfold Ascii.compare. apply N.compare_refl. Qed.

Lemma ascii_compare_lt_trans a b c :
  Ascii.compare a b = Lt -> Ascii.compare b c = Lt -> Ascii.compare a c = Lt.
Proof.
  unfold Ascii.compare. rewrite !N.compare_lt_iff. apply N.lt_trans.
Qed.

Lemma string_leb_trans a b c :
  String.leb a b = true -> String.leb b c = true -> String.leb a c = true.
Proof.
  unfold String.leb. revert b c.
  induction a as [|x a IH]; intros [|y b] [|z c]; cbn; try done.
  destruct (Ascii.compare x y) eqn:E1, (Ascii.compare y z) eqn:E2; try done.
  - apply Ascii.compare_eq_iff in E1, E2. subst. rewrite ascii_compare_refl. apply IH.
  - apply Ascii.compare_eq_iff in E1. subst. by rewrite E2.
  - apply Ascii.compare_eq_iff in E2. subst. by rewrite E1.
  - by rewrite (ascii_compare_lt_trans x y z).
Qed.

Section SortTotal.
Context {A : Type} (le : A -> A -> bool).
Hypothesis le_total : forall a b, le a b = true \/ le b a = true.
Hypothesis le_trans : forall a b c, le a b = true -> le b c = true -> le a c = true.

Lemma insert_by_perm x l : insert_by le x l ≡ₚ x :: l.
Proof.
  induction l as [|y l IH]; cbn; [done|].
  destruct (le x y); [done|]. rewrite IH. apply perm_swap.
Qed.

Lemma sort_by_perm l : sort_by le l ≡ₚ l.
Proof.
  induction l as [|x l IH]; cbn; [done|]. by rewrite insert_by_perm, IH.
Qed.

Lemma insert_by_sorted x l :
  StronglySorted (fun a b => le a b = true) l ->
  StronglySorted (fun a b => le a b = true) (insert_by le x l).
Proof.
  induction l as [|y l IH]; cbn; intros Hs.
  - repeat constructor.
  - apply StronglySorted_cons in Hs as [Hy Hs].
    destruct (le x y) eqn:Hxy.
    + apply StronglySorted_cons. split; [|by apply StronglySorted_cons].
      constructor; [done|]. eapply Forall_impl; [exact Hy|]. cbn. intros; by eapply le_trans.
    + apply StronglySorted_cons. split; [|by apply IH].
      rewrite insert_by_perm. constructor; [|done].
      destruct (le_total x y); congruence.
Qed.

Lemma sort_by_sorted l : StronglySorted (fun a b => le a b = true) (sort_by le l).
Proof.
  induction l as [|x l IH]; cbn; [constructor|]. by apply insert_by_sorted.
Qed.

End SortTotal.

(** What [sorted] makes of a set: its elements, once each, in ascending
    order. *)
Lemma sorted_set set_iter (X : gset string) :
  (forall X, set_iter X ≡ₚ elements X) ->
  let names := sorted_strings (set_iter X) in
  StronglySorted (fun a b => String.leb a b = true) names
  /\ NoDup names
  /\ (forall x, x ∈ names <-> x ∈ X)
  /\ (names = [] <-> X = ∅).
Proof.
  intros Hiter names.
  assert (names ≡ₚ elements X) as Hp.
  { subst names. unfold sorted_strings. by rewrite sort_by_perm, Hiter. }
  split; [|split; [|split]].
  - apply sort_by_sorted; [apply String.leb_total | apply string_leb_trans].
  - rewrite Hp. apply NoDup_elements.
  - intros x. by rewrite Hp, elem_of_elements.
  - split.
    + intros E. rewrite E in Hp. apply Permutation_nil_l in Hp.
      symmetry in Hp. by apply elements_empty_inv in Hp as ->%leibniz_equiv.
    + intros ->. rewrite elements_empty in Hp. by apply Permutation_nil_r in Hp.
Qed.

(** X11.  The section of new lints is printed exactly when the new
    baseline has a lint that the old one lacks.  It lists these lints, each
    once and in ascending order of their names, with the tier and the count
    that the new baseline records (["unknown"] and 0 when a key is
    missing).  The section of removed lints does the same for the lints
    that only the old baseline has. *)
Theorem X11_new_and_removed_lints set_iter old new :
  (forall X, set_iter X ≡ₚ elements X) ->
  let old_lints := default [] (Baseline.by_lint old) in
  let new_lints := default [] (Baseline.by_lint new) in
  let report := compare_baselines set_iter old new in
  exists added removed,
    StronglySorted (fun a b => String.leb a b = true) added
    /\ StronglySorted (fun a b => String.leb a b = true) removed
    /\ NoDup added /\ NoDup removed
    /\ (forall lint, lint ∈ added <-> lint ∈ dict_keys new_lints /\ lint ∉ dict_keys old_lints)
    /\ (forall lint, lint ∈ removed <-> lint ∈ dict_keys old_lints /\ lint ∉ dict_keys new_lints)
    /\ Comparison.new_lints report
       = match added with
         | [] => None
         | _ => Some ((fun lint =>
                         (lint, default "unknown" (dict_get new_lints lint ≫= LintJ.tier),
                          default 0 (dict_get new_lints lint ≫= LintJ.count))) <$> added)
         end
    /\ Comparison.removed_lints report
       = match removed with
         | [] => None
         | _ => Some ((fun lint =>
                         (lint, default 0 (dict_get old_lints lint ≫= LintJ.count)))
                        <$> removed)
         end.
Proof.
  intros Hiter old_lints new_lints report.
  destruct (sorted_set set_iter (keys_set new_lints ∖ keys_set old_lints) Hiter)
    as (Hs1 & Hn1 & Hm1 & He1).
  destruct (sorted_set set_iter (keys_set old_lints ∖ keys_set new_lints) Hiter)
    as (Hs2 & Hn2 & Hm2 & He2).
  eexists _, _. split; [exact Hs1|]. split; [exact Hs2|].
  split; [exact Hn1|]. split; [exact Hn2|].
  split; [|split; [|split]].
  - intros lint. rewrite Hm1. unfold keys_set. set_solver.
  - intros lint. rewrite Hm2. unfold keys_set. set_solver.
  - subst report. unfold compare_baselines. cbn [Comparison.new_lints].
    fold old_lints new_lints. case_decide as E.
    + apply He1 in E. by rewrite E.
    + destruct (sorted_strings (set_iter (keys_set new_lints ∖ keys_set old_lints)))
        eqn:E'; [|done].
      exfalso. apply E. by apply He1.
  - subst report. unfold compare_baselines. cbn [Comparison.removed_lints].
    fold old_lints new_lints. case_decide as E.
    + apply He2 in E. by rewrite E.
    + destruct (sorted_strings (set_iter (keys_set old_lints ∖ keys_set new_lints)))
        eqn:E'; [|done].
      exfalso. apply E. by apply He2.
Qed.

Lemma X11_new_and_removed_lints_witness :
  Comparison.new_lints
    (compare_baselines ExampleBaselines.forwards ExampleBaselines.old ExampleBaselines.new)
  = Some [("alpha", "unknown", 1); ("beta", "unknown", 1)].
Proof.
  destruct (X11_new_and_removed_lints ExampleBaselines.forwards ExampleBaselines.old
              ExampleBaselines.new) as (added & removed & _ & _ & _ & _ & _ & _ & _ & _).
  - intros X. reflexivity.
  - vm_compute. reflexivity.
Defined.

(** X12.  The tier table has one row for every tier that either baseline
    counts, in ascending order of the tier names; a tier that a baseline
    does not count enters with 0, and the delta is new minus old. *)
Theorem X12_tier_rows set_iter old new :
  (forall X, set_iter X ≡ₚ elements X) ->
  let old_tiers := default [] (Baseline.by_tier old) in
  let new_tiers := default [] (Baseline.by_tier new) in
  let rows := Comparison.tiers (compare_baselines set_iter old new) in
  StronglySorted (fun a b => String.leb a b = true) (row_name <$> rows)
  /\ NoDup (row_name <$> rows)
  /\ (forall tier, tier ∈ row_name <$> rows
                   <-> tier ∈ dict_keys old_tiers \/ tier ∈ dict_keys new_tiers)
  /\ Forall (fun x =>
               row_old x = default 0 (dict_get old_tiers (row_name x))
               /\ row_new x = default 0 (dict_get new_tiers (row_name x))
               /\ row_delta x = row_new x - row_old x) rows.
Proof.
  intros Hiter old_tiers new_tiers rows.
  destruct (sorted_set set_iter (keys_set old_tiers ∪ keys_set new_tiers) Hiter)
    as (Hs & Hn & Hm & _).
  assert (row_name <$> rows
          = sorted_strings (set_iter (keys_set old_tiers ∪ keys_set new_tiers))) as Hnames.
  { subst rows. unfold compare_baselines. cbn [Comparison.tiers].
    rewrite <- list_fmap_compose. apply list_fmap_id. }
  rewrite Hnames. split; [done|]. split; [done|]. split.
  - intros tier. rewrite Hm. unfold keys_set. set_solver.
  - subst rows. unfold compare_baselines. cbn [Comparison.tiers].
    apply Forall_fmap, Forall_forall. intros tier _. done.
Qed.

Lemma X12_tier_rows_witness :
  row_name <$> Comparison.tiers
                 (compare_baselines ExampleBaselines.forwards ExampleBaselines.old
                    ExampleBaselines.new)
  = ["unknown"].
Proof.
  destruct (X12_tier_rows ExampleBaselines.forwards ExampleBaselines.old
              ExampleBaselines.new) as (_ & _ & _ & _).
  - intros X. reflexivity.
  - vm_compute. reflexivity.
Defined.

(** *** A comparison read backwards: the order of the rows *)

(** A list has one sorted arrangement when the order is antisymmetric on
    its elements. *)
Lemma sorted_perm_eq {A} (R : A -> A -> Prop) (l l' : list A) :
  (forall a b, a ∈ l -> b ∈ l -> R a b -> R b a -> a = b) ->
  l ≡ₚ l' -> StronglySorted R l -> StronglySorted R l' -> l = l'.
Proof.
  revert l'. induction l as [|x l IH]; intros l' Hanti Hp Hs Hs'.
  - by apply Permutation_nil_l in Hp.
  - destruct l' as [|y l']; [by apply Permutation_nil_r in Hp|].
    apply StronglySorted_inv in Hs as [Hs Hx]. apply StronglySorted_inv in Hs' as [Hs' Hy].
    rewrite Forall_forall in Hx, Hy.
    assert (x = y) as <-.
    { assert (x ∈ y :: l') as Hin by (rewrite <- Hp; left).
      assert (y ∈ x :: l) as Hin' by (rewrite Hp; left).
      apply elem_of_cons in Hin as [?|Hin]; [done|].
      apply elem_of_cons in Hin' as [?|Hin']; [done|].
      apply Hanti; [left|by right|by apply Hx|by apply Hy]. }
    f_equal. apply IH; [|by apply Permutation_cons_inv in Hp|done|done].
    intros a b Ha Hb. apply Hanti; by right.
Qed.

Lemma sorted_strings_perm (l l' : list string) :
  l ≡ₚ l' -> sorted_strings l = sorted_strings l'.
Proof.
  intros Hp. unfold sorted_strings.
  apply (sorted_perm_eq (fun a b => String.leb a b = true)).
  - intros a b _ _. apply String.leb_antisym.
  - by rewrite !sort_by_perm.
  - apply sort_by_sorted; [apply String.leb_total|apply string_leb_trans].
  - apply sort_by_sorted; [apply String.leb_total|apply string_leb_trans].
Qed.

(** The keys of a sorted list do not depend on the order in which the
    list was given; neither does the list when no two keys are equal. *)
Lemma sorted_keys_perm {A} (key : A -> Z) (l l' : list A) :
  l ≡ₚ l' -> key <$> sort_by_key key l = key <$> sort_by_key key l'.
Proof.
  intros Hp. apply (sorted_perm_eq Z.le).
  - intros a b _ _ ? ?. lia.
  - by rewrite !sort_by_key_perm, Hp.
  - pose proof (sort_by_key_sorted key l) as Hs.
    induction Hs as [|x s Hs IH Hx]; [constructor|]. csimpl. constructor; [done|].
    by apply Forall_fmap.
  - pose proof (sort_by_key_sorted key l') as Hs.
    induction Hs as [|x s Hs IH Hx]; [constructor|]. csimpl. constructor; [done|].
    by apply Forall_fmap.
Qed.

Lemma NoDup_fmap_eq {A B} (f : A -> B) (l : list A) a b :
  NoDup (f <$> l) -> a ∈ l -> b ∈ l -> f a = f b -> a = b.
Proof.
  induction l as [|x l IH]; csimpl; intros Hnd Ha Hb Hf; [by apply elem_of_nil in Ha|].
  apply NoDup_cons in Hnd as [Hx Hnd].
  apply elem_of_cons in Ha as [->|Ha]; apply elem_of_cons in Hb as [->|Hb]; auto.
  - exfalso. apply Hx. rewrite Hf. by apply list_elem_of_fmap_2.
  - exfalso. apply Hx. rewrite <- Hf. by apply list_elem_of_fmap_2.
Qed.

Lemma sorted_rows_perm {A} (key : A -> Z) (l l' : list A) :
  l ≡ₚ l' -> NoDup (key <$> l) -> sort_by_key key l = sort_by_key key l'.
Proof.
  intros Hp Hnd. apply (sorted_perm_eq (fun a b => key a <= key b)).
  - intros a b Ha Hb ? ?. rewrite sort_by_key_perm in Ha, Hb.
    apply (NoDup_fmap_eq key l); [done|done|done|lia].
  - by rewrite !sort_by_key_perm.
  - apply sort_by_key_sorted.
  - apply sort_by_key_sorted.
Qed.

Lemma changed_rows_perm old_count new_count keys keys' :
  keys ≡ₚ keys' ->
  changed_rows old_count new_count keys ≡ₚ changed_rows old_count new_count keys'.
Proof.
  unfold changed_rows. induction 1 as [|k l l' _ IH|k k' l|l l' l'' _ IH _ IH']; csimpl.
  - done.
  - destruct (negb _); by rewrite IH.
  - do 2 destruct (negb _); try done. apply perm_swap.
  - by rewrite IH.
Qed.

(** The rows of one table in the two directions *)
Lemma changes_backwards old_count new_count keys keys' :
  keys ≡ₚ keys' ->
  let forth := sort_by_key (fun x => - Z.abs (row_delta x))
                 (changed_rows old_count new_count keys) in
  let back := sort_by_key (fun x => - Z.abs (row_delta x))
                (changed_rows new_count old_count keys') in
  back ≡ₚ flip_row <$> forth
  /\ (fun x => Z.abs (row_delta x)) <$> back = (fun x => Z.abs (row_delta x)) <$> forth
  /\ (NoDup ((fun x => Z.abs (row_delta x)) <$> forth) -> back = flip_row <$> forth).
Proof.
  intros Hp. cbv zeta. set (key := fun x : row => - Z.abs (row_delta x)).
  set (rows := changed_rows old_count new_count keys).
  set (rows' := changed_rows old_count new_count keys').
  assert (rows ≡ₚ rows') as Hrows by (by apply changed_rows_perm).
  assert (changed_rows new_count old_count keys' = flip_row <$> rows') as ->
    by apply changed_rows_flip.
  rewrite sort_by_magnitude_flip. fold key.
  assert (forall l : list row,
            (fun x => Z.abs (row_delta x)) <$> (flip_row <$> l)
            = (fun x => Z.abs (row_delta x)) <$> l) as Hflip.
  { intros l. rewrite <- list_fmap_compose. apply list_fmap_ext. intros _ x _.
    unfold flip_row, row_delta. cbn. apply Z.abs_opp. }
  assert (forall l : list row,
            (fun x => Z.abs (row_delta x)) <$> l = Z.opp <$> (key <$> l)) as Hkey.
  { intros l. rewrite <- list_fmap_compose. apply list_fmap_ext. intros _ x _.
    unfold key. cbn. lia. }
  split; [|split].
  - by rewrite !sort_by_key_perm, Hrows.
  - rewrite Hflip, !Hkey. f_equal. symmetry. by apply sorted_keys_perm.
  - intros Hnd. f_equal. symmetry. apply sorted_rows_perm; [done|].
    rewrite Hkey in Hnd. apply NoDup_fmap_1 in Hnd.
    by rewrite sort_by_key_perm in Hnd.
Qed.

Lemma shown_backwards n (forth back : list row) :
  Forall (fun x => row_delta x <> 0) forth ->
  (fun x => Z.abs (row_delta x)) <$> back = (fun x => Z.abs (row_delta x)) <$> forth ->
  (fun p : indicator * row => Z.abs (row_delta p.2)) <$> (with_indicator <$> take n back)
  = (fun p : indicator * row => Z.abs (row_delta p.2)) <$> (with_indicator <$> take n forth).
Proof.
  intros _ H. rewrite <- !list_fmap_compose.
  change ((fun p : indicator * row => Z.abs (row_delta p.2)) ∘ with_indicator)
    with (fun x : row => Z.abs (row_delta x)).
  by rewrite !fmap_take, H.
Qed.

(** X9.  Comparing the two baselines the other way round, where the sets
    of names may be visited in another order, negates every delta and
    exchanges old and new in the rows of the overall metrics and of the
    tiers; the lint changes and the repository changes are the same rows
    exchanged, the listed ones have the same magnitudes position by
    position, and they are the very rows of the first direction, in the
    same order with their indicators exchanged, when no two changes of the
    table have the same magnitude; the number of further changes is the
    same; the lints removed in one direction are the new lints of the
    other; a regression becomes an improvement of the same size and
    conversely. *)
Theorem X9_comparison_backwards set_iter set_iter' old new :
  (forall X, set_iter X ≡ₚ elements X) ->
  (forall X, set_iter' X ≡ₚ elements X) ->
  let forth := compare_baselines set_iter old new in
  let back := compare_baselines set_iter' new old in
  let magnitude := fun x : row => Z.abs (row_delta x) in
  let shown_magnitude := fun p : indicator * row => Z.abs (row_delta p.2) in
  Comparison.metrics back = flip_row <$> Comparison.metrics forth
  /\ Comparison.tiers back = flip_row <$> Comparison.tiers forth
  /\ lint_changes_sorted set_iter' new old ≡ₚ flip_row <$> lint_changes_sorted set_iter old new
  /\ shown_magnitude <$> Comparison.lint_changes back
     = shown_magnitude <$> Comparison.lint_changes forth
  /\ (NoDup (magnitude <$> lint_changes_sorted set_iter old new) ->
      Comparison.lint_changes back = flip_shown <$> Comparison.lint_changes forth)
  /\ Comparison.more_lints back = Comparison.more_lints forth
  /\ repo_changes_sorted set_iter' new old ≡ₚ flip_row <$> repo_changes_sorted set_iter old new
  /\ shown_magnitude <$> Comparison.repo_changes back
     = shown_magnitude <$> Comparison.repo_changes forth
  /\ (NoDup (magnitude <$> repo_changes_sorted set_iter old new) ->
      Comparison.repo_changes back = flip_shown <$> Comparison.repo_changes forth)
  /\ fmap (M := list) (fun x : string * string * Z => (x.1.1, x.2))
       <$> Comparison.new_lints back
     = Comparison.removed_lints forth
  /\ Comparison.summary back
     = match Comparison.summary forth with
       | Regression n _ => Improvement n (Baseline.version old)
       | Improvement n _ => Regression n (Baseline.version old)
       | NoChange => NoChange
       end.
Proof.
  intros Hiter Hiter'. cbv zeta.
  assert (forall X Y : gset string, set_iter (X ∪ Y) ≡ₚ set_iter' (Y ∪ X)) as Hunion.
  { intros X Y. by rewrite Hiter, Hiter', (union_comm_L Y X). }
  pose proof (changes_backwards
                (lint_count (default [] (Baseline.by_lint old)))
                (lint_count (default [] (Baseline.by_lint new))) _ _
                (Hunion (keys_set (default [] (Baseline.by_lint old)))
                        (keys_set (default [] (Baseline.by_lint new)))))
    as (Hl1 & Hl2 & Hl3).
  pose proof (changes_backwards
                (repo_count (default [] (Baseline.repos old)))
                (repo_count (default [] (Baseline.repos new))) _ _
                (Hunion (keys_set (default [] (Baseline.repos old)))
                        (keys_set (default [] (Baseline.repos new)))))
    as (Hr1 & Hr2 & Hr3).
  cbv zeta in Hl1, Hl2, Hl3, Hr1, Hr2, Hr3.
  fold (lint_changes_sorted set_iter old new) in Hl1, Hl2, Hl3.
  fold (lint_changes_sorted set_iter' new old) in Hl1, Hl2, Hl3.
  fold (repo_changes_sorted set_iter old new) in Hr1, Hr2, Hr3.
  fold (repo_changes_sorted set_iter' new old) in Hr1, Hr2, Hr3.
  assert (Forall (fun x => row_delta x <> 0) (lint_changes_sorted set_iter old new)) as Hnz.
  { unfold lint_changes_sorted. rewrite sort_by_key_perm. apply changed_rows_nonzero. }
  assert (Forall (fun x => row_delta x <> 0) (repo_changes_sorted set_iter old new)) as Hnz'.
  { unfold repo_changes_sorted. rewrite sort_by_key_perm. apply changed_rows_nonzero. }
  unfold compare_baselines.
  cbn [Comparison.metrics Comparison.tiers Comparison.lint_changes Comparison.more_lints
       Comparison.repo_changes Comparison.new_lints Comparison.removed_lints
       Comparison.summary].
  split; [|split; [|split; [|split; [|split; [|split; [|split; [|split; [|split;
    [|split]]]]]]]]].
  - csimpl. by rewrite !flip_mk_row.
  - rewrite <- list_fmap_compose.
    rewrite (sorted_strings_perm _ _ (Hunion (keys_set (default [] (Baseline.by_tier old)))
                                        (keys_set (default [] (Baseline.by_tier new))))).
    apply list_fmap_ext. intros _ t _. cbn. by rewrite flip_mk_row.
  - exact Hl1.
  - by apply shown_backwards.
  - intros Hnd. rewrite (Hl3 Hnd), <- fmap_take.
    apply with_indicator_flip. by apply Forall_take.
  - apply Permutation_length in Hl1. rewrite length_fmap in Hl1. by rewrite Hl1.
  - exact Hr1.
  - by apply shown_backwards.
  - intros Hnd. rewrite (Hr3 Hnd), <- fmap_take.
    apply with_indicator_flip. by apply Forall_take.
  - destruct (decide (_ = ∅)); [done|]. cbn. rewrite <- list_fmap_compose.
    f_equal. f_equal. apply sorted_strings_perm. by rewrite Hiter, Hiter'.
  - replace (Baseline.total_findings old - Baseline.total_findings new)
      with (- (Baseline.total_findings new - Baseline.total_findings old)) by lia.
    generalize (Baseline.total_findings new - Baseline.total_findings old). intros d.
    destruct (Z.ltb_spec 0 d), (Z.ltb_spec 0 (- d)), (Z.ltb_spec d 0),
      (Z.ltb_spec (- d) 0); try lia; try done.
    by rewrite Z.opp_involutive.
Qed.

Lemma X9_comparison_backwards_witness :
  (fun x : row => Z.abs (row_delta x))
    <$> lint_changes_sorted ExampleBaselines.backwards ExampleBaselines.new
          ExampleBaselines.old
  ≡ₚ [1; 1]
  /\ Comparison.summary
       (compare_baselines ExampleBaselines.backwards ExampleBaselines.new
          ExampleBaselines.old)
     = Improvement 2 "0.2.0".
Proof.
  destruct (X9_comparison_backwards ExampleBaselines.forwards ExampleBaselines.backwards
              ExampleBaselines.old ExampleBaselines.new)
    as (_ & _ & Hrows & _ & _ & _ & _ & _ & _ & _ & Hsummary).
  - intros X. reflexivity.
  - intros X. apply reverse_Permutation.
  - split.
    + rewrite Hrows. vm_compute. reflexivity.
    + rewrite Hsummary. vm_compute. reflexivity.
Defined.

(** ** More on the triage metrics *)

(** *** The recommendation lists *)

Lemma float_ge_int_spec x n : float_ge_int x n = true <-> (inject_Z n <= x)%Q.
Proof. unfold float_ge_int. apply Qle_bool_iff. Qed.

Lemma elem_of_filtered_keys {V} (p : string * V -> bool) (d : dict V) k :
  NoDup (dict_keys d) ->
  k ∈ dict_keys (List.filter p d) <-> exists v, dict_get d k = Some v /\ p (k, v) = true.
Proof.
  intros Hnd. unfold dict_keys. rewrite list_elem_of_fmap. split.
  - intros ([k' v] & -> & Hin). apply list_elem_of_In, filter_In in Hin as [Hin Hp].
    apply list_elem_of_In, elem_of_dict in Hin; [|done]. eauto.
  - intros (v & Hg & Hp). exists (k, v). split; [done|].
    apply list_elem_of_In, filter_In. split; [|done].
    by apply list_elem_of_In, elem_of_dict.
Qed.

Lemma elem_of_needs_refinement metrics rule :
  NoDup (dict_keys metrics) ->
  rule ∈ needs_refinement metrics
  <-> exists m, dict_get metrics rule = Some m
        /\ (10 <= LintMetrics.fp_rate m)%Q /\ (LintMetrics.fp_rate m < 30)%Q.
Proof.
  intros Hnd. unfold needs_refinement. rewrite elem_of_filtered_keys by done.
  split; intros (m & Hg & H); exists m; (split; [done|]).
  - apply andb_true_iff in H as [H1 H2]. cbn in *.
    apply float_ge_int_spec in H1. apply float_lt_int_spec in H2. done.
  - destruct H as [H1 H2]. cbn. apply andb_true_iff.
    split; [by apply float_ge_int_spec|by apply float_lt_int_spec].
Qed.

Lemma elem_of_needs_demotion metrics rule :
  NoDup (dict_keys metrics) ->
  rule ∈ needs_demotion metrics
  <-> exists m, dict_get metrics rule = Some m /\ (30 <= LintMetrics.fp_rate m)%Q.
Proof.
  intros Hnd. unfold needs_demotion. rewrite elem_of_filtered_keys by done.
  split; intros (m & Hg & H); exists m; (split; [done|]).
  - cbn in H. by apply float_ge_int_spec in H.
  - cbn. by apply float_ge_int_spec.
Qed.

(** X13.  A rule of the metrics is put on the promotion list when its rate
    is below 10 and it has at least 5 findings, on the refinement list when
    its rate is at least 10 and below 30, and on the demotion list when its
    rate is at least 30.  So it is never on two of the lists, and it is on
    none of them exactly when its rate is below 10 but it has fewer than 5
    findings. *)
Theorem X13_recommendations_are_exclusive triage_data rule m :
  let metrics := calculate_metrics triage_data in
  let rate := LintMetrics.fp_rate m in
  dict_get metrics rule = Some m ->
  (rule ∈ promotable metrics <-> (rate < 10)%Q /\ 5 <= LintMetrics.total m)
  /\ (rule ∈ needs_refinement metrics <-> (10 <= rate)%Q /\ (rate < 30)%Q)
  /\ (rule ∈ needs_demotion metrics <-> (30 <= rate)%Q)
  /\ ~ (rule ∈ promotable metrics /\ rule ∈ needs_refinement metrics)
  /\ ~ (rule ∈ promotable metrics /\ rule ∈ needs_demotion metrics)
  /\ ~ (rule ∈ needs_refinement metrics /\ rule ∈ needs_demotion metrics)
  /\ ((rule ∉ promotable metrics) /\ (rule ∉ needs_refinement metrics)
      /\ (rule ∉ needs_demotion metrics)
      <-> (rate < 10)%Q /\ LintMetrics.total m < 5).
Proof.
  intros metrics rate Hg.
  pose proof (calculate_metrics_NoDup triage_data) as Hnd. fold metrics in Hnd.
  assert (rule ∈ promotable metrics <-> (rate < 10)%Q /\ 5 <= LintMetrics.total m) as Hp.
  { rewrite elem_of_promotable by done. split.
    - intros (m' & Hg' & H). assert (m' = m) as -> by congruence. exact H.
    - intros H. eauto. }
  assert (rule ∈ needs_refinement metrics <-> (10 <= rate)%Q /\ (rate < 30)%Q) as Hr.
  { rewrite elem_of_needs_refinement by done. split.
    - intros (m' & Hg' & H). assert (m' = m) as -> by congruence. exact H.
    - intros H. eauto. }
  assert (rule ∈ needs_demotion metrics <-> (30 <= rate)%Q) as Hd.
  { rewrite elem_of_needs_demotion by done. split.
    - intros (m' & Hg' & H). assert (m' = m) as -> by congruence. exact H.
    - intros H. eauto. }
  split; [done|]. split; [done|]. split; [done|].
  rewrite Hp, Hr, Hd.
  split; [intros [[? ?] [? ?]]; lra|].
  split; [intros [[? ?] ?]; lra|].
  split; [intros [[? ?] ?]; lra|].
  split.
  - intros (H1 & H2 & H3).
    destruct (Qlt_le_dec rate 10) as [Hlt|Hge].
    + split; [done|]. destruct (Z.lt_ge_cases (LintMetrics.total m) 5); [done|].
      exfalso. apply H1. split; [done|lia].
    + exfalso. destruct (Qlt_le_dec rate 30); [apply H2|apply H3]; done.
  - intros [H1 H2]. split; [intros [_ ?]; lia|]. split; [intros [? _]; lra|intros ?; lra].
Qed.

Lemma X13_recommendations_are_exclusive_witness :
  "R" ∈ needs_refinement (calculate_metrics ExampleTriage.eight_two_one)
  /\ "R" ∉ promotable (calculate_metrics ExampleTriage.eight_two_one).
Proof.
  destruct (dict_get (calculate_metrics ExampleTriage.eight_two_one) "R") as [m|] eqn:E;
    [|vm_compute in E; discriminate].
  pose proof E as E'. vm_compute in E'. injection E' as <-.
  destruct (X13_recommendations_are_exclusive ExampleTriage.eight_two_one "R" _ E)
    as (Hp & Hr & _ & Hpr & _).
  assert ("R" ∈ needs_refinement (calculate_metrics ExampleTriage.eight_two_one)) as H.
  { apply Hr. split; vm_compute; [discriminate|reflexivity]. }
  split; [exact H|]. intros H'. apply Hpr. by split.
Defined.

(** *** The status column *)

Lemma status_of_cases m :
  let rate := LintMetrics.fp_rate m in
  (status_of m = STABLE <-> (rate < 10)%Q)
  /\ (status_of m = PREVIEW <-> (10 <= rate)%Q /\ (rate < 25)%Q)
  /\ (status_of m = RESEARCH <-> (25 <= rate)%Q).
Proof.
  cbv zeta. unfold status_of.
  destruct (float_lt_int (LintMetrics.fp_rate m) 10) eqn:E1;
  destruct (float_lt_int (LintMetrics.fp_rate m) 25) eqn:E2;
    try apply float_lt_int_spec in E1; try apply float_lt_int_spec in E2;
    try (apply not_true_iff_false in E1; rewrite float_lt_int_spec in E1;
         apply Qnot_lt_le in E1);
    try (apply not_true_iff_false in E2; rewrite float_lt_int_spec in E2;
         apply Qnot_lt_le in E2);
    change (inject_Z 10) with 10%Q in *; change (inject_Z 25) with 25%Q in *;
    repeat split; try done; try (intros; lra); try (intros [? ?]; lra).
Qed.

(** X14.  The status of the table is STABLE below a rate of 10, PREVIEW
    from 10 up to but not including 25 and RESEARCH from 25 on, whereas the
    refinement list, whose rules are to stay in Preview, reaches up to 30:
    a rule is on that list and has the status RESEARCH exactly when its
    rate is at least 25 and below 30. *)
Theorem X14_status_and_recommendation_disagree triage_data rule m :
  let metrics := calculate_metrics triage_data in
  let rate := LintMetrics.fp_rate m in
  dict_get metrics rule = Some m ->
  (status_of m = STABLE <-> (rate < 10)%Q)
  /\ (status_of m = PREVIEW <-> (10 <= rate)%Q /\ (rate < 25)%Q)
  /\ (status_of m = RESEARCH <-> (25 <= rate)%Q)
  /\ (rule ∈ needs_refinement metrics /\ status_of m = RESEARCH
      <-> (25 <= rate)%Q /\ (rate < 30)%Q).
Proof.
  intros metrics rate Hg.
  destruct (status_of_cases m) as (Hs & Hp & Hr). fold rate in Hs, Hp, Hr.
  split; [done|]. split; [done|]. split; [done|].
  pose proof (calculate_metrics_NoDup triage_data) as Hnd. fold metrics in Hnd.
  rewrite Hr, elem_of_needs_refinement by done. split.
  - intros [(m' & Hg' & H1 & H2) H3]. replace m' with m in * by congruence.
    fold rate in H2. done.
  - intros [H1 H2]. split; [|done]. exists m. split; [done|]. fold rate. split; [lra|done].
Qed.

Lemma X14_status_and_recommendation_disagree_witness :
  exists m, dict_get (calculate_metrics ExampleTriage2.quarter) "Q" = Some m
    /\ "Q" ∈ needs_refinement (calculate_metrics ExampleTriage2.quarter)
    /\ status_of m = RESEARCH.
Proof.
  destruct (dict_get (calculate_metrics ExampleTriage2.quarter) "Q") as [m|] eqn:E;
    [|vm_compute in E; discriminate].
  pose proof E as E'. vm_compute in E'. injection E' as <-.
  eexists. split; [reflexivity|].
  apply (X14_status_and_recommendation_disagree ExampleTriage2.quarter "Q" _ E).
  split; vm_compute; [discriminate|reflexivity].
Defined.

(** *** The table *)

Lemma rate_le_total a b : Qle_bool a b = true \/ Qle_bool b a = true.
Proof.
  destruct (Qlt_le_dec a b) as [H|H]; [left|right]; apply Qle_bool_iff; [lra|done].
Qed.

Lemma rate_le_trans a b c : Qle_bool a b = true -> Qle_bool b c = true -> Qle_bool a c = true.
Proof. rewrite !Qle_bool_iff. intros. lra. Qed.

(** X15.  The per-lint table of [print_summary] has one row for each rule
    of the metrics and no other row; the rows are in ascending order of
    false-positive rate, and the status of each row is the one that the
    rate of the row determines. *)
Theorem X15_table_is_sorted_by_rate metrics triage_data :
  let rows := Summary.table (print_summary metrics triage_data) in
  (fun x : string * LintMetrics.t * status => x.1) <$> rows ≡ₚ metrics
  /\ StronglySorted (fun a b : string * LintMetrics.t * status =>
                       (LintMetrics.fp_rate a.1.2 <= LintMetrics.fp_rate b.1.2)%Q) rows
  /\ Forall (fun x : string * LintMetrics.t * status => x.2 = status_of x.1.2) rows.
Proof.
  cbv zeta. unfold print_summary. cbn [Summary.table].
  set (le := fun a b : string * LintMetrics.t =>
               Qle_bool (LintMetrics.fp_rate a.2) (LintMetrics.fp_rate b.2)).
  assert (forall a b, le a b = true \/ le b a = true) as Htot
    by (intros; apply rate_le_total).
  assert (forall a b c, le a b = true -> le b c = true -> le a c = true) as Htr
    by (intros a b c; apply rate_le_trans).
  split; [|split].
  - rewrite <- list_fmap_compose.
    rewrite (list_fmap_ext _ id (sorted_lints metrics)) by (by intros ? []).
    rewrite list_fmap_id. apply (sort_by_perm le).
  - pose proof (sort_by_sorted le Htot Htr metrics) as Hs.
    unfold sorted_lints. fold le. induction Hs as [|x l Hs IH Hx]; [constructor|].
    csimpl. constructor; [done|].
    apply Forall_fmap. eapply Forall_impl; [exact Hx|].
    intros y Hy. cbn. by apply Qle_bool_iff.
  - apply Forall_fmap, Forall_forall. done.
Qed.

(** *** The entries of the metrics *)

Lemma class_partition rule findings :
  findings_of rule findings
  = classified_as "TP" rule findings + classified_as "FP" rule findings
    + classified_as "INFO" rule findings + classified_as "SKIP" rule findings
    + unclassified rule findings.
Proof.
  unfold findings_of, classified_as, unclassified, known_class.
  induction findings as [|f fs IH]; [done|]. cbn [List.filter].
  destruct (String.eqb (Finding.lint f) rule); cbn [andb]; [|exact IH].
  destruct (String.eqb_spec (Finding.classification f) "TP") as [->|];
    [cbn [String.eqb Ascii.eqb Bool.eqb orb negb length]; lia|].
  destruct (String.eqb_spec (Finding.classification f) "FP") as [->|];
    [cbn [String.eqb Ascii.eqb Bool.eqb orb negb length]; lia|].
  destruct (String.eqb_spec (Finding.classification f) "INFO") as [->|];
    [cbn [String.eqb Ascii.eqb Bool.eqb orb negb length]; lia|].
  destruct (String.eqb_spec (Finding.classification f) "SKIP") as [?|?];
    cbn [String.eqb Ascii.eqb Bool.eqb orb negb length]; lia.
Qed.

(** X16.  An entry of the metrics belongs to a rule with at least one
    finding; its total is the number of findings of the rule, its four
    counts are the numbers of those classified TP, FP, INFO and SKIP, and
    the total exceeds the sum of the four counts by the number of findings
    of the rule with any other classification. *)
Theorem X16_entry_counts triage_data rule m :
  let findings := TriageData.findings triage_data in
  dict_get (calculate_metrics triage_data) rule = Some m ->
  0 < LintMetrics.total m
  /\ LintMetrics.total m = findings_of rule findings
  /\ LintMetrics.tp m = classified_as "TP" rule findings
  /\ LintMetrics.fp m = classified_as "FP" rule findings
  /\ LintMetrics.info m = classified_as "INFO" rule findings
  /\ LintMetrics.skip m = classified_as "SKIP" rule findings
  /\ LintMetrics.total m
     = LintMetrics.tp m + LintMetrics.fp m + LintMetrics.info m + LintMetrics.skip m
       + unclassified rule findings.
Proof.
  intros findings Hg.
  pose proof (calculate_metrics_entry_inv _ _ _ Hg) as ->.
  rewrite calculate_metrics_get, group_by_lint_get in Hg. fold findings in Hg |- *.
  unfold lint_metrics. cbn [LintMetrics.total LintMetrics.tp LintMetrics.fp
                            LintMetrics.info LintMetrics.skip].
  rewrite !count_class_by_rule, length_by_rule.
  split.
  { rewrite <- length_by_rule. destruct (by_rule rule findings); [done|cbn; lia]. }
  repeat (split; [reflexivity|]). apply class_partition.
Qed.

Lemma X16_entry_counts_witness :
  exists m, dict_get (calculate_metrics ExampleTriage2.misspelt) "S" = Some m
    /\ LintMetrics.total m = 2 /\ LintMetrics.tp m = 1
    /\ unclassified "S" (TriageData.findings ExampleTriage2.misspelt) = 1.
Proof.
  destruct (dict_get (calculate_metrics ExampleTriage2.misspelt) "S") as [m|] eqn:E;
    [|vm_compute in E; discriminate].
  destruct (X16_entry_counts ExampleTriage2.misspelt "S" m E)
    as (_ & Ht & Htp & _ & _ & _ & _).
  exists m. split; [reflexivity|]. rewrite Ht, Htp. vm_compute. done.
Defined.

(** *** The totals of the summary *)

Lemma group_length_sum findings :
  zsum ((fun l : list Finding.t => Z.of_nat (length l))
          <$> dict_values (group_by_lint findings))
  = Z.of_nat (length findings).
Proof.
  unfold group_by_lint.
  assert (forall acc,
    zsum ((fun l : list Finding.t => Z.of_nat (length l))
            <$> dict_values (foldl (fun by_lint finding =>
                  dict_upd [] by_lint (Finding.lint finding) (fun l => l ++ [finding]))
                  acc findings))
    = zsum ((fun l : list Finding.t => Z.of_nat (length l)) <$> dict_values acc)
      + Z.of_nat (length findings)) as H.
  { induction findings as [|f fs IH]; intros acc; cbn [foldl].
    - cbn [length]. lia.
    - rewrite IH, zsum_dict_upd by done. rewrite length_app. cbn [length]. lia. }
  rewrite H. csimpl. rewrite zsum_nil. lia.
Qed.

Lemma count_class_classified c findings : count_class c findings = classified c findings.
Proof. unfold count_class, classified. apply zsum_ones. Qed.

Lemma classified_sum findings :
  classified "TP" findings + classified "FP" findings + classified "INFO" findings
  <= Z.of_nat (length findings).
Proof.
  unfold classified. induction findings as [|f fs IH]; [done|]. cbn [List.filter].
  destruct (String.eqb_spec (Finding.classification f) "TP") as [->|];
    [cbn [String.eqb Ascii.eqb Bool.eqb length]; lia|].
  destruct (String.eqb_spec (Finding.classification f) "FP") as [->|];
    [cbn [String.eqb Ascii.eqb Bool.eqb length]; lia|].
  destruct (String.eqb (Finding.classification f) "INFO"); cbn [length]; lia.
Qed.

(** X17.  In the summary printed for the metrics of a dataset, the three
    totals are the numbers of findings of the whole dataset classified TP,
    FP and INFO, together they never exceed the total number of findings,
    and the totals of the entries of the metrics add up to the total
    number of findings. *)
Theorem X17_summary_totals triage_data :
  let findings := TriageData.findings triage_data in
  let metrics := calculate_metrics triage_data in
  let s := print_summary metrics triage_data in
  Summary.total_tp s = classified "TP" findings
  /\ Summary.total_fp s = classified "FP" findings
  /\ Summary.total_info s = classified "INFO" findings
  /\ Summary.total_tp s + Summary.total_fp s + Summary.total_info s
     <= Summary.total_findings s
  /\ zsum (LintMetrics.total <$> dict_values metrics) = Summary.total_findings s.
Proof.
  cbv zeta. unfold print_summary.
  cbn [Summary.total_tp Summary.total_fp Summary.total_info Summary.total_findings].
  assert (forall c (field : LintMetrics.t -> Z),
            (forall l, field (lint_metrics l) = count_class c l) ->
            zsum (field <$> dict_values (calculate_metrics triage_data))
            = classified c (TriageData.findings triage_data)) as H.
  { intros c field Hf. rewrite <- count_class_classified, <- group_class_sum.
    unfold calculate_metrics, dict_values. rewrite <- !list_fmap_compose.
    f_equal. apply list_fmap_ext. intros i [k l] _. cbn. apply Hf. }
  rewrite (H "TP"), (H "FP"), (H "INFO") by done.
  repeat (split; [reflexivity|]). split; [apply classified_sum|].
  rewrite <- group_length_sum. unfold calculate_metrics, dict_values.
  rewrite <- !list_fmap_compose. f_equal.
Qed.

(** *** The order of the metrics *)

Lemma filter_filter_andb {A} (p q : A -> bool) l :
  List.filter p (List.filter q l) = List.filter (fun y => q y && p y) l.
Proof.
  induction l as [|x l IH]; [done|]. cbn [List.filter].
  destruct (q x); cbn [List.filter andb]; [|done]. destruct (p x); by rewrite IH.
Qed.

Lemma group_by_lint_keys_acc findings (acc : dict (list Finding.t)) :
  dict_keys (foldl (fun by_lint finding =>
               dict_upd [] by_lint (Finding.lint finding) (fun l => l ++ [finding]))
             acc findings)
  = dict_keys acc
    ++ List.filter (fun y => bool_decide (y ∉ dict_keys acc))
         (distinct (Finding.lint <$> findings)).
Proof.
  revert acc. induction findings as [|f fs IH]; intros acc; cbn [foldl].
  - csimpl. by rewrite app_nil_r.
  - rewrite IH.
    assert (dict_keys (dict_upd [] acc (Finding.lint f) (fun l => l ++ [f]))
            = if dict_get acc (Finding.lint f) is Some _ then dict_keys acc
              else dict_keys acc ++ [Finding.lint f]) as ->
      by apply dict_keys_set.
    csimpl. cbn [List.filter]. rewrite filter_filter_andb.
    destruct (dict_get acc (Finding.lint f)) as [v|] eqn:E.
    + pose proof (dict_get_Some_keys _ _ _ E) as Hin.
      rewrite bool_decide_false by (intros H; by apply H).
      f_equal. apply filter_ext. intros y.
      destruct (String.eqb_spec y (Finding.lint f)) as [->|Hne]; cbn [negb andb]; [|done].
      rewrite bool_decide_false; [done|]. intros H; by apply H.
    + apply dict_get_None_keys in E. rewrite bool_decide_true by done.
      rewrite <- app_assoc. cbn [app]. do 2 f_equal. apply filter_ext. intros y.
      destruct (String.eqb_spec y (Finding.lint f)) as [->|Hne]; cbn [negb andb].
      * apply bool_decide_false. intros H. apply H, elem_of_app. right. left.
      * apply bool_decide_ext. rewrite not_elem_of_app, not_elem_of_cons.
        split; [tauto|]. intros ?. split; [done|]. split; [done|apply not_elem_of_nil].
Qed.

Lemma filtered_keys_sublist {V} (p : string * V -> bool) (d : dict V) :
  dict_keys (List.filter p d) `sublist_of` dict_keys d.
Proof.
  unfold dict_keys. apply fmap_sublist.
  induction d as [|x d IH]; [done|]. cbn [List.filter].
  destruct (p x); [by apply sublist_skip|by apply sublist_cons].
Qed.

(** X18.  The rules of the metrics are the rules of the findings, each
    once, in the order in which they first occur in the dataset; the three
    recommendation lists keep that order. *)
Theorem X18_metrics_in_order_of_first_finding triage_data :
  let metrics := calculate_metrics triage_data in
  let rules := distinct (Finding.lint <$> TriageData.findings triage_data) in
  dict_keys metrics = rules
  /\ promotable metrics `sublist_of` rules
  /\ needs_refinement metrics `sublist_of` rules
  /\ needs_demotion metrics `sublist_of` rules.
Proof.
  cbv zeta.
  assert (dict_keys (calculate_metrics triage_data)
          = distinct (Finding.lint <$> TriageData.findings triage_data)) as H.
  { unfold calculate_metrics, dict_keys. rewrite <- list_fmap_compose.
    change (fmap _ (group_by_lint ?l)) with (dict_keys (group_by_lint l)).
    unfold group_by_lint. rewrite group_by_lint_keys_acc. cbn [dict_keys fmap list_fmap app].
    rewrite <- (filter_ext (fun _ => true)); [|intros y; symmetry; apply bool_decide_true, not_elem_of_nil].
    induction (distinct _) as [|x l IH]; [done|]. cbn [List.filter]. by rewrite IH. }
  split; [exact H|]. rewrite <- H.
  repeat split; apply filtered_keys_sublist.
Qed.

(** *** When the report is written *)

Lemma returns_bind {A B} (r : result A) (k : A -> result B) :
  returns (r ≫= k) <-> exists a, r = Return a /\ returns (k a).
Proof.
  unfold returns. destruct r as [a|e]; cbn.
  - split; [intros [b Hb]; eauto|]. by intros (a' & [= <-] & Hb).
  - split; [by intros [? ?]|]. by intros (a' & ? & _).
Qed.

Lemma mapM_returns {A B} (f : A -> result B) l :
  returns (mapM f l) <-> Forall (fun x => returns (f x)) l.
Proof.
  induction l as [|x l IH].
  - split; [constructor|]. intros _. by eexists.
  - rewrite Forall_cons, <- IH.
    change (mapM f (x :: l)) with (f x ≫= fun y => mapM f l ≫= fun k => mret (y :: k)).
    rewrite returns_bind. split.
    + intros (y & Hy & Hk). apply returns_bind in Hk as (k & Hk & _).
      split; by eexists.
    + intros [[y Hy] [k Hk]]. exists y. split; [done|].
      apply returns_bind. exists k. split; [done|]. by eexists.
Qed.

Lemma highlight_returns f : returns (highlight f) <-> described f = true.
Proof.
  unfold highlight, described, returns.
  destruct (Finding.repo f), (Finding.file f), (Finding.line f), (Finding.message f),
    (Finding.rationale f); cbn;
    (split; [intros [? H]; first [discriminate H | reflexivity]
           | intros H; first [discriminate H | by eexists]]).
Qed.

Lemma severity_section_returns title tps :
  returns (severity_section title tps) <-> Forall (fun f => described f = true) (take 5 tps).
Proof.
  unfold severity_section. destruct tps as [|f tps].
  - split; [constructor|]. intros _. by eexists.
  - rewrite returns_bind. setoid_rewrite <- highlight_returns.
    rewrite <- mapM_returns. split.
    + intros (a & Ha & _). by exists a.
    + intros [a Ha]. exists a. split; [done|]. by eexists.
Qed.

Lemma recommendation_section_returns title (metrics : dict LintMetrics.t) :
  forall keep, returns (recommendation_section title metrics
                          (dict_keys (List.filter keep metrics))).
Proof.
  intros keep. unfold recommendation_section.
  destruct (dict_keys (List.filter keep metrics)) as [|k ks] eqn:E; [by eexists|].
  apply returns_bind.
  assert (returns (mapM (fun lint =>
                     m ← dict_item metrics lint;
                     mret [Text "- `"; Text lint; Text "` - FP rate: ";
                           Fixed1 (LintMetrics.fp_rate m); Text "%"; nl]) (k :: ks))) as [a Ha].
  { apply mapM_returns, Forall_forall. intros x Hx. rewrite <- E in Hx.
    assert (x ∈ dict_keys metrics) as Hin.
    { eapply elem_of_sublist; [exact Hx|]. apply filtered_keys_sublist. }
    apply dict_keys_is_Some in Hin as [m Hm]. unfold dict_item. rewrite Hm. by eexists. }
  exists a. split; [done|]. by eexists.
Qed.

Lemma fp_by_lint_acc_none findings (acc : dict (list Finding.t)) :
  count_class "FP" findings = 0 ->
  foldl (fun d finding =>
           if String.eqb (Finding.classification finding) "FP"
           then dict_upd [] d (Finding.lint finding) (fun l => l ++ [finding])
           else d) acc findings = acc.
Proof.
  revert acc. induction findings as [|f fs IH]; intros acc H; [done|]. cbn [foldl].
  rewrite count_class_cons in H. pose proof (count_class_nonneg "FP" fs).
  destruct (String.eqb (Finding.classification f) "FP"); [lia|]. apply IH. lia.
Qed.

Lemma fp_by_lint_empty findings :
  fp_by_lint findings = [] <-> count_class "FP" findings = 0.
Proof.
  split.
  - intros H. destruct (Z.eq_dec (count_class "FP" findings) 0) as [|Hne]; [done|].
    exfalso. revert H. apply fp_by_lint_nonempty.
    unfold count_class in Hne. rewrite zsum_ones in Hne.
    destruct (List.filter _ findings) as [|f l] eqn:E; [done|].
    assert (In f (List.filter (fun f => String.eqb (Finding.classification f) "FP")
                    findings)) as Hin by (rewrite E; by left).
    apply filter_In in Hin as [Hin Hc]. exists f. split; [by apply list_elem_of_In|].
    by apply String.eqb_eq.
  - apply fp_by_lint_acc_none.
Qed.

(** X19.  [generate_report] writes the report of a dataset, instead of
    raising, exactly when the dataset has no finding classified FP, has a
    finding classified TP, and the first five true positives of critical
    severity and the first five of high severity each have a repository,
    a file, a line, a message and a rationale. *)
Theorem X19_report_is_written triage_data :
  let findings := TriageData.findings triage_data in
  (exists doc, generate_report (calculate_metrics triage_data) triage_data = Return doc)
  <-> classified "FP" findings = 0
      /\ 0 < classified "TP" findings
      /\ Forall (fun f => described f = true) (take 5 (tps_of "critical" findings))
      /\ Forall (fun f => described f = true) (take 5 (tps_of "high" findings)).
Proof.
  cbv zeta. rewrite <- !count_class_classified.
  pose proof (count_class_nonneg "TP" (TriageData.findings triage_data)) as Htp.
  pose proof (count_class_nonneg "FP" (TriageData.findings triage_data)) as Hfp.
  rewrite <- (severity_section_returns "### Critical Severity"
                (tps_of "critical" (TriageData.findings triage_data))).
  rewrite <- (severity_section_returns "### High Severity"
                (tps_of "high" (TriageData.findings triage_data))).
  rewrite <- fp_by_lint_empty.
  unfold generate_report, py_truediv, tps_of. rewrite total_tp_eq, total_fp_eq.
  cbv beta zeta. split.
  - intros [doc Hdoc].
    destruct (_ =? 0) eqn:Hr; [done|]. cbn [mbind result_bind] in Hdoc.
    destruct (severity_section "### Critical Severity" _) as [critical|e]; [|done].
    cbn [mbind result_bind] in Hdoc.
    destruct (severity_section "### High Severity" _) as [high|e]; [|done].
    cbn [mbind result_bind] in Hdoc.
    assert (fp_by_lint (TriageData.findings triage_data) = []) as H0.
    { destruct (fp_by_lint (TriageData.findings triage_data)) as [|kv fps]; [done|].
      destruct (fp_section_raises kv) as [e He].
      rewrite (mapM_raise fp_section kv fps e He) in Hdoc. done. }
    split; [done|]. apply fp_by_lint_empty in H0. rewrite H0 in Hr.
    split; [lia|]. split; by eexists.
  - intros (H0 & Hpos & [critical Hc] & [high Hh]).
    pose proof (proj1 (fp_by_lint_empty _) H0) as Hfp0.
    rewrite Hfp0, Hc, Hh, H0.
    destruct (Z.eqb_spec (count_class "TP" (TriageData.findings triage_data) + 0) 0);
      [lia|].
    cbn [mbind result_bind mret result_ret].
    destruct (recommendation_section_returns "### Promote to Stable (FP < 10%)"
                (calculate_metrics triage_data)
                (fun kv => float_lt_int (LintMetrics.fp_rate kv.2) 10
                           && (5 <=? LintMetrics.total kv.2))) as [a Ha].
    destruct (recommendation_section_returns "### Refine (FP 10-30%, keep in Preview)"
                (calculate_metrics triage_data)
                (fun kv => float_ge_int (LintMetrics.fp_rate kv.2) 10
                           && float_lt_int (LintMetrics.fp_rate kv.2) 30)) as [b Hb].
    destruct (recommendation_section_returns "### Demote to Research (FP > 30%)"
                (calculate_metrics triage_data)
                (fun kv => float_ge_int (LintMetrics.fp_rate kv.2) 30)) as [c Hc'].
    unfold promotable, needs_refinement, needs_demotion.
    rewrite Ha. cbn [mbind result_bind]. rewrite Hb. cbn [mbind result_bind].
    rewrite Hc'. cbn [mbind result_bind]. by eexists.
Qed.

(** ** More on the triage database *)

(** *** analyze_fp.py: what the statistics add up to *)

Lemma count_lint_status_total status s :
  LintStats.total (count_lint_status status s) = LintStats.total s + 1.
Proof. unfold count_lint_status. by repeat destruct (String.eqb _ _). Qed.

Lemma count_group_status_total status s :
  GroupStats.total (count_group_status status s) = GroupStats.total s + 1.
Proof. unfold count_group_status. by repeat destruct (String.eqb _ _). Qed.

Lemma analyze_finding_balance stats f :
  let stats' := analyze_finding stats f in
  Stats.total stats' = Stats.total stats + 1
  /\ zsum (dict_values (Stats.by_status stats'))
     = zsum (dict_values (Stats.by_status stats)) + 1
  /\ zsum (LintStats.total <$> dict_values (Stats.by_lint stats'))
     = zsum (LintStats.total <$> dict_values (Stats.by_lint stats)) + 1
  /\ zsum (GroupStats.total <$> dict_values (Stats.by_repo stats'))
     = zsum (GroupStats.total <$> dict_values (Stats.by_repo stats)) + 1
  /\ zsum (GroupStats.total <$> dict_values (Stats.by_category stats'))
     = zsum (GroupStats.total <$> dict_values (Stats.by_category stats)) + 1.
Proof.
  cbv zeta. unfold analyze_finding.
  cbn [Stats.total Stats.by_status Stats.by_lint Stats.by_repo Stats.by_category].
  rewrite zsum_dict_upd_add, !zsum_dict_upd by done.
  rewrite count_lint_status_total, !count_group_status_total.
  repeat split; lia.
Qed.

Lemma analyze_findings_balance findings stats :
  let stats' := foldl analyze_finding stats findings in
  let n := Z.of_nat (length findings) in
  Stats.total stats' = Stats.total stats + n
  /\ zsum (dict_values (Stats.by_status stats'))
     = zsum (dict_values (Stats.by_status stats)) + n
  /\ zsum (LintStats.total <$> dict_values (Stats.by_lint stats'))
     = zsum (LintStats.total <$> dict_values (Stats.by_lint stats)) + n
  /\ zsum (GroupStats.total <$> dict_values (Stats.by_repo stats'))
     = zsum (GroupStats.total <$> dict_values (Stats.by_repo stats)) + n
  /\ zsum (GroupStats.total <$> dict_values (Stats.by_category stats'))
     = zsum (GroupStats.total <$> dict_values (Stats.by_category stats)) + n.
Proof.
  cbv zeta. revert stats. induction findings as [|f fs IH]; intros stats.
  - cbn [foldl length]. repeat split; lia.
  - cbn [foldl]. destruct (IH (analyze_finding stats f)) as (-> & -> & -> & -> & ->).
    destruct (analyze_finding_balance stats f) as (-> & -> & -> & -> & ->).
    cbn [length]. repeat split; lia.
Qed.

(** X20.  [analyze_findings] counts every entry of the database once in
    each of its tables: [total] is the number of entries, and the counts by
    status, the totals by lint, the totals by repository and the totals by
    category each add up to it. *)
Theorem X20_statistics_add_up db :
  let stats := analyze_findings db in
  Stats.total stats = Z.of_nat (length db)
  /\ zsum (dict_values (Stats.by_status stats)) = Stats.total stats
  /\ zsum (LintStats.total <$> dict_values (Stats.by_lint stats)) = Stats.total stats
  /\ zsum (GroupStats.total <$> dict_values (Stats.by_repo stats)) = Stats.total stats
  /\ zsum (GroupStats.total <$> dict_values (Stats.by_category stats)) = Stats.total stats.
Proof.
  cbv zeta. unfold analyze_findings.
  destruct (analyze_findings_balance (dict_values db) (Stats.mk 0 [] [] [] [] [] []))
    as (-> & -> & -> & -> & ->).
  cbn [Stats.total Stats.by_status Stats.by_lint Stats.by_repo Stats.by_category].
  unfold dict_values. rewrite length_fmap. csimpl. rewrite !zsum_nil.
  repeat split; lia.
Qed.

(** *** The entry of a lint *)

Lemma count_lint_status_needs_review status s :
  LintStats.needs_review (count_lint_status status s)
  = LintStats.needs_review s + (if counted_status status then 0 else 1).
Proof.
  unfold count_lint_status, counted_status.
  repeat destruct (String.eqb _ _); cbn; lia.
Qed.

Lemma by_lint_totals findings d lint :
  let d' := foldl (fun d f =>
              dict_upd (LintStats.mk 0 0 0 0 0) d (default "unknown" (DbFinding.lint f))
                (count_lint_status (default "needs_review" (DbFinding.status f))))
              d findings in
  LintStats.total (lint_stats_of d' lint)
  = LintStats.total (lint_stats_of d lint) + Z.of_nat (length (entries_of lint findings))
  /\ LintStats.needs_review (lint_stats_of d' lint)
     = LintStats.needs_review (lint_stats_of d lint) + db_other lint findings
  /\ (is_Some (dict_get d' lint)
      <-> is_Some (dict_get d lint) \/ entries_of lint findings <> []).
Proof.
  cbv zeta. revert d. induction findings as [|f fs IH]; intros d.
  - cbn [foldl]. unfold db_other. cbn. split; [lia|]. split; [lia|]. naive_solver.
  - cbn [foldl]. destruct (IH (dict_upd (LintStats.mk 0 0 0 0 0) d
                                 (default "unknown" (DbFinding.lint f))
                                 (count_lint_status
                                    (default "needs_review" (DbFinding.status f)))))
      as (-> & -> & ->).
    unfold db_other, entries_of, db_lint, db_status. cbn [List.filter].
    unfold lint_stats_of at 1 3. rewrite dict_get_upd.
    destruct (String.eqb_spec (default "unknown" (DbFinding.lint f)) lint) as [Heq|Hne].
    + rewrite decide_True by done. cbn [default andb]. rewrite Heq.
      fold (lint_stats_of d lint).
      unfold id. rewrite count_lint_status_total, count_lint_status_needs_review.
      destruct (counted_status _); cbn [negb length];
        (split; [lia|]); (split; [lia|]); (split; intros _; [by right|left; by eexists]).
    + rewrite decide_False by done. fold (lint_stats_of d lint). cbn [andb].
      split; [lia|]. split; [lia|]. done.
Qed.

Lemma db_count_partition lint findings :
  Z.of_nat (length (entries_of lint findings))
  = db_count "confirmed" lint findings + db_count "false_positive" lint findings
    + db_count "wont_fix" lint findings + db_other lint findings.
Proof.
  unfold entries_of, db_count, db_other, counted_status, db_lint, db_status.
  induction findings as [|f fs IH]; [done|]. cbn [List.filter].
  destruct (String.eqb (default "unknown" (DbFinding.lint f)) lint); cbn [andb];
    [|exact IH].
  destruct (String.eqb_spec (default "needs_review" (DbFinding.status f)) "confirmed")
    as [E|]; [rewrite E; cbn [String.eqb Ascii.eqb Bool.eqb orb negb length]; lia|].
  destruct (String.eqb_spec (default "needs_review" (DbFinding.status f)) "false_positive")
    as [E|]; [rewrite E; cbn [String.eqb Ascii.eqb Bool.eqb orb negb length]; lia|].
  destruct (String.eqb_spec (default "needs_review" (DbFinding.status f)) "wont_fix")
    as [E|]; cbn [orb negb length]; lia.
Qed.

Lemma by_lint_entry db lint :
  dict_get (Stats.by_lint (analyze_findings db)) lint
  = match entries_of lint (dict_values db) with
    | [] => None
    | l => Some (LintStats.mk (Z.of_nat (length l))
                   (db_count "confirmed" lint (dict_values db))
                   (db_count "false_positive" lint (dict_values db))
                   (db_count "wont_fix" lint (dict_values db))
                   (db_other lint (dict_values db)))
    end.
Proof.
  unfold analyze_findings. rewrite by_lint_foldl. cbn [Stats.by_lint].
  pose proof (by_lint_counts (dict_values db) [] lint) as (Hc & Hf & Hw).
  pose proof (by_lint_totals (dict_values db) [] lint) as (Ht & Hn & Hs).
  cbv zeta in Hc, Hf, Hw, Ht, Hn, Hs. unfold lint_stats_of in Hc, Hf, Hw, Ht, Hn.
  destruct (dict_get _ lint) as [s|].
  - destruct (entries_of lint (dict_values db)) as [|f l] eqn:E.
    + exfalso. destruct (proj1 Hs) as [[? H]|H]; [by eexists|done|done].
    + destruct s as [t c fp w n]. cbn in Hc, Hf, Hw, Ht, Hn.
      rewrite Z.add_0_l in Hc, Hf, Hw, Ht, Hn. by subst.
  - destruct (entries_of lint (dict_values db)) as [|f l]; [done|].
    exfalso. destruct (proj2 Hs) as [? H]; [by right|done].
Qed.

(** X21.  The entry of a lint in [by_lint] exists exactly when the database
    has an entry of that lint (an entry without lint is one of
    ["unknown"]); its total is the number of these entries, its confirmed,
    false-positive and wont-fix counts are the numbers of those with that
    status, every other entry of the lint, whatever its status, is counted
    as needing review, and the four counts add up to the total. *)
Theorem X21_lint_entry db lint :
  let findings := dict_values db in
  dict_get (Stats.by_lint (analyze_findings db)) lint
  = match entries_of lint findings with
    | [] => None
    | l => Some (LintStats.mk (Z.of_nat (length l))
                   (db_count "confirmed" lint findings)
                   (db_count "false_positive" lint findings)
                   (db_count "wont_fix" lint findings)
                   (db_other lint findings))
    end
  /\ Z.of_nat (length (entries_of lint findings))
     = db_count "confirmed" lint findings + db_count "false_positive" lint findings
       + db_count "wont_fix" lint findings + db_other lint findings.
Proof. cbv zeta. split; [apply by_lint_entry|apply db_count_partition]. Qed.

(** *** The findings kept for the report *)

Lemma kept_acc status findings (acc : dict (list DbFinding.t)) lint :
  dict_get (foldl (fun d f =>
              if String.eqb (db_status f) status
              then dict_upd [] d (db_lint f) (fun l => l ++ [f]) else d)
            acc findings) lint
  = match entries_with status lint findings with
    | [] => dict_get acc lint
    | l => Some (default [] (dict_get acc lint) ++ l)
    end.
Proof.
  revert acc. induction findings as [|f fs IH]; intros acc; [done|].
  cbn [foldl]. rewrite IH. unfold entries_with. cbn [List.filter].
  destruct (String.eqb (db_status f) status).
  - rewrite dict_get_upd, andb_true_r.
    destruct (String.eqb_spec (db_lint f) lint) as [->|Hne].
    + rewrite decide_True by done. cbn [default].
      destruct (List.filter _ fs); [done|]. unfold id. by rewrite <- app_assoc.
    + by rewrite decide_False by done.
  - by rewrite andb_false_r.
Qed.

Lemma fps_by_lint_foldl stats findings :
  Stats.fps_by_lint (foldl analyze_finding stats findings)
  = foldl (fun d f =>
             if String.eqb (db_status f) "false_positive"
             then dict_upd [] d (db_lint f) (fun l => l ++ [f]) else d)
      (Stats.fps_by_lint stats) findings.
Proof.
  revert stats. induction findings as [|f fs IH]; intros stats; [done|].
  cbn [foldl]. by rewrite IH.
Qed.

Lemma confirmed_by_lint_foldl stats findings :
  Stats.confirmed_by_lint (foldl analyze_finding stats findings)
  = foldl (fun d f =>
             if String.eqb (db_status f) "confirmed"
             then dict_upd [] d (db_lint f) (fun l => l ++ [f]) else d)
      (Stats.confirmed_by_lint stats) findings.
Proof.
  revert stats. induction findings as [|f fs IH]; intros stats; [done|].
  cbn [foldl]. by rewrite IH.
Qed.

Lemma length_entries_with status lint findings :
  Z.of_nat (length (entries_with status lint findings)) = db_count status lint findings.
Proof. done. Qed.

(** X22.  The false positives kept for a lint are the entries of the lint
    with the status [false_positive], in the order of the database, and
    the confirmed findings kept for it are those with the status
    [confirmed]; a lint without such an entry has no list, so that no kept
    list is empty; and the length of the list of false positives is the
    false-positive count of the lint in [by_lint]. *)
Theorem X22_kept_findings db lint :
  let findings := dict_values db in
  let stats := analyze_findings db in
  dict_get (Stats.fps_by_lint stats) lint
  = match entries_with "false_positive" lint findings with [] => None | l => Some l end
  /\ dict_get (Stats.confirmed_by_lint stats) lint
     = match entries_with "confirmed" lint findings with [] => None | l => Some l end
  /\ (forall fps, dict_get (Stats.fps_by_lint stats) lint = Some fps ->
        fps <> []
        /\ exists data, dict_get (Stats.by_lint stats) lint = Some data
             /\ LintStats.fp data = Z.of_nat (length fps)).
Proof.
  cbv zeta.
  assert (dict_get (Stats.fps_by_lint (analyze_findings db)) lint
          = match entries_with "false_positive" lint (dict_values db) with
            | [] => None | l => Some l end) as Hfp.
  { unfold analyze_findings. rewrite fps_by_lint_foldl, kept_acc.
    by destruct (entries_with _ _ _). }
  split; [exact Hfp|]. split.
  { unfold analyze_findings. rewrite confirmed_by_lint_foldl, kept_acc.
    by destruct (entries_with _ _ _). }
  intros fps Hfps. rewrite Hfp in Hfps.
  destruct (entries_with "false_positive" lint (dict_values db)) as [|f l] eqn:E; [done|].
  injection Hfps as <-. split; [done|].
  rewrite by_lint_entry.
  destruct (entries_of lint (dict_values db)) as [|f' l'] eqn:E'.
  - exfalso. assert (In f (entries_with "false_positive" lint (dict_values db))) as Hin
      by (rewrite E; by left).
    apply filter_In in Hin as [Hin Hc]. apply andb_true_iff in Hc as [Hc _].
    assert (In f (entries_of lint (dict_values db))) as Hin'
      by (apply filter_In; by split).
    by rewrite E' in Hin'.
  - eexists. split; [reflexivity|]. cbn [LintStats.fp].
    by rewrite <- length_entries_with, E.
Qed.

(** *** The counts by status *)

Lemma by_status_foldl stats findings :
  Stats.by_status (foldl analyze_finding stats findings)
  = foldl (fun d f => dict_upd 0 d (db_status f) (Z.add 1))
      (Stats.by_status stats) findings.
Proof.
  revert stats. induction findings as [|f fs IH]; intros stats; [done|].
  cbn [foldl]. by rewrite IH.
Qed.

Lemma by_status_acc status findings (acc : dict Z) :
  dict_get (foldl (fun d f => dict_upd 0 d (db_status f) (Z.add 1)) acc findings) status
  = if with_status status findings =? 0 then dict_get acc status
    else Some (default 0 (dict_get acc status) + with_status status findings).
Proof.
  revert acc. induction findings as [|f fs IH]; intros acc; [done|].
  cbn [foldl]. rewrite IH, dict_get_upd. unfold with_status. cbn [List.filter].
  destruct (String.eqb_spec (db_status f) status) as [->|Hne].
  - rewrite decide_True by done. cbn [default length].
    set (n := length (List.filter _ fs)). unfold id.
    destruct (Z.eqb_spec (Z.of_nat n) 0), (Z.eqb_spec (Z.of_nat (S n)) 0);
      try lia; f_equal; lia.
  - by rewrite decide_False by done.
Qed.

Lemma with_status_sum findings :
  with_status "confirmed" findings + with_status "false_positive" findings
  + with_status "needs_review" findings <= Z.of_nat (length findings).
Proof.
  unfold with_status. induction findings as [|f fs IH]; [done|]. cbn [List.filter].
  destruct (String.eqb_spec (db_status f) "confirmed") as [E|];
    [rewrite E; cbn [String.eqb Ascii.eqb Bool.eqb length]; lia|].
  destruct (String.eqb_spec (db_status f) "false_positive") as [E|];
    [rewrite E; cbn [String.eqb Ascii.eqb Bool.eqb length]; lia|].
  destruct (String.eqb (db_status f) "needs_review"); cbn [length]; lia.
Qed.

(** X23.  [by_status] holds under a status the number of entries of the
    database with that status, an entry without status being one that
    needs review, and holds nothing under a status that no entry has; the
    three counts of the overview (confirmed, false positive, needs review)
    together never exceed the total. *)
Theorem X23_counts_by_status db status :
  let findings := dict_values db in
  let stats := analyze_findings db in
  dict_get (Stats.by_status stats) status
  = (if with_status status findings =? 0 then None
     else Some (with_status status findings))
  /\ default 0 (dict_get (Stats.by_status stats) "confirmed")
     + default 0 (dict_get (Stats.by_status stats) "false_positive")
     + default 0 (dict_get (Stats.by_status stats) "needs_review")
     <= Stats.total stats.
Proof.
  cbv zeta.
  assert (forall status,
    dict_get (Stats.by_status (analyze_findings db)) status
    = (if with_status status (dict_values db) =? 0 then None
       else Some (with_status status (dict_values db)))) as H.
  { intros st. unfold analyze_findings. rewrite by_status_foldl, by_status_acc.
    cbn [Stats.by_status dict_get default]. by rewrite Z.add_0_l. }
  split; [apply H|]. rewrite !H.
  assert (forall n, default 0 (if n =? 0 then None else Some n) = n) as Hd
    by (intros n; destruct (Z.eqb_spec n 0); cbn; lia).
  rewrite !Hd.
  destruct (analyze_findings_balance (dict_values db) (Stats.mk 0 [] [] [] [] [] []))
    as (Ht & _).
  unfold analyze_findings. rewrite Ht. cbn [Stats.total].
  pose proof (with_status_sum (dict_values db)). lia.
Qed.

(** ** Strings, manifests and notes *)

(** *** Stripping *)

Lemma lstrip_cases s :
  Str.lstrip s = EmptyString
  \/ exists c s', Str.lstrip s = String c s' /\ Str.isspace c = false.
Proof.
  induction s as [|c s IH]; [by left|]. cbn [Str.lstrip].
  destruct (Str.isspace c) eqn:E; [exact IH|]. right. eauto.
Qed.

Lemma lstrip_fixed c s : Str.isspace c = false -> Str.lstrip (String c s) = String c s.
Proof. intros H. cbn [Str.lstrip]. by rewrite H. Qed.

Lemma rstrip_head c s :
  Str.isspace c = false -> exists r, Str.rstrip (String c s) = String c r.
Proof.
  intros H. cbn [Str.rstrip]. destruct (Str.rstrip s); [rewrite H|]; eauto.
Qed.

Lemma rstrip_idem s : Str.rstrip (Str.rstrip s) = Str.rstrip s.
Proof.
  induction s as [|c s IH]; [done|]. cbn [Str.rstrip].
  destruct (Str.rstrip s) as [|c' r] eqn:E.
  - destruct (Str.isspace c) eqn:Hc; [done|]. cbn [Str.rstrip]. by rewrite Hc.
  - change (Str.rstrip (String c (String c' r)))
      with (match Str.rstrip (String c' r) with
            | EmptyString => if Str.isspace c then EmptyString else String c EmptyString
            | r' => String c r'
            end).
    by rewrite IH.
Qed.

Lemma strip_idem s : Str.strip (Str.strip s) = Str.strip s.
Proof.
  unfold Str.strip. destruct (lstrip_cases s) as [->|(c & s' & -> & Hc)]; [done|].
  destruct (rstrip_head c s' Hc) as [r Hr]. rewrite Hr, lstrip_fixed by done.
  rewrite <- Hr. apply rstrip_idem.
Qed.

(** *** The manifest *)

Lemma foldl_filter_snoc {A B} (f : A -> B) (p : B -> bool) (l : list A) (acc : list B) :
  foldl (fun acc x => if p (f x) then acc ++ [f x] else acc) acc l
  = acc ++ List.filter p (f <$> l).
Proof.
  revert acc. induction l as [|x l IH]; intros acc; csimpl; [by rewrite app_nil_r|].
  rewrite IH. cbn [List.filter]. destruct (p (f x)); [by rewrite <- app_assoc|done].
Qed.

(** X24.  [load_repo_list] ends the program with exit status 1 when the
    manifest does not exist; otherwise it returns, in the order of the
    file and with repetitions kept, the stripped lines that are neither
    empty nor comments: every name it returns is non-empty, does not start
    with [#] and has no white space around it. *)
Theorem X24_manifest_entries repos_file :
  match load_repo_list repos_file with
  | Finished repos =>
      exists text, repos_file = Some text
        /\ repos = List.filter listed (Str.strip <$> Str.split newline text)
        /\ Forall (fun repo => repo <> EmptyString /\ Str.startswith "#" repo = false
                               /\ Str.strip repo = repo) repos
  | SystemExit code => repos_file = None /\ code = 1
  end.
Proof.
  destruct repos_file as [text|]; [|done]. cbn [load_repo_list].
  exists text. split; [done|].
  rewrite (foldl_filter_snoc Str.strip listed). cbn [app]. split; [done|].
  apply Forall_forall. intros repo Hin.
  apply list_elem_of_In, filter_In in Hin as [Hin Hl].
  apply list_elem_of_In, list_elem_of_fmap in Hin as (line & -> & _).
  unfold listed in Hl. apply andb_true_iff in Hl as [H1 H2].
  apply negb_true_iff in H1, H2. split; [by apply String.eqb_neq|].
  split; [done|apply strip_idem].
Qed.

(** *** The names of the breakdown *)

Lemma contains_colon_cons c s :
  Str.contains ":" (String c s) = Ascii.eqb ":" c || Str.contains ":" s.
Proof. cbn [Str.contains Str.startswith]. destruct (Ascii.eqb ":" c); by destruct s. Qed.

Lemma contains_colon_snoc cur c :
  Str.contains ":" (Str.snoc cur c) = Str.contains ":" cur || Ascii.eqb ":" c.
Proof.
  unfold Str.snoc. induction cur as [|a cur IH].
  - change (EmptyString +:+ String c EmptyString) with (String c EmptyString).
    rewrite contains_colon_cons. cbn. by rewrite orb_false_r.
  - change (String a cur +:+ String c EmptyString)
      with (String a (cur +:+ String c EmptyString)).
    rewrite !contains_colon_cons, IH. by rewrite orb_assoc.
Qed.

Lemma split_colon_head s cur :
  Str.contains ":" cur = false ->
  exists h r, Str.split_go ":" 0 cur s = h :: r /\ Str.contains ":" h = false.
Proof.
  revert cur. induction s as [|c s IH]; intros cur Hcur; cbn [Str.split_go]; [eauto|].
  cbn [Str.startswith]. destruct (Ascii.eqb ":" c) eqn:E.
  - eauto.
  - apply IH. by rewrite contains_colon_snoc, Hcur, E.
Qed.

Lemma lstrip_colon s : Str.contains ":" s = false -> Str.contains ":" (Str.lstrip s) = false.
Proof.
  induction s as [|c s IH]; [done|]. intros H. cbn [Str.lstrip].
  destruct (Str.isspace c); [|done]. apply IH.
  rewrite contains_colon_cons in H. by apply orb_false_iff in H as [_ ?].
Qed.

Lemma rstrip_colon s : Str.contains ":" s = false -> Str.contains ":" (Str.rstrip s) = false.
Proof.
  induction s as [|c s IH]; [done|]. intros H.
  rewrite contains_colon_cons in H. apply orb_false_iff in H as [Hc Hs].
  specialize (IH Hs). cbn [Str.rstrip]. destruct (Str.rstrip s) as [|c' r].
  - destruct (Str.isspace c); [done|]. rewrite contains_colon_cons, Hc. done.
  - by rewrite contains_colon_cons, Hc, IH.
Qed.

Lemma parse_lint_name_clean line name :
  parse_lint_name line = Return name -> clean_name name.
Proof.
  unfold parse_lint_name. destruct (py_index _ 1) as [after|e]; [|done].
  cbn [mbind result_bind]. unfold Str.split at 1.
  destruct (split_colon_head (Str.strip after) EmptyString eq_refl) as (h & r & -> & Hh).
  cbn. intros [= <-]. split; [|apply strip_idem].
  unfold Str.strip. by apply rstrip_colon, lstrip_colon.
Qed.

Lemma count_lines_names lines total d total' d' :
  count_lines (total, d) lines = Return (total', d') ->
  Forall clean_name (dict_keys d) -> Forall clean_name (dict_keys d').
Proof.
  revert total d. induction lines as [|line lines IH]; intros total d; cbn [count_lines].
  - by intros [= <- <-].
  - destruct (Str.contains "warning:" line) eqn:Hc.
    + destruct (count_line_warning total d line Hc) as (name & Hn & ->).
      cbn [mbind result_bind]. intros H Hd. apply (IH _ _ H).
      unfold dict_upd. rewrite dict_keys_set. destruct (dict_get d name); [done|].
      apply Forall_app. split; [done|]. constructor; [|constructor].
      by eapply parse_lint_name_clean.
    + rewrite count_line_plain by done. cbn [mbind result_bind]. apply IH.
Qed.

(** X25.  Every lint name under which [run_lint_on_repo] files a finding
    is free of colons and has no white space around it. *)
Theorem X25_breakdown_names_are_clean env args r :
  run_lint_on_repo env args = Return r ->
  Forall clean_name (dict_keys (RepoResult.lint_breakdown r)).
Proof.
  destruct args as [[repo_name repo_path] experimental]. unfold run_lint_on_repo.
  destruct (isdir env repo_path); cbn [negb]; [|intros [= <-]; constructor].
  destruct (count_move_files env repo_path) as [n|e]; cbn [mbind result_bind]; [|done].
  destruct (n =? 0); [intros [= <-]; constructor|].
  destruct (subprocess_run env _) as [res|e]; cbn [mbind result_bind try_except].
  - destruct (count_lines _ _) as [[total d]|e] eqn:Hcl; cbn.
    + intros [= <-]. cbn. eapply count_lines_names; [exact Hcl|constructor].
    + destruct e; intros [= <-]; constructor.
  - destruct e; intros [= <-]; constructor.
Qed.

Lemma X25_breakdown_names_are_clean_witness :
  exists r, run_lint_on_repo Example.env (Example.item "A") = Return r
    /\ dict_keys (RepoResult.lint_breakdown r) = ["unused_import"]
    /\ Forall clean_name (dict_keys (RepoResult.lint_breakdown r)).
Proof.
  destruct (run_lint_on_repo Example.env (Example.item "A")) as [r|e] eqn:E;
    [|vm_compute in E; discriminate].
  exists r. split; [reflexivity|].
  split; [|exact (X25_breakdown_names_are_clean Example.env (Example.item "A") r E)].
  vm_compute in E. by injection E as <-.
Defined.

(** *** The patterns of the false positives *)

Section GroupBy.
Context {A : Type} (key : A -> string).

Lemma group_get_acc (l : list A) (acc : dict (list A)) k :
  dict_get (foldl (fun d x => dict_upd [] d (key x) (fun g => g ++ [x])) acc l) k
  = match List.filter (fun x => String.eqb (key x) k) l with
    | [] => dict_get acc k
    | g => Some (default [] (dict_get acc k) ++ g)
    end.
Proof.
  revert acc. induction l as [|x l IH]; intros acc; [done|].
  cbn [foldl]. rewrite IH, dict_get_upd. cbn [List.filter].
  destruct (String.eqb_spec (key x) k) as [->|Hne].
  - rewrite decide_True by done. cbn [default].
    destruct (List.filter _ l); [done|]. unfold id. by rewrite <- app_assoc.
  - by rewrite decide_False by done.
Qed.

Lemma group_keys_NoDup (l : list A) (acc : dict (list A)) :
  NoDup (dict_keys acc) ->
  NoDup (dict_keys (foldl (fun d x => dict_upd [] d (key x) (fun g => g ++ [x])) acc l)).
Proof.
  revert acc. induction l as [|x l IH]; intros acc Hacc; [done|].
  cbn [foldl]. apply IH. by apply dict_set_NoDup.
Qed.

Lemma group_lengths (l : list A) (acc : dict (list A)) :
  zsum ((fun g : list A => Z.of_nat (length g))
          <$> dict_values (foldl (fun d x => dict_upd [] d (key x) (fun g => g ++ [x]))
                             acc l))
  = zsum ((fun g : list A => Z.of_nat (length g)) <$> dict_values acc)
    + Z.of_nat (length l).
Proof.
  revert acc. induction l as [|x l IH]; intros acc; cbn [foldl].
  - cbn [length]. lia.
  - rewrite IH, zsum_dict_upd by done. rewrite length_app. cbn [length]. lia.
Qed.

End GroupBy.

(** X26.  [extract_patterns] files every finding under exactly one
    pattern: the list of a pattern holds, in their order, the findings
    whose normalised note is that pattern, a pattern without finding has
    no list, no pattern occurs twice, and the lengths of the lists add up
    to the number of findings. *)
Theorem X26_patterns_partition findings :
  let patterns := extract_patterns findings in
  (forall p,
     dict_get patterns p
     = match List.filter (fun f => String.eqb (pattern_of f) p) findings with
       | [] => None
       | l => Some l
       end)
  /\ NoDup (dict_keys patterns)
  /\ zsum ((fun l : list DbFinding.t => Z.of_nat (length l)) <$> dict_values patterns)
     = Z.of_nat (length findings).
Proof.
  cbv zeta. unfold extract_patterns. split; [|split].
  - intros p. rewrite (group_get_acc pattern_of). by destruct (List.filter _ _).
  - apply (group_keys_NoDup pattern_of). constructor.
  - rewrite (group_lengths pattern_of). csimpl. rewrite zsum_nil. lia.
Qed.

Lemma noted_fixed notes :
  noted notes <> EmptyString /\ Str.strip (noted notes) = noted notes
  /\ noted (noted notes) = noted notes.
Proof.
  assert (noted notes = "No pattern noted"
          \/ noted notes = Str.strip notes /\ Str.strip notes <> EmptyString) as H.
  { unfold noted. destruct (String.eqb_spec (Str.strip notes) EmptyString); auto. }
  destruct H as [->|[-> Hne]]; [by vm_compute|].
  split; [done|]. split; [apply strip_idem|].
  unfold noted. rewrite strip_idem.
  by destruct (String.eqb_spec (Str.strip notes) EmptyString).
Qed.

Lemma normalize_cases note : canonical_pattern (normalize note) \/ normalize note = note.
Proof.
  unfold normalize, canonical_pattern.
  destruct (_ || _); [by left; left|].
  destruct (_ && _); [by left; right; left|].
  destruct (Str.contains "test" _); [by left; right; right; left|].
  destruct (Str.contains "intentional" _); [by left; right; right; right|].
  by right.
Qed.

Lemma canonical_fixed p :
  canonical_pattern p ->
  p <> EmptyString /\ Str.strip p = p /\ noted p = p /\ normalize p = p.
Proof. intros [-> | [-> | [-> | ->]]]; by vm_compute. Qed.

(** X27.  The pattern under which a finding is filed is never empty and
    has no white space around it, and it is stable: a note that consists
    of the pattern is filed under that same pattern.  It is one of the four
    canonical names or the stripped note itself (["No pattern noted"] for a
    missing or blank note). *)
Theorem X27_patterns_are_stable notes :
  let p := normalize (noted notes) in
  p <> EmptyString
  /\ Str.strip p = p
  /\ normalize (noted p) = p
  /\ (canonical_pattern p \/ p = noted notes).
Proof.
  cbv zeta. destruct (noted_fixed notes) as (Hne & Hs & Hn).
  destruct (normalize_cases (noted notes)) as [Hc|He].
  - destruct (canonical_fixed _ Hc) as (H1 & H2 & H3 & H4).
    rewrite H3, H4. repeat split; try done. by left.
  - rewrite He. rewrite Hn, He. repeat split; try done. by right.
Qed.

(** *** The table of rates *)

Lemma round64_positive q : (0 < q)%Q -> (0 < round64 q)%Q.
Proof.
  intros Hq. unfold round64. destruct (Qcompare_spec q 0) as [H|H|H]; [lra|lra|].
  rewrite Qred_correct. pose proof (round64_pos_bounds q H) as [B _].
  pose proof (pow2_pos (floor_log2 q)). lra.
Qed.

Lemma count_lint_status_sane status s :
  sane_counts s -> sane_counts (count_lint_status status s).
Proof.
  unfold sane_counts, count_lint_status. intros (? & ? & ? & ? & ?).
  repeat destruct (String.eqb _ _); cbn; lia.
Qed.

Lemma by_lint_sane db :
  Forall sane_counts (dict_values (Stats.by_lint (analyze_findings db))).
Proof.
  unfold analyze_findings. rewrite by_lint_foldl. cbn [Stats.by_lint].
  assert (Forall sane_counts (dict_values (@nil (string * LintStats.t)))) as H
    by constructor.
  revert H. generalize (@nil (string * LintStats.t)).
  induction (dict_values db) as [|f fs IH]; intros d Hd; [done|].
  cbn [foldl]. apply IH. unfold dict_upd. apply dict_set_Forall; [done|].
  apply count_lint_status_sane.
  destruct (dict_get d _) as [s|] eqn:E; cbn [default].
  - apply dict_get_values in E. rewrite Forall_forall in Hd. by apply Hd.
  - unfold sane_counts. cbn. lia.
Qed.

Lemma calculate_fp_rate_sign s :
  sane_counts s ->
  (0 <= calculate_fp_rate s <= 100)%Q
  /\ (LintStats.fp s = 0 -> (calculate_fp_rate s == 0)%Q)
  /\ (0 < LintStats.fp s -> (0 < calculate_fp_rate s)%Q).
Proof.
  intros (Hc & Hf & Hw & _ & _). unfold calculate_fp_rate.
  set (reviewed := LintStats.confirmed s + LintStats.fp s + LintStats.wont_fix s).
  destruct (Z.eqb_spec reviewed 0) as [H0|H0].
  - split; [split; vm_compute; discriminate|]. split; [reflexivity|]. lia.
  - assert (0 < reviewed) as Hr by lia.
    split; [apply rate_bounds; lia|].
    unfold float_mul_int, truediv. change (inject_Z 100) with 100%Q.
    assert (0 < inject_Z reviewed)%Q as Hr' by (rewrite (Zlt_Qlt 0 reviewed) in Hr; exact Hr).
    split.
    + intros ->. assert (inject_Z 0 / inject_Z reviewed == 0)%Q as E
        by (unfold Qdiv; apply Qmult_0_l).
      assert (0 <= inject_Z 0 / inject_Z reviewed)%Q as G by (rewrite E; lra).
      pose proof (round64_eq _ 0%Q G E) as E'. rewrite round64_0 in E'.
      assert (round64 (inject_Z 0 / inject_Z reviewed) * 100 == 0)%Q as E2
        by (rewrite E'; ring).
      assert (0 <= round64 (inject_Z 0 / inject_Z reviewed) * 100)%Q as G2
        by (rewrite E2; lra).
      pose proof (round64_eq _ 0%Q G2 E2) as E3. by rewrite round64_0 in E3.
    + intros Hpos. apply round64_positive.
      assert (0 < inject_Z (LintStats.fp s))%Q as Hf'
        by (rewrite (Zlt_Qlt 0 (LintStats.fp s)) in Hpos; exact Hpos).
      assert (0 < round64 (inject_Z (LintStats.fp s) / inject_Z reviewed))%Q as Hq.
      { apply round64_positive. apply Qlt_shift_div_l; [exact Hr'|]. lra. }
      lra.
Qed.

Lemma fp_row_status kv :
  sane_counts kv.2 ->
  let row := fp_row kv in
  let rate := FpRow.fp_rate row in
  0 <= FpRow.fp row <= FpRow.reviewed row /\ FpRow.reviewed row <= FpRow.total row
  /\ (0 <= rate <= 100)%Q
  /\ (FpRow.status row = Unreviewed <-> FpRow.reviewed row = 0)
  /\ (FpRow.status row = Clean <-> 0 < FpRow.reviewed row /\ FpRow.fp row = 0)
  /\ (FpRow.status row = LowFP <-> (0 < rate)%Q /\ (rate < 10)%Q)
  /\ (FpRow.status row = MediumFP <-> (10 <= rate)%Q /\ (rate < 25)%Q)
  /\ (FpRow.status row = HighFP <-> (25 <= rate)%Q).
Proof.
  intros Hs. destruct (calculate_fp_rate_sign _ Hs) as (Hb & Hz & Hp).
  destruct Hs as (Hc & Hf & Hw & Hn & Ht). cbv zeta. unfold fp_row.
  cbn [FpRow.fp FpRow.reviewed FpRow.total FpRow.fp_rate FpRow.status].
  set (s := kv.2) in *. set (rate := calculate_fp_rate s) in *.
  set (reviewed := LintStats.confirmed s + LintStats.fp s + LintStats.wont_fix s).
  split; [lia|]. split; [lia|]. split; [exact Hb|].
  destruct (Z.eqb_spec reviewed 0) as [H0|H0].
  - assert (LintStats.fp s = 0) as Hfp by lia. specialize (Hz Hfp).
    repeat split; try done; try lia; try (intros [? ?]; lra); intros; lra.
  - destruct (Qeq_bool rate 0) eqn:E0.
    + apply Qeq_bool_iff in E0.
      assert (LintStats.fp s = 0) as Hfp.
      { destruct (Z.eq_dec (LintStats.fp s) 0) as [|Hne]; [done|].
        assert (0 < LintStats.fp s) as Hpos by lia. specialize (Hp Hpos). lra. }
      repeat split; try done; try lia; try (intros [? ?]; lra); intros; lra.
    + apply Qeq_bool_neq in E0.
      assert (0 < LintStats.fp s) as Hpos.
      { destruct (Z.eq_dec (LintStats.fp s) 0) as [Hz0|Hne]; [|lia].
        exfalso. apply E0. by apply Hz. }
      specialize (Hp Hpos).
      destruct (float_lt_int rate 10) eqn:E1; [|destruct (float_lt_int rate 25) eqn:E2].
      * apply float_lt_int_spec in E1. change (inject_Z 10) with 10%Q in E1.
        repeat split; try done; try lia; try (intros [? ?]; lra); intros; lra.
      * apply not_true_iff_false in E1. rewrite float_lt_int_spec in E1.
        apply Qnot_lt_le in E1. apply float_lt_int_spec in E2.
        change (inject_Z 10) with 10%Q in E1. change (inject_Z 25) with 25%Q in E2.
        repeat split; try done; try lia; try (intros [? ?]; lra); intros; lra.
      * apply not_true_iff_false in E2. rewrite float_lt_int_spec in E2.
        apply Qnot_lt_le in E2. change (inject_Z 25) with 25%Q in E2.
        repeat split; try done; try lia; try (intros [? ?]; lra); intros; lra.
Qed.

(** X28.  The table ["FP Rate by Lint"] of the false-positive report has
    one row for each lint of the statistics, in descending order of the
    number of false positives.  In every row the false positives are part
    of the reviewed findings and these part of the total, and the rate is a
    percentage.  The row is marked unreviewed exactly when nothing of the
    lint is reviewed, clean exactly when something is reviewed and nothing
    is a false positive, and otherwise low, medium or high as the rate is
    below 10, from 10 up to but not including 25, or at least 25. *)
Theorem X28_rate_table db :
  let stats := analyze_findings db in
  let rows := fp_table stats in
  FpRow.lint <$> rows ≡ₚ dict_keys (Stats.by_lint stats)
  /\ StronglySorted (fun a b => FpRow.fp b <= FpRow.fp a) rows
  /\ Forall (fun row =>
       let rate := FpRow.fp_rate row in
       0 <= FpRow.fp row <= FpRow.reviewed row /\ FpRow.reviewed row <= FpRow.total row
       /\ (0 <= rate <= 100)%Q
       /\ (FpRow.status row = Unreviewed <-> FpRow.reviewed row = 0)
       /\ (FpRow.status row = Clean <-> 0 < FpRow.reviewed row /\ FpRow.fp row = 0)
       /\ (FpRow.status row = LowFP <-> (0 < rate)%Q /\ (rate < 10)%Q)
       /\ (FpRow.status row = MediumFP <-> (10 <= rate)%Q /\ (rate < 25)%Q)
       /\ (FpRow.status row = HighFP <-> (25 <= rate)%Q)) rows.
Proof.
  cbv zeta. unfold fp_table.
  set (by_lint := Stats.by_lint (analyze_findings db)).
  set (key := fun kv : string * LintStats.t => - LintStats.fp kv.2).
  pose proof (sort_by_key_perm key by_lint) as Hperm.
  split; [|split].
  - rewrite <- list_fmap_compose. unfold dict_keys.
    etrans; [apply fmap_Permutation, Hperm|].
    assert ((FpRow.lint ∘ fp_row) <$> by_lint = fst <$> by_lint) as ->
      by (apply list_fmap_ext; by intros ? []).
    done.
  - clear Hperm. pose proof (sort_by_key_sorted key by_lint) as Hs.
    induction Hs as [|x l Hs IH Hx]; [constructor|].
    csimpl. constructor; [done|].
    apply Forall_fmap. eapply Forall_impl; [exact Hx|].
    intros y Hy. unfold key in Hy. cbn. lia.
  - apply Forall_fmap. rewrite Hperm.
    pose proof (by_lint_sane db) as Hsane. fold by_lint in Hsane.
    unfold dict_values in Hsane. rewrite Forall_fmap in Hsane.
    eapply Forall_impl; [exact Hsane|]. intros kv Hkv. by apply fp_row_status.
Qed.

(** *** The statistics report *)

Lemma by_status_get db status :
  default 0 (dict_get (Stats.by_status (analyze_findings db)) status)
  = with_status status (dict_values db).
Proof.
  unfold analyze_findings. rewrite by_status_foldl, by_status_acc.
  cbn [Stats.by_status dict_get default].
  destruct (Z.eqb_spec (with_status status (dict_values db)) 0); cbn; lia.
Qed.

Lemma status_partition findings :
  with_status "confirmed" findings + with_status "false_positive" findings
  + with_status "wont_fix" findings + with_status "needs_review" findings
  + other_status findings = Z.of_nat (length findings).
Proof.
  unfold with_status, other_status, counted_status.
  induction findings as [|f fs IH]; [done|]. cbn [List.filter].
  destruct (String.eqb_spec (db_status f) "confirmed") as [E|];
    [rewrite E; cbn [String.eqb Ascii.eqb Bool.eqb orb negb length]; lia|].
  destruct (String.eqb_spec (db_status f) "false_positive") as [E|];
    [rewrite E; cbn [String.eqb Ascii.eqb Bool.eqb orb negb length]; lia|].
  destruct (String.eqb_spec (db_status f) "wont_fix") as [E|];
    [rewrite E; cbn [String.eqb Ascii.eqb Bool.eqb orb negb length]; lia|].
  destruct (String.eqb (db_status f) "needs_review"); cbn [orb negb length]; lia.
Qed.

Lemma with_status_bounds status findings :
  0 <= with_status status findings <= Z.of_nat (length findings).
Proof.
  unfold with_status. split; [lia|].
  induction findings as [|f fs IH]; [done|]. cbn [List.filter].
  destruct (String.eqb _ _); cbn [length]; lia.
Qed.

Lemma count_group_status_sane status s :
  sane_group s -> sane_group (count_group_status status s).
Proof.
  unfold sane_group, count_group_status. intros (? & ? & ?).
  repeat destruct (String.eqb _ _); cbn; lia.
Qed.

Lemma groups_sane findings stats :
  Forall sane_group (dict_values (Stats.by_repo stats)) ->
  Forall sane_group (dict_values (Stats.by_category stats)) ->
  let stats' := foldl analyze_finding stats findings in
  Forall sane_group (dict_values (Stats.by_repo stats'))
  /\ Forall sane_group (dict_values (Stats.by_category stats')).
Proof.
  cbv zeta. revert stats. induction findings as [|f fs IH]; intros stats Hr Hc; [done|].
  cbn [foldl]. apply IH; unfold analyze_finding; cbn [Stats.by_repo Stats.by_category];
    unfold dict_upd; (apply dict_set_Forall; [done|]); apply count_group_status_sane.
  - destruct (dict_get (Stats.by_repo stats) _) as [s|] eqn:E; cbn [default].
    + apply dict_get_values in E. rewrite Forall_forall in Hr. by apply Hr.
    + unfold sane_group. cbn. lia.
  - destruct (dict_get (Stats.by_category stats) _) as [s|] eqn:E; cbn [default].
    + apply dict_get_values in E. rewrite Forall_forall in Hc. by apply Hc.
    + unfold sane_group. cbn. lia.
Qed.

(** X29.  In the statistics report the four rows of the status table
    count, together with the entries whose status is none of the four, every
    entry of the database once, and every percentage lies between 0 and
    100.  The category table holds the categories of the statistics in
    ascending order of their names, the repository table the repositories
    in descending order of their totals, and in every row of the two the
    confirmed findings and the false positives together do not exceed the
    total. *)
Theorem X29_statistics_report db :
  let stats := analyze_findings db in
  zsum ((fun row : string * Z * float => row.1.2) <$> status_rows stats)
  + other_status (dict_values db) = Stats.total stats
  /\ Forall (fun row : string * Z * float =>
               0 <= row.1.2 <= Stats.total stats /\ (0 <= row.2 <= 100)%Q)
       (status_rows stats)
  /\ category_rows stats ≡ₚ Stats.by_category stats
  /\ StronglySorted (fun a b : string * GroupStats.t => String.leb a.1 b.1 = true)
       (category_rows stats)
  /\ repo_rows stats ≡ₚ Stats.by_repo stats
  /\ StronglySorted (fun a b : string * GroupStats.t =>
                       GroupStats.total b.2 <= GroupStats.total a.2) (repo_rows stats)
  /\ Forall (fun kv : string * GroupStats.t => sane_group kv.2)
       (category_rows stats ++ repo_rows stats).
Proof.
  cbv zeta.
  assert (Stats.total (analyze_findings db) = Z.of_nat (length (dict_values db))) as Ht.
  { unfold analyze_findings.
    destruct (analyze_findings_balance (dict_values db) (Stats.mk 0 [] [] [] [] [] []))
      as (-> & _). cbn [Stats.total]. lia. }
  split; [|split; [|split; [|split; [|split; [|split]]]]].
  - unfold status_rows. csimpl. rewrite !zsum_cons, zsum_nil, !by_status_get, Ht.
    pose proof (status_partition (dict_values db)). lia.
  - unfold status_rows. rewrite Forall_fmap. apply Forall_forall. intros status _.
    unfold compose. cbn [fst snd]. rewrite by_status_get, Ht.
    pose proof (with_status_bounds status (dict_values db)) as Hb.
    split; [exact Hb|].
    destruct (Z.ltb_spec 0 (Z.of_nat (length (dict_values db)))) as [Hpos|Hz].
    + apply rate_bounds; [exact Hb|exact Hpos].
    + split; vm_compute; discriminate.
  - unfold category_rows. apply sort_by_perm.
  - unfold category_rows.
    apply (sort_by_sorted (fun a b : string * GroupStats.t => String.leb a.1 b.1)).
    + intros a b. apply String.leb_total.
    + intros a b c. apply string_leb_trans.
  - unfold repo_rows. apply sort_by_key_perm.
  - unfold repo_rows.
    pose proof (sort_by_key_sorted (fun kv : string * GroupStats.t => - GroupStats.total kv.2)
                  (Stats.by_repo (analyze_findings db))) as Hs.
    induction Hs as [|x l Hs IH Hx]; constructor; [done|].
    eapply Forall_impl; [exact Hx|]. intros y Hy. cbn in Hy. lia.
  - destruct (groups_sane (dict_values db) (Stats.mk 0 [] [] [] [] [] []))
      as [Hr Hc]; [constructor|constructor|].
    fold (analyze_findings db) in Hr, Hc. unfold dict_values in Hr, Hc.
    rewrite Forall_fmap in Hr, Hc. apply Forall_app. split.
    + unfold category_rows. by rewrite sort_by_perm.
    + unfold repo_rows. by rewrite sort_by_key_perm.
Qed.

(** *** The Move sources of a repository *)







